(** * Lab scheduler: booking, assignment and weekly-schedule engine

    A shallow embedding of [main.py] (the FastAPI application of the
    computer-lab scheduler) and the properties of its booking / quota /
    schedule logic.

    Conventions of the embedding
    - Python [int] is [Z]; [str] is [string], read as a sequence of ASCII
      characters (the case and whitespace functions below are the ASCII
      restrictions of Python's and SQLite's).
    - A [datetime] is its wall-clock reading in microseconds counted from
      1970-01-01T00:00:00, together with the UTC offset of its [tzinfo] when
      it is aware.
    - The SQLite database is a record of four tables, each the list of its
      rows in rowid order.  A [DateTime] column keeps the wall-clock fields
      of the value bound to it and nothing of its [tzinfo]; it is read
      back as a naive [datetime].
    - A request handler is a computation in a state-and-exception monad
      over the committed database.  It is the body of the Python function:
      the account that FastAPI's authentication dependency resolved is an
      argument ([current_user]), as it is when the repository's tests call
      the handlers.
    - The zone Africa/Addis_Ababa is taken with the offset UTC+3, which is
      the zone's for every local time from 1942-08-02 on; theorems about a
      date or time that a request supplies are stated for that era
      ([in_EAT_era]).  Python's bound on years (1 to 9999) is modelled
      where a request's date is localized ([pytz_localize]); elsewhere
      datetime arithmetic is total.
    - An INTEGER column holds 64 bits.  Where a request supplies an
      integer that a statement stores, the [OverflowError] of the driver
      is modelled ([Session.bind_integers]); theorems about other
      integers of a request are stated for those the database can bind
      ([fits_integer]). *)

From Stdlib Require Import ZArith List String Ascii Bool Lia DecimalString.
From Stdlib Require Import Sorted Permutation.
From Stdlib Require DecimalPos DecimalN.
Import ListNotations.

Local Open Scope string_scope.
Local Open Scope Z_scope.

(* ================================================================== *)
(** * Python and SQL string built-ins (ASCII) *)
(* ================================================================== *)

Module Str.

(** [str.isspace] on an ASCII character: TAB, LF, VT, FF, CR, the four
    separators FS GS RS US, and SPACE. *)
Definition isspace (c : ascii) : bool :=
  let n := nat_of_ascii c in
  ((9 <=? n)%nat && (n <=? 13)%nat) || ((28 <=? n)%nat && (n <=? 32)%nat).

Definition is_upper (c : ascii) : bool :=
  let n := nat_of_ascii c in ((65 <=? n)%nat && (n <=? 90)%nat).

Definition lower_char (c : ascii) : ascii :=
  if is_upper c then ascii_of_nat (nat_of_ascii c + 32) else c.

(** Drop the leading, resp. trailing, characters that satisfy [p]. *)
Fixpoint lstrip (p : ascii -> bool) (l : list ascii) : list ascii :=
  match l with
  | [] => []
  | c :: l' => if p c then lstrip p l' else l
  end.

Fixpoint rstrip (p : ascii -> bool) (l : list ascii) : list ascii :=
  match l with
  | [] => []
  | c :: l' =>
      match rstrip p l' with
      | [] => if p c then [] else [c]
      | kept => c :: kept
      end
  end.

Definition strip_with (p : ascii -> bool) (s : string) : string :=
  string_of_list_ascii (rstrip p (lstrip p (list_ascii_of_string s))).

(** [s.strip()] *)
Definition strip (s : string) : string := strip_with isspace s.

(** [s.lower()] *)
Definition lower (s : string) : string :=
  string_of_list_ascii (map lower_char (list_ascii_of_string s)).

(** SQLite's [trim(X)] removes spaces (0x20) only. *)
Definition sql_trim (s : string) : string :=
  strip_with (fun c => Ascii.eqb c " "%char) s.

(** SQLite's [lower(X)] folds the ASCII letters only. *)
Definition sql_lower (s : string) : string := lower s.

(** [c in s] for a one-character [c]. *)
Definition contains (c : ascii) (s : string) : bool :=
  existsb (Ascii.eqb c) (list_ascii_of_string s).

(** [s.replace(c, t)] for a one-character [c]. *)
Fixpoint replace (c : ascii) (t : string) (s : string) : string :=
  match s with
  | EmptyString => EmptyString
  | String a s' =>
      if Ascii.eqb a c then (t ++ replace c t s')%string else String a (replace c t s')
  end.

(** [s.split(c)] for a one-character separator: never the empty list. *)
Fixpoint split (c : ascii) (s : string) : list string :=
  match s with
  | EmptyString => [EmptyString]
  | String a s' =>
      if Ascii.eqb a c then EmptyString :: split c s'
      else match split c s' with
           | [] => [String a EmptyString]
           | w :: ws => String a w :: ws
           end
  end.

Definition len (s : string) : Z := Z.of_nat (String.length s).

(** [s.isascii()]: every character is below 128.  On such strings
    [strip] and [lower] above are Python's; on others Python also folds
    letters and strips whitespace outside ASCII. *)
Definition isascii (s : string) : bool :=
  forallb (fun c => (nat_of_ascii c <? 128)%nat) (list_ascii_of_string s).

End Str.

(* ================================================================== *)
(** * Dates and times *)
(* ================================================================== *)

(** A naive [datetime] is a wall-clock reading; an aware one also carries
    the UTC offset of its zone.  Both in microseconds. *)
Inductive datetime : Type :=
| Naive (wall : Z)
| Aware (wall : Z) (utcoffset : Z).

Module Time.

Definition SECOND : Z := 1000000.
Definition MINUTE : Z := 60 * SECOND.
Definition HOUR : Z := 60 * MINUTE.
Definition DAY : Z := 24 * HOUR.

Definition wall (dt : datetime) : Z :=
  match dt with Naive w => w | Aware w _ => w end.

Definition tzinfo (dt : datetime) : option Z :=
  match dt with Naive _ => None | Aware _ off => Some off end.

(** [dt.date()], as the number of days since 1970-01-01. *)
Definition date (dt : datetime) : Z := wall dt / DAY.

(** [dt.weekday()], Monday = 0.  1970-01-01 was a Thursday. *)
Definition weekday (dt : datetime) : Z := (date dt + 3) mod 7.

(** [dt.replace(hour=h, minute=0, second=0, microsecond=0)] *)
Definition replace_hour (h : Z) (dt : datetime) : datetime :=
  let w := date dt * DAY + h * HOUR in
  match dt with Naive _ => Naive w | Aware _ off => Aware w off end.

(** [dt + timedelta(days=n)] and [dt - timedelta(days=n)] *)
Definition add_days (dt : datetime) (n : Z) : datetime :=
  match dt with
  | Naive w => Naive (w + n * DAY)
  | Aware w off => Aware (w + n * DAY) off
  end.

(** [tz.localize(dt)] of pytz, for a zone of fixed offset, on a naive
    value (the program calls it on naive values only). *)
Definition localize (off : Z) (dt : datetime) : datetime :=
  Aware (wall dt) off.

(** [dt.astimezone(tz)]: the same instant read in another zone.  (On a
    naive value Python takes the system zone; the program only converts
    aware values, the naive case here takes UTC.) *)
Definition astimezone (off' : Z) (dt : datetime) : datetime :=
  match dt with
  | Aware w off => Aware (w - off + off') off'
  | Naive w => Aware (w + off') off'
  end.

(** The value a [DateTime] column keeps of a bound [datetime]: its
    wall-clock fields. *)
Definition to_column (dt : datetime) : Z := wall dt.

(** ** The proleptic Gregorian calendar of [datetime(year, month, day)] *)

Definition is_leap (y : Z) : bool :=
  (y mod 4 =? 0) && (negb (y mod 100 =? 0) || (y mod 400 =? 0)).

Definition days_before_year (y : Z) : Z :=
  let y := y - 1 in y * 365 + y / 4 - y / 100 + y / 400.

Definition days_in_month (y m : Z) : Z :=
  if m =? 2 then (if is_leap y then 29 else 28)
  else if (m =? 4) || (m =? 6) || (m =? 9) || (m =? 11) then 30
  else 31.

Definition days_before_month (y m : Z) : Z :=
  fold_left (fun acc k => acc + days_in_month y (Z.of_nat k))
            (seq 1 (Z.to_nat (m - 1))) 0.

Definition ymd2ord (y m d : Z) : Z :=
  days_before_year y + days_before_month y m + d.

(** Ordinal of 1970-01-01. *)
Definition EPOCH_ORDINAL : Z := 719163.

(** [datetime(y, m, d)]; [None] is Python's [ValueError]. *)
Definition datetime_ymd (y m d : Z) : option datetime :=
  if (1 <=? y) && (y <=? 9999) && (1 <=? m) && (m <=? 12)
     && (1 <=? d) && (d <=? days_in_month y m)
  then Some (Naive ((ymd2ord y m d - EPOCH_ORDINAL) * DAY))
  else None.

(** [datetime.min] and [datetime.max]: 0001-01-01T00:00:00 and
    9999-12-31T23:59:59.999999.  Arithmetic that leaves this range raises
    [OverflowError]. *)
Definition MIN_WALL : Z := (ymd2ord 1 1 1 - EPOCH_ORDINAL) * DAY.
Definition MAX_WALL : Z := (ymd2ord 9999 12 31 - EPOCH_ORDINAL) * DAY + DAY - 1.

Definition representable (w : Z) : bool := (MIN_WALL <=? w) && (w <=? MAX_WALL).

(** [datetime(y, m, d, hh, mm)], used by the sample parsers below. *)
Definition datetime_ymdhm (y m d hh mm : Z) : option datetime :=
  match datetime_ymd y m d with
  | Some dt =>
      if (0 <=? hh) && (hh <=? 23) && (0 <=? mm) && (mm <=? 59)
      then Some (Naive (wall dt + hh * HOUR + mm * MINUTE))
      else None
  | None => None
  end.

End Time.

(** ** Timezone setup and helpers of [main.py] *)

(** [pytz.timezone('Africa/Addis_Ababa')]: East Africa Time, UTC+3 with no
    daylight saving. *)
Definition ADDIS_ABABA_TZ : Z := 3 * Time.HOUR.

Definition UTC : Z := 0.

(** [ADDIS_ABABA_TZ.localize(dt)] on a naive [dt].  pytz looks the zone
    up one day before and one day after [dt]; when either step leaves the
    range of [datetime] the call raises [OverflowError] ([None]), which
    happens on the first day of year 1 and on the last day of year 9999. *)
Definition pytz_localize (dt : datetime) : option datetime :=
  if Time.representable (Time.wall dt - Time.DAY)
     && Time.representable (Time.wall dt + Time.DAY)
  then Some (Time.localize ADDIS_ABABA_TZ dt)
  else None.

(** The tz database gives the zone other offsets (+02:27:16, +02:30,
    +02:45 and +03:00 by turns) up to the night of 1942-07-31; from
    1942-08-02 on, every local time is at +03:00.  [EAT_FIRST_DAY] is the
    day number of 1942-08-02.  A datetime is in the era in which the
    offset above is the zone's when its wall clock is on or after that
    day and a day or more before [datetime.max]. *)
Definition EAT_FIRST_DAY : Z :=
  Eval vm_compute in Time.ymd2ord 1942 8 2 - Time.EPOCH_ORDINAL.

Definition in_EAT_era (dt : datetime) : Prop :=
  EAT_FIRST_DAY * Time.DAY <= Time.wall dt
  /\ Time.wall dt + Time.DAY <= Time.MAX_WALL.

(** [get_current_time()]: [datetime.now(ADDIS_ABABA_TZ)], where [clock] is
    the current instant in microseconds since the epoch (UTC). *)
Definition get_current_time (clock : Z) : datetime :=
  Aware (clock + ADDIS_ABABA_TZ) ADDIS_ABABA_TZ.

Definition convert_to_utc (dt : datetime) : datetime :=
  let dt :=
    match Time.tzinfo dt with
    | None => Time.localize ADDIS_ABABA_TZ dt
    | Some _ => dt
    end in
  Time.astimezone UTC dt.

Definition convert_from_utc (dt : datetime) : datetime :=
  let dt :=
    match Time.tzinfo dt with
    | None => Time.localize UTC dt
    | Some _ => dt
    end in
  Time.astimezone ADDIS_ABABA_TZ dt.

Definition get_monday (date_in_tz : datetime) : datetime :=
  let base := Time.replace_hour 0 date_in_tz in
  let weekday := Time.weekday base in
  Time.add_days base (- weekday).

Definition day_range_in_tz (target_date : datetime) : datetime * datetime :=
  let start := Time.replace_hour 9 target_date in
  let end_ := Time.replace_hour 17 target_date in
  (convert_to_utc start, convert_to_utc end_).

(* ================================================================== *)
(** * Database models *)
(* ================================================================== *)

(** One module per ORM class; the fields are the columns, a nullable
    column that the program reads as possibly [None] is an [option]. *)

Module User.
Record t : Type := mk {
  id : Z;
  username : string;
  email : string;
  hashed_password : string;
  role : string;
  is_active : option bool;
  created_at : option Z
}.
End User.

Module Computer.
Record t : Type := mk {
  id : Z;
  name : string;
  status : string;
  current_user : option string;
  last_updated : option Z
}.
End Computer.

Module Student.
Record t : Type := mk {
  id : Z;
  name : string;
  email : string;
  student_id : string;
  user_id : option Z;
  study : option string;
  department : option string;
  registered_at : option Z;
  active : option bool;
  usage_days_total : option Z;
  usage_days_remaining : option Z;
  usage_last_decrement_at : option Z
}.
End Student.

Module Booking.
Record t : Type := mk {
  id : Z;
  computer_id : Z;
  student_id : Z;
  start_time : Z;
  end_time : Z;
  status : string;
  created_at : Z
}.
End Booking.

(** The committed content of [lab_scheduler.db]. *)
Record DB : Type := mkDB {
  users : list User.t;
  students : list Student.t;
  computers : list Computer.t;
  bookings : list Booking.t
}.

(* ================================================================== *)
(** * Request handlers as computations over the database *)
(* ================================================================== *)

Inductive exn : Type :=
| HTTPException (status_code : Z) (detail : string)
| IntegrityError
| OverflowError.

Inductive outcome (A : Type) : Type :=
| Return (a : A)
| Raise (e : exn).
Arguments Return {A} a.
Arguments Raise {A} e.

(** A handler reads and commits to the database and either returns or
    raises; what was committed before a raise stays committed. *)
Definition M (A : Type) : Type := DB -> outcome A * DB.

Definition ret {A} (a : A) : M A := fun db => (Return a, db).

Definition bind {A B} (c : M A) (k : A -> M B) : M B :=
  fun db =>
    match c db with
    | (Return a, db') => k a db'
    | (Raise e, db') => (Raise e, db')
    end.

Definition raise {A} (e : exn) : M A := fun db => (Raise e, db).

(** The state of the tables as the session sees it. *)
Definition session : M DB := fun db => (Return db, db).

(** [db.commit()] of the pending changes, given as the new table state. *)
Definition commit (db' : DB) : M unit := fun _ => (Return tt, db').

Declare Scope handler_scope.
Delimit Scope handler_scope with handler.
Notation "x <- c ;; k" := (bind c (fun x => k))
  (at level 100, c at next level, right associativity) : handler_scope.
Notation "c ;; k" := (bind c (fun _ => k))
  (at level 100, right associativity) : handler_scope.
Local Open Scope handler_scope.

(** [if cond: raise e] *)
Definition raise_if (cond : bool) (e : exn) : M unit :=
  if cond then raise e else ret tt.

(** [for x in xs: ... append] *)
Fixpoint for_each {A B} (xs : list A) (body : A -> M B) : M (list B) :=
  match xs with
  | [] => ret []
  | x :: xs' =>
      y <- body x ;;
      ys <- for_each xs' body ;;
      ret (y :: ys)
  end.

Definition run {A} (c : M A) (db : DB) : outcome A := fst (c db).
Definition exec {A} (c : M A) (db : DB) : DB := snd (c db).

(** ** Query building blocks *)

Module Query.

(** [.first()] of a query with no [ORDER BY]: the first matching row
    in rowid order. *)
Definition first {A} (p : A -> bool) (rows : list A) : option A :=
  find p rows.

(** [.count()] *)
Definition count {A} (p : A -> bool) (rows : list A) : Z :=
  Z.of_nat (List.length (filter p rows)).

Fixpoint insert_by {A} (le : A -> A -> bool) (x : A) (l : list A) : list A :=
  match l with
  | [] => [x]
  | y :: l' => if le x y then x :: l else y :: insert_by le x l'
  end.

(** [.order_by(key.asc())]: a sort that keeps rows of equal key in
    rowid order. *)
Definition order_by {A} (le : A -> A -> bool) (rows : list A) : list A :=
  fold_right (insert_by le) [] rows.

(** [column.in_(values)] *)
Definition in_ (v : string) (values : list string) : bool :=
  existsb (String.eqb v) values.

(** The rowid SQLite gives a new row of an [INTEGER PRIMARY KEY] table:
    one more than the largest in use. *)
Definition next_id (ids : list Z) : Z := fold_right Z.max 0 ids + 1.

End Query.

(** Python truth value of an [Optional[int]] and [not] of an
    [Optional[bool]]. *)
Definition truthy_int (x : option Z) : bool :=
  match x with Some n => negb (n =? 0) | None => false end.

Definition not_bool (x : option bool) : bool :=
  match x with Some b => negb b | None => true end.

Definition is_False (x : option bool) : bool :=
  match x with Some false => true | _ => false end.

Definition ACTIVE_STATUSES : list string := ["scheduled"; "active"].

(** An INTEGER of SQLite is a signed 64-bit value. *)
Definition fits_integer (n : Z) : bool := (- 2 ^ 63 <=? n) && (n <? 2 ^ 63).

(** ** Session operations *)

Module Session.

Definition set_students (db : DB) (l : list Student.t) : DB :=
  mkDB (users db) l (computers db) (bookings db).
Definition set_computers (db : DB) (l : list Computer.t) : DB :=
  mkDB (users db) (students db) l (bookings db).
Definition set_bookings (db : DB) (l : list Booking.t) : DB :=
  mkDB (users db) (students db) (computers db) l.

(** The [unique=True] indexes of [students]: [email] and [student_id]. *)
Definition student_unique_clash (row : Student.t) (rows : list Student.t) : bool :=
  existsb (fun r => (Student.email r =? Student.email row)%string
                    || (Student.student_id r =? Student.student_id row)%string) rows.

(** [db.add(student); db.commit(); db.refresh(student)] *)
Definition add_student (new : Z -> Student.t) : M Student.t :=
  db <- session ;;
  let row := new (Query.next_id (map Student.id (students db))) in
  if student_unique_clash row (students db) then raise IntegrityError
  else (commit (set_students db (students db ++ [row])) ;; ret row).

(** [db.add(booking); db.commit(); db.refresh(booking)] *)
Definition add_booking (new : Z -> Booking.t) : M Booking.t :=
  db <- session ;;
  let row := new (Query.next_id (map Booking.id (bookings db))) in
  commit (set_bookings db (bookings db ++ [row])) ;; ret row.

(** [db.delete(booking); db.commit()] *)
Definition delete_booking (b : Booking.t) : M unit :=
  db <- session ;;
  commit (set_bookings db
            (filter (fun r => negb (Booking.id r =? Booking.id b)) (bookings db))).

(** [db.commit()] after attribute assignments on a loaded student. *)
Definition update_student (s : Student.t) : M unit :=
  db <- session ;;
  commit (set_students db
            (map (fun r => if Student.id r =? Student.id s then s else r)
                 (students db))).

(** [db.commit()] after attribute assignments on a loaded computer. *)
Definition update_computer (c : Computer.t) : M unit :=
  db <- session ;;
  commit (set_computers db
            (map (fun r => if Computer.id r =? Computer.id c then c else r)
                 (computers db))).

(** The integers a statement sends to the database.  The sqlite3 driver
    raises [OverflowError] on a Python [int] outside the signed 64-bit
    range while it binds the parameters, before the statement runs; the
    pending changes are then not written.  The handlers below call this
    where a request supplies the integer. *)
Definition bind_integers (params : list (option Z)) : M unit :=
  raise_if
    (negb (forallb (fun x => match x with Some n => fits_integer n | None => true end)
                   params))
    OverflowError.

(** [try: c  except IntegrityError: db.rollback(); h] *)
Definition except_IntegrityError {A} (c : M A) (h : M A) : M A :=
  fun db =>
    match c db with
    | (Raise IntegrityError, db') => h db'
    | r => r
    end.

(** Commits of other sessions landing at this point of the handler. *)
Definition interleave (others : DB -> DB) : M unit :=
  fun db => (Return tt, others db).

End Session.

(** ** Attribute assignment on loaded rows *)

Definition student_with_usage (s : Student.t)
    (total remaining : option Z) (last : option Z) (act : option bool) : Student.t :=
  Student.mk (Student.id s) (Student.name s) (Student.email s)
    (Student.student_id s) (Student.user_id s) (Student.study s)
    (Student.department s) (Student.registered_at s)
    act total remaining last.

Definition computer_with_status (c : Computer.t)
    (st : string) (user : option string) (updated : option Z) : Computer.t :=
  Computer.mk (Computer.id c) (Computer.name c) st user updated.

(** [f"{n:03d}"] *)
Definition format_03d (n : Z) : string :=
  let digits := NilZero.string_of_uint (N.to_uint (Z.to_N (Z.abs n))) in
  let pad (w : nat) (s : string) : string :=
    (fold_right (fun _ acc => "0" ++ acc) s
       (seq 0 (w - String.length s)%nat))%string in
  if n <? 0 then ("-" ++ pad 2%nat digits)%string else pad 3%nat digits.

(* ================================================================== *)
(** * Request and response bodies *)
(* ================================================================== *)

Module StudentCreate.
Record t : Type := mk {
  name : string;
  email : string;
  student_id : string;
  study : option string;
  department : option string;
  date : option string;
  usage_days : option Z
}.
End StudentCreate.

Module StudentBookingCreate.
Record t : Type := mk {
  computer_id : Z;
  start_time : string;
  end_time : string
}.
End StudentBookingCreate.

Module ToggleDayPayload.
Record t : Type := mk {
  student_id : Z;
  date : string;
  computer_id : option Z
}.
End ToggleDayPayload.

Module AssignPayload.
Record t : Type := mk {
  computer_id : Z;
  student_id : Z
}.
End AssignPayload.

(** [{"toggled": "removed"}] and [{"toggled": "added", "booking_id": id}] *)
Inductive toggled : Type :=
| removed
| added (booking_id : Z).

(** [{"assigned": True, "usage_days_remaining": r}] *)
Record assigned : Type := mk_assigned {
  usage_days_remaining : option Z
}.

Module UsageResponse.
Record t : Type := mk {
  student_id : Z;
  usage_days_total : option Z;
  usage_days_remaining : option Z
}.
End UsageResponse.

Module DayCell.
Record t : Type := mk {
  date : Z;                 (* [d.date()], days since 1970-01-01 *)
  has_booking : bool;
  booking_id : option Z;
  computer_id : option Z
}.
End DayCell.

Module Row.
Record t : Type := mk {
  student_id : Z;
  student_name : string;
  days : list DayCell.t
}.
End Row.

Module WeekSchedule.
Record t : Type := mk {
  week_start : option Z;
  week_end : option Z;
  days : list string;
  computers : list (Z * string);
  rows : list Row.t
}.
End WeekSchedule.

(** [d.strftime("%A")] *)
Definition day_name (d : datetime) : string :=
  nth (Z.to_nat (Time.weekday d))
      ["Monday"; "Tuesday"; "Wednesday"; "Thursday"; "Friday"; "Saturday"; "Sunday"]
      "".

(* ================================================================== *)
(** * The handlers of [main.py] *)
(* ================================================================== *)

(** The filters the handlers pass to [db.query(Booking).filter(...)]. *)

(** [Booking.computer_id == c, Booking.start_time < end,
     Booking.end_time > start, Booking.status.in_(["scheduled","active"])] *)
Definition computer_conflict (c : Z) (start_utc end_utc : datetime) (b : Booking.t) : bool :=
  (Booking.computer_id b =? c)
  && (Booking.start_time b <? Time.to_column end_utc)
  && (Booking.end_time b >? Time.to_column start_utc)
  && Query.in_ (Booking.status b) ACTIVE_STATUSES.

(** [Booking.student_id == s, Booking.start_time <= end,
     Booking.end_time >= start, Booking.status.in_(["scheduled","active"])] *)
Definition student_on_day (s : Z) (start_utc end_utc : datetime) (b : Booking.t) : bool :=
  (Booking.student_id b =? s)
  && (Booking.start_time b <=? Time.to_column end_utc)
  && (Booking.end_time b >=? Time.to_column start_utc)
  && Query.in_ (Booking.status b) ACTIVE_STATUSES.

(** [Student.user_id == current_user.id] *)
Definition linked_to (current_user : User.t) (s : Student.t) : bool :=
  match Student.user_id s with
  | Some uid => uid =? User.id current_user
  | None => false
  end.

Section Handlers.

(** Functions of the Python library the handlers call on request
    strings: [int(s)], [datetime.strptime(s, fmt)] and
    [datetime.fromisoformat(s)].  On a string they do not accept they
    raise: [None] for [int], and for the two datetime parsers [inl msg]
    with the text of their [ValueError]. *)
Variable py_int : string -> option Z.
Variable strptime : string -> string -> string + datetime.
Variable fromisoformat : string -> string + datetime.

(** [y, m, d = map(int, s.split("-"));
     ADDIS_ABABA_TZ.localize(datetime(y, m, d))] *)
Definition local_date_of_string (s : string) : option datetime :=
  match map py_int (Str.split "-" s) with
  | [Some year; Some month; Some day] =>
      match Time.datetime_ymd year month day with
      | Some dt => pytz_localize dt
      | None => None
      end
  | _ => None
  end.

(** *** POST /api/admin/students *)

(** [others] is what the sessions of concurrent requests commit between
    this handler's duplicate query and its insert; it is [fun db => db]
    when the request runs alone.  The [INSERT] that [db.commit()] sends
    binds the usage days of the request. *)
Definition create_student_admin (others : DB -> DB) (student : StudentCreate.t)
  : M Student.t :=
  let reg_at :=
    match StudentCreate.date student with
    | Some date =>
        if (date =? "")%string then None
        else if Str.len date =? 10 then local_date_of_string date
        else match fromisoformat date with
             | inr dt => Some dt
             | inl _ => None
             end
    | None => None
    end in
  let sid := Str.lower (Str.strip (StudentCreate.student_id student)) in
  let email := Str.lower (Str.strip (StudentCreate.email student)) in
  db <- session ;;
  let dup :=
    Query.first
      (fun r => (Str.sql_lower (Str.sql_trim (Student.student_id r)) =? sid)%string
                || (Str.sql_lower (Str.sql_trim (Student.email r)) =? email)%string)
      (students db) in
  match dup with
  | Some dup =>
      let detail :=
        if (Student.student_id dup =? sid)%string && (Student.email dup =? email)%string
        then "Student ID and email already exist"
        else if (Student.student_id dup =? sid)%string then "Student ID already exists"
        else if (Student.email dup =? email)%string then "Email already exists"
        else "Duplicate student" in
      raise (HTTPException 409 detail)
  | None =>
      let usage :=
        match StudentCreate.usage_days student with
        | Some n => if negb (n =? 0) && (n >? 0) then Some n else None
        | None => None
        end in
      Session.interleave others ;;
      Session.except_IntegrityError
        (Session.bind_integers [usage; usage] ;;
         Session.add_student (fun id =>
           Student.mk id (StudentCreate.name student) email sid None
             (StudentCreate.study student) (StudentCreate.department student)
             (option_map Time.to_column reg_at)
             (Some true) usage usage None))
        (raise (HTTPException 409 "Student ID or email already exists"))
  end.

(** *** GET /api/admin/schedule/week *)
Definition get_week_schedule (clock : Z) : M WeekSchedule.t :=
  let today := get_current_time clock in
  let monday := get_monday today in
  let days := map (fun i => Time.add_days monday (Z.of_nat i)) (seq 0 5) in
  db <- session ;;
  let students :=
    Query.order_by (fun a b => String.leb (Student.name a) (Student.name b))
                   (students db) in
  let computers :=
    Query.order_by (fun a b => String.leb (Computer.name a) (Computer.name b))
                   (computers db) in
  schedule <-
    for_each students (fun student =>
      cells <-
        for_each days (fun d =>
          let '(start_utc, end_utc) := day_range_in_tz d in
          db <- session ;;
          let booking :=
            hd_error
              (Query.order_by
                 (fun a b => Booking.start_time a <=? Booking.start_time b)
                 (filter (student_on_day (Student.id student) start_utc end_utc)
                         (bookings db))) in
          match booking with
          | Some booking =>
              ret (DayCell.mk (Time.date d) true
                     (Some (Booking.id booking)) (Some (Booking.computer_id booking)))
          | None =>
              ret (DayCell.mk (Time.date d) false None None)
          end) ;;
      ret (Row.mk (Student.id student) (Student.name student) cells)) ;;
  ret (WeekSchedule.mk
         (option_map Time.date (hd_error days))
         (option_map Time.date (hd_error (rev days)))
         (map day_name days)
         (map (fun c => (Computer.id c, Computer.name c)) computers)
         schedule).

(** *** POST /api/admin/schedule/toggle *)
Definition toggle_day_booking (clock : Z) (payload : ToggleDayPayload.t) : M toggled :=
  match local_date_of_string (ToggleDayPayload.date payload) with
  | None => raise (HTTPException 400 "Invalid date format")
  | Some local_date =>
      let '(start_utc, end_utc) := day_range_in_tz local_date in
      db <- session ;;
      let existing :=
        Query.first
          (student_on_day (ToggleDayPayload.student_id payload) start_utc end_utc)
          (bookings db) in
      match existing with
      | Some existing =>
          Session.delete_booking existing ;;
          ret removed
      | None =>
          match ToggleDayPayload.computer_id payload with
          | Some computer_id =>
              if truthy_int (Some computer_id) then
                let conflict :=
                  Query.count (computer_conflict computer_id start_utc end_utc)
                              (bookings db) in
                raise_if (negb (conflict =? 0))
                  (HTTPException 400 "Computer not available for selected day") ;;
                db_booking <-
                  Session.add_booking (fun id =>
                    Booking.mk id computer_id (ToggleDayPayload.student_id payload)
                      (Time.to_column start_utc) (Time.to_column end_utc)
                      "scheduled"
                      (Time.to_column (get_current_time clock))) ;;
                ret (added (Booking.id db_booking))
              else raise (HTTPException 400 "computer_id required to add booking")
          | None => raise (HTTPException 400 "computer_id required to add booking")
          end
      end
  end.

(** *** POST /api/admin/assign *)
Definition admin_assign (clock : Z) (payload : AssignPayload.t) : M assigned :=
  db <- session ;;
  let computer :=
    Query.first (fun c => Computer.id c =? AssignPayload.computer_id payload)
                (computers db) in
  let student :=
    Query.first (fun s => Student.id s =? AssignPayload.student_id payload)
                (students db) in
  match computer, student with
  | Some computer, Some student =>
      (* Usage expiry check *)
      raise_if
        (match Student.usage_days_remaining student with
         | Some remaining => remaining <=? 0
         | None => false
         end)
        (HTTPException 400 "Student's usage days have expired") ;;
      (* Block assignment if linked user is inactive *)
      raise_if
        (truthy_int (Student.user_id student)
         && match Student.user_id student with
            | Some uid =>
                match Query.first (fun u => User.id u =? uid) (users db) with
                | Some u => not_bool (User.is_active u)
                | None => false
                end
            | None => false
            end)
        (HTTPException 400 "Student is inactive and cannot be assigned") ;;
      (* Fallback: block if student's own active flag is false *)
      raise_if (is_False (Student.active student))
        (HTTPException 400 "Student is inactive and cannot be assigned") ;;
      raise_if (Computer.status computer =? "in_use")%string
        (HTTPException 400 "Computer already in use") ;;
      (* Decrement usage days once per calendar day max *)
      let now := get_current_time clock in
      let student :=
        match Student.usage_days_remaining student with
        | Some remaining =>
            let should_decrement :=
              match Student.usage_last_decrement_at student with
              | None => true
              | Some column =>
                  let loaded := Naive column in
                  let last :=
                    match Time.tzinfo loaded with
                    | None => convert_from_utc loaded
                    | Some _ => loaded
                    end in
                  Time.date now >? Time.date last
              end in
            if should_decrement && (remaining >? 0) then
              let remaining := remaining - 1 in
              student_with_usage student
                (Student.usage_days_total student)
                (Some remaining)
                (Some (Time.to_column now))
                (if remaining <=? 0 then Some false else Student.active student)
            else student
        | None => student
        end in
      let computer :=
        computer_with_status computer "in_use"
          (Some (Student.name student)) (Some (Time.to_column now)) in
      Session.update_student student ;;
      Session.update_computer computer ;;
      ret (mk_assigned (Student.usage_days_remaining student))
  | _, _ => raise (HTTPException 404 "Computer or Student not found")
  end.

(** *** POST /api/admin/students/{student_id}/usage *)

(** The path parameter is bound by the lookup and the two new counters
    by the [UPDATE] that [db.commit()] sends. *)
Definition update_student_usage (student_id : Z) (days : Z) : M UsageResponse.t :=
  Session.bind_integers [Some student_id] ;;
  db <- session ;;
  match Query.first (fun s => Student.id s =? student_id) (students db) with
  | None => raise (HTTPException 404 "Student not found")
  | Some student =>
      if days =? 0 then
        ret (UsageResponse.mk student_id
               (Student.usage_days_total student)
               (Student.usage_days_remaining student))
      else
        (* Initialize totals if not set *)
        let total0 :=
          match Student.usage_days_total student with Some t => t | None => 0 end in
        let remaining0 :=
          match Student.usage_days_remaining student with Some r => r | None => 0 end in
        let total := Z.max 0 (total0 + days) in
        let remaining := Z.max 0 (remaining0 + days) in
        (* If days become positive, mark active *)
        let act := if remaining >? 0 then Some true else Student.active student in
        let student :=
          student_with_usage student (Some total) (Some remaining)
            (Student.usage_last_decrement_at student) act in
        Session.bind_integers [Some total; Some remaining] ;;
        Session.update_student student ;;
        ret (UsageResponse.mk student_id
               (Student.usage_days_total student)
               (Student.usage_days_remaining student))
  end.

(** *** POST /api/student/bookings *)

(** The [try] block that turns the two request strings into datetimes;
    [inl msg] is the [ValueError] it catches. *)
Definition parse_booking_times (booking : StudentBookingCreate.t)
  : string + (datetime * datetime) :=
  let start_s := StudentBookingCreate.start_time booking in
  let end_s := StudentBookingCreate.end_time booking in
  if Str.contains "T" start_s && (Str.len start_s =? 16) then
    match strptime start_s "%Y-%m-%dT%H:%M" with
    | inr start_time =>
        match strptime end_s "%Y-%m-%dT%H:%M" with
        | inr end_time => inr (start_time, end_time)
        | inl e => inl e
        end
    | inl e => inl e
    end
  else
    match fromisoformat (Str.replace "Z" "+00:00" start_s) with
    | inr start_time =>
        match fromisoformat (Str.replace "Z" "+00:00" end_s) with
        | inr end_time => inr (start_time, end_time)
        | inl e => inl e
        end
    | inl e => inl e
    end.

(** [current_user] is the account supplied by [Depends(get_student_user)]. *)
Definition create_booking_student (clock : Z) (booking : StudentBookingCreate.t)
    (current_user : User.t) : M Booking.t :=
  (* Get student record - if not found, create one *)
  db <- session ;;
  student <-
    match Query.first (linked_to current_user) (students db) with
    | Some student => ret student
    | None =>
        Session.add_student (fun id =>
          Student.mk id (User.username current_user) (User.email current_user)
            ("STU" ++ format_03d (User.id current_user))%string
            (Some (User.id current_user))
            None None None (Some true) None None None)
    end ;;
  match parse_booking_times booking with
  | inl e => raise (HTTPException 400 ("Invalid datetime format: " ++ e)%string)
  | inr (start_time, end_time) =>
      (* Convert to UTC for storage *)
      let start_time_utc := convert_to_utc start_time in
      let end_time_utc := convert_to_utc end_time in
      db <- session ;;
      (* Check if computer is available for the requested time *)
      let conflicting_bookings :=
        Query.count
          (fun b => (Booking.computer_id b =? StudentBookingCreate.computer_id booking)
                    && Query.in_ (Booking.status b) ACTIVE_STATUSES
                    && (Booking.start_time b <? Time.to_column end_time_utc)
                    && (Booking.end_time b >? Time.to_column start_time_utc))
          (bookings db) in
      raise_if (conflicting_bookings >? 0)
        (HTTPException 400 "Computer is not available for the requested time slot") ;;
      Session.add_booking (fun id =>
        Booking.mk id (StudentBookingCreate.computer_id booking) (Student.id student)
          (Time.to_column start_time_utc) (Time.to_column end_time_utc)
          "scheduled"
          (Time.to_column (get_current_time clock)))
  end.

End Handlers.

(* ================================================================== *)
(** * Readings of the schedule queries *)
(* ================================================================== *)

(** The values the loops of [get_week_schedule] compute, as functions of
    the table contents; [get_week_schedule_reading] below shows that the
    handler returns exactly these. *)

(** [days = [monday + timedelta(days=i) for i in range(5)]] *)
Definition week_days (clock : Z) : list datetime :=
  map (fun i => Time.add_days (get_monday (get_current_time clock)) (Z.of_nat i))
      (seq 0 5).

(** The row the per-day query of a student yields, if any. *)
Definition day_booking (rows : list Booking.t) (student_id : Z) (d : datetime)
  : option Booking.t :=
  hd_error
    (Query.order_by (fun a b => Booking.start_time a <=? Booking.start_time b)
       (filter (student_on_day student_id
                  (fst (day_range_in_tz d)) (snd (day_range_in_tz d))) rows)).

Definition day_cell (rows : list Booking.t) (student_id : Z) (d : datetime) : DayCell.t :=
  match day_booking rows student_id d with
  | Some booking =>
      DayCell.mk (Time.date d) true
        (Some (Booking.id booking)) (Some (Booking.computer_id booking))
  | None => DayCell.mk (Time.date d) false None None
  end.

Definition week_row (clock : Z) (rows : list Booking.t) (student : Student.t) : Row.t :=
  Row.mk (Student.id student) (Student.name student)
    (map (day_cell rows (Student.id student)) (week_days clock)).

(** A booking is live when its status is scheduled or active. *)
Definition live (b : Booking.t) : Prop := In (Booking.status b) ACTIVE_STATUSES.

(** Half-open overlap of the booking interval with [[window_start,
    window_end)], and the closed comparison that also holds when the two
    only touch at an end point. *)
Definition overlaps (b : Booking.t) (window_start window_end : Z) : Prop :=
  Booking.start_time b < window_end /\ Booking.end_time b > window_start.

Definition touches_or_overlaps (b : Booking.t) (window_start window_end : Z) : Prop :=
  Booking.start_time b <= window_end /\ Booking.end_time b >= window_start.

(** The working window, in UTC column values, of the local day number
    [day] (days since 1970-01-01): 09:00 to 17:00 in Addis Ababa. *)
Definition window_start_of (day : Z) : Z := day * Time.DAY + 9 * Time.HOUR - ADDIS_ABABA_TZ.
Definition window_end_of (day : Z) : Z := day * Time.DAY + 17 * Time.HOUR - ADDIS_ABABA_TZ.

(* ================================================================== *)
(** * Readings of the assignment handler *)
(* ================================================================== *)

(** The four tests [admin_assign] makes once the computer and the
    student are loaded, and the student row it commits; the lemma
    [admin_assign_reading] below shows that the handler is their
    sequence. *)

Definition quota_exhausted (student : Student.t) : bool :=
  match Student.usage_days_remaining student with
  | Some remaining => remaining <=? 0
  | None => false
  end.

Definition linked_user_inactive (db : DB) (student : Student.t) : bool :=
  truthy_int (Student.user_id student)
  && match Student.user_id student with
     | Some uid =>
         match Query.first (fun u => User.id u =? uid) (users db) with
         | Some u => not_bool (User.is_active u)
         | None => false
         end
     | None => false
     end.

Definition student_inactive (student : Student.t) : bool :=
  is_False (Student.active student).

Definition computer_busy (computer : Computer.t) : bool :=
  (Computer.status computer =? "in_use")%string.

(** The local date [last.date()] the handler compares today's with. *)
Definition last_decrement_date (column : Z) : Z :=
  Time.date (convert_from_utc (Naive column)).

Definition after_assign (clock : Z) (student : Student.t) : Student.t :=
  let now := get_current_time clock in
  match Student.usage_days_remaining student with
  | Some remaining =>
      let should_decrement :=
        match Student.usage_last_decrement_at student with
        | None => true
        | Some column => Time.date now >? last_decrement_date column
        end in
      if should_decrement && (remaining >? 0) then
        student_with_usage student
          (Student.usage_days_total student)
          (Some (remaining - 1))
          (Some (Time.to_column now))
          (if remaining - 1 <=? 0 then Some false else Student.active student)
      else student
  | None => student
  end.

Definition EXPIRED : exn := HTTPException 400 "Student's usage days have expired".
Definition INACTIVE : exn := HTTPException 400 "Student is inactive and cannot be assigned".
Definition IN_USE : exn := HTTPException 400 "Computer already in use".
Definition NOT_FOUND : exn := HTTPException 404 "Computer or Student not found".

(* ================================================================== *)
(** * The other handlers and helpers of [main.py] *)
(* ================================================================== *)

(** ** Further session operations *)

Module Store.

Definition set_users (db : DB) (l : list User.t) : DB :=
  mkDB l (students db) (computers db) (bookings db).

(** The [unique=True] indexes of [users]: [username] and [email]. *)
Definition user_unique_clash (row : User.t) (rows : list User.t) : bool :=
  existsb (fun r => (User.username r =? User.username row)%string
                    || (User.email r =? User.email row)%string) rows.

(** [db.add(user); db.commit(); db.refresh(user)] *)
Definition add_user (new : Z -> User.t) : M User.t :=
  db <- session ;;
  let row := new (Query.next_id (map User.id (users db))) in
  if user_unique_clash row (users db) then raise IntegrityError
  else (commit (set_users db (users db ++ [row])) ;; ret row).

(** The [unique=True] index of [computers]: [name]. *)
Definition computer_unique_clash (row : Computer.t) (rows : list Computer.t) : bool :=
  existsb (fun r => (Computer.name r =? Computer.name row)%string) rows.

(** [db.add(computer); db.commit(); db.refresh(computer)] *)
Definition add_computer (new : Z -> Computer.t) : M Computer.t :=
  db <- session ;;
  let row := new (Query.next_id (map Computer.id (computers db))) in
  if computer_unique_clash row (computers db) then raise IntegrityError
  else (commit (Session.set_computers db (computers db ++ [row])) ;; ret row).

(** [db.commit()] after attribute assignments on a loaded user. *)
Definition update_user (u : User.t) : M unit :=
  db <- session ;;
  commit (set_users db
            (map (fun r => if User.id r =? User.id u then u else r) (users db))).

(** [db.commit()] after attribute assignments on a loaded booking. *)
Definition update_booking (b : Booking.t) : M unit :=
  db <- session ;;
  commit (Session.set_bookings db
            (map (fun r => if Booking.id r =? Booking.id b then b else r)
                 (bookings db))).

(** [for b in loaded: db.delete(b)]: the rows that stay are those whose
    primary key is not that of a loaded row. *)
Definition without_bookings (loaded : list Booking.t) (rows : list Booking.t)
  : list Booking.t :=
  filter (fun r => negb (existsb (fun b => Booking.id b =? Booking.id r) loaded)) rows.

End Store.

Definition user_with_active (u : User.t) (act : option bool) : User.t :=
  User.mk (User.id u) (User.username u) (User.email u) (User.hashed_password u)
    (User.role u) act (User.created_at u).

Definition booking_with_status (b : Booking.t) (st : string) : Booking.t :=
  Booking.mk (Booking.id b) (Booking.computer_id b) (Booking.student_id b)
    (Booking.start_time b) (Booking.end_time b) st (Booking.created_at b).

(** [bool(x)] of an [Optional[bool]] *)
Definition py_bool (x : option bool) : bool :=
  match x with Some b => b | None => false end.

(** [str(n)] of an [int] *)
Definition py_str_int (n : Z) : string :=
  let digits := NilZero.string_of_uint (N.to_uint (Z.to_N (Z.abs n))) in
  if n <? 0 then ("-" ++ digits)%string else digits.

(** ** Request and response bodies *)

Module HTTPBasicCredentials.
Record t : Type := mk {
  username : string;
  password : string
}.
End HTTPBasicCredentials.

Module UserCreate.
Record t : Type := mk {
  username : string;
  email : string;
  password : string;
  role : option string          (* ignored; the server forces "admin" *)
}.
End UserCreate.

Module UserCreateSimple.
Record t : Type := mk {
  name : string;
  email : string;
  role : option string
}.
End UserCreateSimple.

Module UserCreateResponse.
Record t : Type := mk {
  id : Z;
  username : string;
  password : string;
  email : string;
  role : string;
  student_id : option string
}.
End UserCreateResponse.

Module ComputerStatusUpdate.
Record t : Type := mk {
  computer_id : Z;
  status : string;
  current_user : option string
}.
End ComputerStatusUpdate.

(** The JSON object [update_computer_status_admin] hands to the
    broadcast thread. *)
Module StatusEvent.
Record t : Type := mk {
  type_ : string;
  computer_id : Z;
  status : string;
  current_user : option string;
  timestamp : datetime
}.
End StatusEvent.

Module ToggleActiveResponse.
Record t : Type := mk {
  student_id : Z;
  user_id : option Z;
  is_active : option bool
}.
End ToggleActiveResponse.

Module SummaryRow.
Record t : Type := mk {
  id : Z;
  name : string;
  email : string;
  study : option string;
  department : option string;
  date : option datetime;       (* [created.isoformat()], before printing *)
  is_active : option bool;
  usage_days_total : option Z;
  usage_days_remaining : option Z
}.
End SummaryRow.

(** ** Helpers *)

(** [c.isalnum()] on an ASCII character *)
Definition isalnum (c : ascii) : bool :=
  let n := nat_of_ascii c in
  ((48 <=? n)%nat && (n <=? 57)%nat) || ((65 <=? n)%nat && (n <=? 90)%nat)
  || ((97 <=? n)%nat && (n <=? 122)%nat).

(** [generate_username(name)], where [random_num] is the draw of
    [random.randint(100, 999)]. *)
Definition generate_username (random_num : Z) (name : string) : string :=
  let clean_name :=
    string_of_list_ascii
      (map Str.lower_char (filter isalnum (list_ascii_of_string name))) in
  let clean_name :=
    if Str.len clean_name <? 3 then (clean_name ++ "user")%string else clean_name in
  (String.substring 0 8 clean_name ++ py_str_int random_num)%string.

(** The [while] loop of [create_user_simple] that looks for a username
    not in use; [None] when [fuel] rounds do not suffice. *)
Fixpoint free_username (fuel : nat) (rows : list User.t)
    (original_username username : string) (counter : Z) : option string :=
  match fuel with
  | O => None
  | S fuel' =>
      match Query.first (fun u => (User.username u =? username)%string) rows with
      | Some _ =>
          free_username fuel' rows original_username
            (original_username ++ py_str_int counter)%string (counter + 1)
      | None => Some username
      end
  end.

(** ** Authentication *)

Section Auth.

(** [hashlib.sha256(s.encode()).hexdigest()] *)
Variable sha256_hexdigest : string -> string.

Definition hash_password (password : string) : string :=
  sha256_hexdigest password.

Definition verify_password (plain_password hashed_password : string) : bool :=
  (hash_password plain_password =? hashed_password)%string.

(** The [WWW-Authenticate] header of the 401 is not represented. *)
Definition get_current_user (credentials : HTTPBasicCredentials.t) : M User.t :=
  db <- session ;;
  let user :=
    Query.first
      (fun u => (User.username u =? HTTPBasicCredentials.username credentials)%string)
      (users db) in
  match user with
  | Some user =>
      if negb (verify_password (HTTPBasicCredentials.password credentials)
                 (User.hashed_password user))
      then raise (HTTPException 401 "Invalid authentication credentials")
      else
        raise_if (not_bool (User.is_active user))
          (HTTPException 400 "Inactive user") ;;
        ret user
  | None => raise (HTTPException 401 "Invalid authentication credentials")
  end.

Definition get_admin_user (current_user : User.t) : M User.t :=
  raise_if (negb (User.role current_user =? "admin")%string)
    (HTTPException 403 "Not enough permissions. Admin access required.") ;;
  ret current_user.

Definition get_student_user (current_user : User.t) : M User.t :=
  raise_if (negb (Query.in_ (User.role current_user) ["student"; "admin"]))
    (HTTPException 403 "Not enough permissions. Student access required.") ;;
  ret current_user.

(** *** POST /api/auth/register *)
Definition register_user (clock : Z) (user : UserCreate.t) : M User.t :=
  db <- session ;;
  let existing_user :=
    Query.first
      (fun u => (User.username u =? UserCreate.username user)%string
                || (User.email u =? UserCreate.email user)%string)
      (users db) in
  match existing_user with
  | Some _ => raise (HTTPException 400 "Username or email already registered")
  | None =>
      let hashed_password := hash_password (UserCreate.password user) in
      Store.add_user (fun id =>
        User.mk id (UserCreate.username user) (UserCreate.email user)
          hashed_password "admin" (Some true)
          (Some (Time.to_column (get_current_time clock))))
  end.

(** *** POST /api/admin/users/simple

    [random_num] and [password] are the draws of [generate_username] and
    [generate_password]; [error_text] is [str(e)] of the exception the
    [except Exception] clause catches; [None] when the username loop does
    not end within [fuel] rounds. *)
Definition create_user_simple (fuel : nat) (clock : Z) (random_num : Z)
    (password : string) (error_text : exn -> string) (user : UserCreateSimple.t)
  : DB -> option (outcome UserCreateResponse.t * DB) :=
  fun db =>
    let username := generate_username random_num (UserCreateSimple.name user) in
    let original_username := username in
    match free_username fuel (users db) original_username username 1 with
    | None => None
    | Some username =>
        let hashed_password := hash_password password in
        match Store.add_user (fun id =>
                User.mk id username (UserCreateSimple.email user)
                  hashed_password "admin" (Some true)
                  (Some (Time.to_column (get_current_time clock)))) db with
        | (Return db_user, db') =>
            Some (Return (UserCreateResponse.mk (User.id db_user) username password
                            (UserCreateSimple.email user) "admin" None), db')
        | (Raise e, db') =>
            Some (Raise (HTTPException 500 ("Error creating user: " ++ error_text e)%string),
                  db')
        end
    end.

End Auth.

(** ** Admin handlers *)

(** *** POST /api/admin/computers *)
Definition create_computer_admin (clock : Z) (name : string) : M Computer.t :=
  Store.add_computer (fun id =>
    Computer.mk id name "available" None
      (Some (Time.to_column (get_current_time clock)))).

(** *** GET /api/admin/bookings/tomorrow *)
Definition get_tomorrow_bookings_admin (clock : Z) : M (list Booking.t) :=
  let tomorrow_start :=
    Time.add_days (Time.replace_hour 0 (get_current_time clock)) 1 in
  let tomorrow_end := Time.add_days tomorrow_start 1 in
  db <- session ;;
  ret (Query.order_by (fun a b => Booking.start_time a <=? Booking.start_time b)
         (filter (fun b => (Booking.start_time b >=? Time.to_column tomorrow_start)
                           && (Booking.start_time b <? Time.to_column tomorrow_end))
                 (bookings db))).

(** *** POST /api/admin/unassign *)
Definition admin_unassign (clock : Z) (computer_id : Z) : M bool :=
  db <- session ;;
  match Query.first (fun c => Computer.id c =? computer_id) (computers db) with
  | None => raise (HTTPException 404 "Computer not found")
  | Some computer =>
      Session.update_computer
        (computer_with_status computer "available" None
           (Some (Time.to_column (get_current_time clock)))) ;;
      ret true
  end.

(** *** DELETE /api/admin/computers/{computer_id} *)
Definition delete_computer_admin (computer_id : Z) : M bool :=
  db <- session ;;
  match Query.first (fun c => Computer.id c =? computer_id) (computers db) with
  | None => raise (HTTPException 404 "Computer not found")
  | Some computer =>
      let related_bookings :=
        filter (fun b => Booking.computer_id b =? computer_id) (bookings db) in
      commit (mkDB (users db) (students db)
                (filter (fun c => negb (Computer.id c =? Computer.id computer))
                        (computers db))
                (Store.without_bookings related_bookings (bookings db))) ;;
      ret true
  end.



(** *** GET /api/admin/students/summary *)
Definition get_students_summary : M (list SummaryRow.t) :=
  db <- session ;;
  let students :=
    Query.order_by (fun a b => String.leb (Student.name a) (Student.name b))
                   (students db) in
  for_each students (fun s =>
    db <- session ;;
    let linked :=
      if truthy_int (Student.user_id s) then
        match Student.user_id s with
        | Some uid => Query.first (fun u => User.id u =? uid) (users db)
        | None => None
        end
      else None in
    let created :=
      match linked with
      | Some u =>
          match User.created_at u with
          | Some column =>
              let loaded := Naive column in
              Some (match Time.tzinfo loaded with
                    | None => convert_from_utc loaded
                    | Some _ => loaded
                    end)
          | None => None
          end
      | None => None
      end in
    let is_active :=
      match linked with
      | Some u => User.is_active u
      | None => Student.active s
      end in
    let created :=
      match created with
      | Some c => Some c
      | None => option_map Naive (Student.registered_at s)
      end in
    ret (SummaryRow.mk (Student.id s) (Student.name s) (Student.email s)
           (Student.study s) (Student.department s) created is_active
           (Student.usage_days_total s) (Student.usage_days_remaining s))).

(** *** POST /api/admin/students/{student_id}/toggle-active *)
Definition toggle_student_active (student_id : Z) : M ToggleActiveResponse.t :=
  db <- session ;;
  match Query.first (fun s => Student.id s =? student_id) (students db) with
  | None => raise (HTTPException 404 "Student not found")
  | Some student =>
      let linked :=
        if truthy_int (Student.user_id student) then
          match Student.user_id student with
          | Some uid => Query.first (fun u => User.id u =? uid) (users db)
          | None => None
          end
        else None in
      match linked with
      | Some user =>
          let user := user_with_active user (Some (negb (py_bool (User.is_active user)))) in
          Store.update_user user ;;
          ret (ToggleActiveResponse.mk student_id (Some (User.id user))
                 (User.is_active user))
      | None =>
          let student :=
            student_with_usage student
              (Student.usage_days_total student) (Student.usage_days_remaining student)
              (Student.usage_last_decrement_at student)
              (Some (negb (py_bool (Student.active student)))) in
          Session.update_student student ;;
          ret (ToggleActiveResponse.mk student_id None (Student.active student))
      end
  end.

(** *** PUT /api/admin/computers/{computer_id}/status

    [clock] is the instant of [get_current_time()] for the computer's
    timestamp, [utcnow1] and [utcnow2] those of the two
    [datetime.utcnow()] in the booking filter, [clock_event] that of the
    event's timestamp.  The handler returns its message after starting a
    thread that broadcasts the event; the event is returned with it. *)
Definition update_computer_status_admin (clock utcnow1 utcnow2 clock_event : Z)
    (computer_id : Z) (status_update : ComputerStatusUpdate.t)
  : M (string * StatusEvent.t) :=
  db <- session ;;
  match Query.first (fun c => Computer.id c =? computer_id) (computers db) with
  | None => raise (HTTPException 404 "Computer not found")
  | Some computer =>
      Session.update_computer
        (computer_with_status computer
           (ComputerStatusUpdate.status status_update)
           (ComputerStatusUpdate.current_user status_update)
           (Some (Time.to_column (get_current_time clock)))) ;;
      (* Update booking status if computer is being used *)
      (if (ComputerStatusUpdate.status status_update =? "in_use")%string then
         match Query.first
                 (fun b => (Booking.computer_id b =? computer_id)
                           && (Booking.status b =? "scheduled")%string
                           && (Booking.start_time b <=? Time.to_column (Naive utcnow1))
                           && (Booking.end_time b >=? Time.to_column (Naive utcnow2)))
                 (bookings db) with
         | Some active_booking =>
             Store.update_booking (booking_with_status active_booking "active")
         | None => ret tt
         end
       else ret tt) ;;
      ret ("Computer status updated successfully",
           StatusEvent.mk "computer_status_update" computer_id
             (ComputerStatusUpdate.status status_update)
             (ComputerStatusUpdate.current_user status_update)
             (get_current_time clock_event))
  end.

(** ** Student handlers *)

(** *** GET /api/student/bookings *)
Definition get_student_bookings (current_user : User.t) : M (list Booking.t) :=
  db <- session ;;
  match Query.first (linked_to current_user) (students db) with
  | None => raise (HTTPException 404 "Student profile not found")
  | Some student =>
      ret (filter (fun b => Booking.student_id b =? Student.id student) (bookings db))
  end.

(** ** WebSocket connection manager *)

(** A websocket is named by an integer; [send_text ws message] tells
    whether the send to [ws] goes through ([false]: it raises). *)
Module ConnectionManager.

Definition t : Type := list Z.

Definition init : t := [].

(** [accept] and append. *)
Definition connect (websocket : Z) (active_connections : t) : t :=
  (active_connections ++ [websocket])%list.

(** [list.remove]: the first occurrence goes; [None] is the
    [ValueError] when there is none. *)
Fixpoint disconnect (websocket : Z) (active_connections : t) : option t :=
  match active_connections with
  | [] => None
  | c :: rest =>
      if c =? websocket then Some rest
      else option_map (cons c) (disconnect websocket rest)
  end.

(** The connections the message reaches, in order; a failing send is
    passed over. *)
Fixpoint broadcast (send_text : Z -> string -> bool) (message : string)
    (active_connections : t) : list Z :=
  match active_connections with
  | [] => []
  | connection :: rest =>
      if send_text connection message
      then connection :: broadcast send_text message rest
      else broadcast send_text message rest
  end.

End ConnectionManager.

(* ================================================================== *)
(** * Readings of the student listing *)
(* ================================================================== *)

(** The account [get_students_summary] and [toggle_student_active] take
    as the student's: the first one with the id in [user_id], when that is
    set and not 0. *)
Definition linked_user (db : DB) (s : Student.t) : option User.t :=
  if truthy_int (Student.user_id s) then
    match Student.user_id s with
    | Some uid => Query.first (fun u => User.id u =? uid) (users db)
    | None => None
    end
  else None.

(** The flag the summary shows and the toggle flips. *)
Definition shown_active (db : DB) (s : Student.t) : option bool :=
  match linked_user db s with
  | Some u => User.is_active u
  | None => Student.active s
  end.

(** The date the summary shows: the linked account's creation time
    when it is set, else the student's own registration time. *)
Definition shown_date (db : DB) (s : Student.t) : option datetime :=
  match match linked_user db s with
        | Some u =>
            match User.created_at u with
            | Some column => Some (convert_from_utc (Naive column))
            | None => None
            end
        | None => None
        end with
  | Some c => Some c
  | None => option_map Naive (Student.registered_at s)
  end.

(** One entry of the summary. *)
Definition summary_row (db : DB) (s : Student.t) : SummaryRow.t :=
  SummaryRow.mk (Student.id s) (Student.name s) (Student.email s)
    (Student.study s) (Student.department s) (shown_date db s) (shown_active db s)
    (Student.usage_days_total s) (Student.usage_days_remaining s).

(** ** Readings of the status update *)

(** The booking [update_computer_status_admin] looks for: the first
    scheduled one of the computer whose interval contains the present. *)
Definition running_now (utcnow1 utcnow2 computer_id : Z) (b : Booking.t) : bool :=
  (Booking.computer_id b =? computer_id)
  && (Booking.status b =? "scheduled")%string
  && (Booking.start_time b <=? Time.to_column (Naive utcnow1))
  && (Booking.end_time b >=? Time.to_column (Naive utcnow2)).

(** The bookings table after a status update. *)
Definition bookings_after_status (utcnow1 utcnow2 computer_id : Z) (status : string)
    (rows : list Booking.t) : list Booking.t :=
  if (status =? "in_use")%string then
    match Query.first (running_now utcnow1 utcnow2 computer_id) rows with
    | Some active_booking =>
        map (fun r => if Booking.id r =? Booking.id active_booking
                      then booking_with_status active_booking "active" else r) rows
    | None => rows
    end
  else rows.

(* ================================================================== *)
(** * Invariants of the bookings table *)
(* ================================================================== *)

(** No two distinct live bookings of one computer overlap. *)
Definition no_double_booking (rows : list Booking.t) : Prop :=
  forall b1 b2,
    In b1 rows -> In b2 rows -> Booking.id b1 <> Booking.id b2 ->
    Booking.computer_id b1 = Booking.computer_id b2 ->
    live b1 -> live b2 ->
    ~ overlaps b1 (Booking.start_time b2) (Booking.end_time b2).

(** The primary key of [bookings]. *)
Definition booking_ids_unique (rows : list Booking.t) : Prop :=
  NoDup (map Booking.id rows).

(* ================================================================== *)
(** * Sample library functions and database states *)
(* ================================================================== *)

(** Concrete stand-ins for the Python parsers on the plain inputs used in
    the examples: decimal digit strings, ["YYYY-MM-DDTHH:MM"] and
    ["YYYY-MM-DDTHH:MM:SS"]. *)
Module Sample.

Definition digit (c : ascii) : option Z :=
  let n := nat_of_ascii c in
  if ((48 <=? n)%nat && (n <=? 57)%nat) then Some (Z.of_nat n - 48) else None.

Fixpoint digits (acc : Z) (l : list ascii) : option Z :=
  match l with
  | [] => Some acc
  | c :: l' =>
      match digit c with
      | Some d => digits (10 * acc + d) l'
      | None => None
      end
  end.

Definition decimal_int (s : string) : option Z :=
  match list_ascii_of_string s with
  | [] => None
  | l => digits 0 l
  end.

Definition field (s : string) (pos len : nat) : option Z :=
  decimal_int (String.substring pos len s).

Definition sep (s : string) (pos : nat) (c : ascii) : bool :=
  match String.get pos s with
  | Some a => Ascii.eqb a c
  | None => false
  end.

Definition minutes_stamp (s : string) : string + datetime :=
  match field s 0 4, field s 5 2, field s 8 2, field s 11 2, field s 14 2 with
  | Some y, Some m, Some d, Some hh, Some mm =>
      if sep s 4 "-" && sep s 7 "-" && sep s 10 "T" && sep s 13 ":" then
        match Time.datetime_ymdhm y m d hh mm with
        | Some dt => inr dt
        | None => inl "value out of range"
        end
      else inl "unexpected separator"
  | _, _, _, _, _ => inl "not a number"
  end.

Definition strptime (s fmt : string) : string + datetime :=
  if (fmt =? "%Y-%m-%dT%H:%M")%string && (Str.len s =? 16)
  then minutes_stamp s
  else inl "time data does not match format".

Definition seconds_stamp (s : string) : string + datetime :=
  match minutes_stamp s, field s 17 2 with
  | inr dt, Some ss =>
      if ss <=? 59 then inr (Naive (Time.wall dt + ss * Time.SECOND))
      else inl "second must be in 0..59"
  | inl e, _ => inl e
  | inr _, None => inl "Invalid isoformat string"
  end.

Definition fromisoformat (s : string) : string + datetime :=
  if Str.len s =? 16 then minutes_stamp s
  else if (Str.len s =? 19) && sep s 16 ":" then seconds_stamp s
  else inl "Invalid isoformat string".

(** Monday 2024-03-04, 12:00 in Addis Ababa (09:00 UTC). *)
Definition monday_noon : Z := 1709542800 * Time.SECOND.

(** Instants of 2024-03-04 as the [DateTime] columns keep them (UTC
    wall clock): hour [h] of local time is hour [h - 3] UTC. *)
Definition local_hour (h : Z) : Z :=
  1709510400 * Time.SECOND + (h - 3) * Time.HOUR.

(** A walk-in student whose quota is used up and who was deactivated. *)
Definition expired_student : Student.t :=
  Student.mk 7 "Hana" "hana@example.com" "stu007" None None None None
    (Some false) (Some 5) (Some 0) (Some (local_hour 10)).

Definition db_expired : DB :=
  mkDB [] [expired_student] [Computer.mk 1 "PC-01" "available" None None] [].

(** Student 5 holds a scheduled booking on computer 3 that ends at
    09:00 local time of 2024-03-04, the instant the working window of
    that day opens. *)
Definition early_booking : Booking.t :=
  Booking.mk 1 3 5 (local_hour 8) (local_hour 9) "scheduled" (local_hour 7).

Definition db_early : DB :=
  mkDB [] [Student.mk 5 "Abel" "abel@example.com" "stu005" None None None None
             (Some true) None None None]
       [Computer.mk 2 "PC-02" "available" None None;
        Computer.mk 3 "PC-03" "available" None None]
       [early_booking].

(** The same lab with no booking at all. *)
Definition db_free : DB :=
  mkDB (users db_early) (students db_early) (computers db_early) [].

(** Student 5 holds a scheduled booking on computer 3 that starts at
    17:00 local time of Monday 2024-03-04, the instant the working
    window of that day closes. *)
Definition late_booking : Booking.t :=
  Booking.mk 1 3 5 (local_hour 17) (local_hour 18) "scheduled" (local_hour 7).

Definition db_late : DB :=
  mkDB (users db_early) (students db_early) (computers db_early) [late_booking].

(** Computer 2 is booked from 10:00 to 11:00 local time on 2024-03-04.
    The caller, user 9, has a student record (id 5) that is inactive,
    out of usage days, and linked to an inactive account. *)
Definition caller : User.t :=
  User.mk 9 "abel" "abel@example.com" "" "student" (Some false) None.

Definition caller_student : Student.t :=
  Student.mk 5 "Abel" "abel@example.com" "stu005" (Some 9) None None None
    (Some false) (Some 3) (Some 0) None.

Definition ten_to_eleven : Booking.t :=
  Booking.mk 1 2 6 (local_hour 10) (local_hour 11) "scheduled" (local_hour 7).

Definition db_booked : DB :=
  mkDB [caller] [caller_student] (computers db_early) [ten_to_eleven].

Definition request (start_s end_s : string) : StudentBookingCreate.t :=
  StudentBookingCreate.mk 2 start_s end_s.

(** Two labs that differ in why student 5 may not be assigned: in the
    first the linked account is inactive and the student's own flag is
    true, in the second there is no linked account and the student's
    own flag is false. *)
Definition db_account_inactive : DB :=
  mkDB [User.mk 9 "abel" "abel@example.com" "" "student" (Some false) None]
       [Student.mk 5 "Abel" "abel@example.com" "stu005" (Some 9) None None None
          (Some true) None None None]
       (computers db_early) [].


(** Student 5 has one usage day left and has never been assigned. *)
Definition last_day_student : Student.t :=
  Student.mk 5 "Abel" "abel@example.com" "stu005" None None None None
    (Some true) (Some 10) (Some 1) None.

Definition db_last_day : DB :=
  mkDB [] [last_day_student] (computers db_early) [].

Definition student_request (sid email : string) : StudentCreate.t :=
  StudentCreate.mk "Test Student" email sid None None None None.

Definition db_empty : DB := mkDB [] [] [] [].

(** Another session commits a student "dup123" after this request's
    duplicate query and before its insert. *)
Definition racing_insert (db : DB) : DB :=
  Session.set_students db
    (students db ++
     [Student.mk (Query.next_id (map Student.id (students db)))
        "Other" "other@example.com" "dup123" None None None None
        (Some true) None None None]).

(** Computer 2 is booked from 10:00 to 11:00 and student 5 has no
    booking yet. *)
Definition db_one_booking : DB :=
  mkDB (users db_early) (students db_early) (computers db_early) [ten_to_eleven].

(** Student 5 has ten usage days and has never been assigned. *)
Definition fresh_student : Student.t :=
  Student.mk 5 "Abel" "abel@example.com" "stu005" None None None None
    (Some true) (Some 10) (Some 10) None.

Definition db_fresh : DB :=
  mkDB [] [fresh_student] (computers db_early) [].

(** Monday 2024-03-04, 22:00 in Addis Ababa, and noon of the next day. *)
Definition monday_late : Z := monday_noon + 10 * Time.HOUR.
Definition tuesday_noon : Z := monday_noon + 24 * Time.HOUR.

(** A stand-in for the SHA-256 digest and for the text of an exception. *)
Definition digest (s : string) : string := ("sha256:" ++ s)%string.
Definition error_text (e : exn) : string :=
  match e with
  | IntegrityError => "UNIQUE constraint failed"
  | OverflowError => "Python int too large to convert to SQLite INTEGER"
  | HTTPException _ detail => detail
  end.

(** The accounts "ann123" and "ann1231" exist. *)
Definition db_two_users : DB :=
  mkDB [User.mk 1 "ann123" "ann@example.com" (digest "pw") "admin" (Some true) None;
        User.mk 2 "ann1231" "ann2@example.com" (digest "pw") "admin" (Some true) None]
       [] [] [].

(** Student 5 is linked to account 9; both are active. *)
Definition db_linked : DB :=
  mkDB [User.mk 9 "abel" "abel@example.com" "" "student" (Some true) None]
       [Student.mk 5 "Abel" "abel@example.com" "stu005" (Some 9) None None None
          (Some true) None None None]
       (computers db_early) [].

(** The account of [caller] exists, no student record does, and computer
    2 is booked from 10:00 to 11:00 for a student since deleted. *)
Definition db_no_profile : DB :=
  mkDB [caller] [] (computers db_early) [ten_to_eleven].

(** Student 5 is linked to the active student account 9, whose password
    is "pw". *)
Definition db_login : DB :=
  mkDB [User.mk 9 "abel" "abel@example.com" (digest "pw") "student" (Some true) None]
       [Student.mk 5 "Abel" "abel@example.com" "stu005" (Some 9) None None None
          (Some true) None None None]
       (computers db_early) [].





End Sample.

(* ================================================================== *)
(** * Properties *)
(* ================================================================== *)

(** ** Running handlers *)

Lemma bind_run {A B} (c : M A) (k : A -> M B) (db db' : DB) (a : A) :
  c db = (Return a, db') -> bind c k db = k a db'.
Proof. unfold bind; intros ->; reflexivity. Qed.

Lemma bind_raise {A B} (c : M A) (k : A -> M B) (db db' : DB) (e : exn) :
  c db = (Raise e, db') -> bind c k db = (Raise e, db').
Proof. unfold bind; intros ->; reflexivity. Qed.

Lemma set_bookings_same (db : DB) : Session.set_bookings db (bookings db) = db.
Proof. destruct db; reflexivity. Qed.

Lemma set_students_same (db : DB) : Session.set_students db (students db) = db.
Proof. destruct db; reflexivity. Qed.

(** ** Queries *)

Lemma first_replace {A} (key : A -> Z) (k : Z) (new old : A) (rows : list A) :
  Query.first (fun r => key r =? k) rows = Some old ->
  key new = k ->
  Query.first (fun r => key r =? k)
              (map (fun r => if key r =? key new then new else r) rows) = Some new.
Proof.
  unfold Query.first; intros Hfind Hkey; subst k.
  induction rows as [|r rows IH]; simpl in *; [discriminate|].
  destruct (key r =? key new) eqn:E.
  - now rewrite Z.eqb_refl.
  - rewrite E; auto.
Qed.

Lemma first_some {A} (p : A -> bool) (rows : list A) (x : A) :
  Query.first p rows = Some x -> In x rows /\ p x = true.
Proof. apply find_some. Qed.

Lemma first_none {A} (p : A -> bool) (rows : list A) :
  Query.first p rows = None <-> (forall x, In x rows -> p x = false).
Proof.
  split; [apply find_none|].
  unfold Query.first; induction rows as [|r rows IH]; simpl; intros H; [reflexivity|].
  rewrite (H r (or_introl eq_refl)); apply IH; intros; apply H; now right.
Qed.

Lemma count_zero {A} (p : A -> bool) (rows : list A) :
  Query.count p rows = 0 <-> (forall x, In x rows -> p x = false).
Proof.
  unfold Query.count; induction rows as [|r rows IH]; simpl.
  - split; [intros _ x []|reflexivity].
  - destruct (p r) eqn:E; simpl.
    + split; [lia|]. intros H. rewrite (H r (or_introl eq_refl)) in E; discriminate.
    + rewrite IH; split.
      * intros H x [->|Hx]; auto.
      * intros H x Hx; apply H; now right.
Qed.

Lemma count_nonneg {A} (p : A -> bool) (rows : list A) : 0 <= Query.count p rows.
Proof. unfold Query.count; lia. Qed.

Lemma count_pos {A} (p : A -> bool) (rows : list A) :
  Query.count p rows > 0 <-> (exists x, In x rows /\ p x = true).
Proof.
  split.
  - intros H. destruct (existsb p rows) eqn:E.
    + apply existsb_exists in E; exact E.
    + exfalso. assert (Query.count p rows = 0); [|lia].
      apply count_zero; intros x Hx.
      destruct (p x) eqn:Ex; [|reflexivity].
      assert (existsb p rows = true) by (apply existsb_exists; eauto). congruence.
  - intros (x & Hx & Hp). pose proof (count_nonneg p rows).
    destruct (Z.eq_dec (Query.count p rows) 0) as [E|E]; [|lia].
    rewrite count_zero in E. rewrite (E x Hx) in Hp; discriminate.
Qed.

(* ------------------------------------------------------------------ *)
(** ** Usage-day adjustment *)
(* ------------------------------------------------------------------ *)

(** [update_student_usage] as one expression. *)
Lemma update_student_usage_reading (student_id days : Z) (db : DB) :
  update_student_usage student_id days db
  = if negb (fits_integer student_id) then (Raise OverflowError, db)
    else
      match Query.first (fun s => Student.id s =? student_id) (students db) with
      | None => (Raise (HTTPException 404 "Student not found"), db)
      | Some student =>
          let total0 :=
            match Student.usage_days_total student with Some t => t | None => 0 end in
          let remaining0 :=
            match Student.usage_days_remaining student with Some r => r | None => 0 end in
          let total := Z.max 0 (total0 + days) in
          let remaining := Z.max 0 (remaining0 + days) in
          let student' :=
            student_with_usage student (Some total) (Some remaining)
              (Student.usage_last_decrement_at student)
              (if remaining >? 0 then Some true else Student.active student) in
          if days =? 0 then
            (Return (UsageResponse.mk student_id (Student.usage_days_total student)
                       (Student.usage_days_remaining student)), db)
          else if fits_integer total && fits_integer remaining then
            (Return (UsageResponse.mk student_id (Some total) (Some remaining)),
             Session.set_students db
               (map (fun r => if Student.id r =? Student.id student' then student' else r)
                    (students db)))
          else (Raise OverflowError, db)
      end.
Proof.
  unfold update_student_usage. unfold bind at 1.
  unfold Session.bind_integers at 1. unfold raise_if. cbn [forallb].
  rewrite andb_true_r.
  destruct (fits_integer student_id); [|reflexivity]. cbn [negb ret].
  unfold bind at 1. unfold session at 1.
  destruct (Query.first _ (students db)) as [student|]; [|reflexivity].
  cbv zeta. destruct (days =? 0); [reflexivity|].
  unfold bind at 1. unfold Session.bind_integers, raise_if. cbn [forallb].
  rewrite andb_true_r.
  destruct (fits_integer (Z.max 0 _) && fits_integer (Z.max 0 _)); reflexivity.
Qed.

(** C8.  [update_student_usage] with a delta of 0 returns the two
    counters as they are and commits nothing.  With any other delta,
    positive or negative, it reads an unset counter as 0, adds the delta
    to both counters and clamps each at 0; the student's [active] flag
    becomes true whenever the new remaining count is above 0 and is left
    alone otherwise; nothing but that student's row changes.  That holds
    whenever the two new counters are integers the database can store
    (below 2^63); when one of them is not, the commit raises
    [OverflowError] and nothing is written. *)
Theorem update_student_usage_clamps :
  forall (db : DB) (student_id days : Z) (student : Student.t),
    fits_integer student_id = true ->
    Query.first (fun s => Student.id s =? student_id) (students db) = Some student ->
    let total0 := match Student.usage_days_total student with Some t => t | None => 0 end in
    let remaining0 :=
      match Student.usage_days_remaining student with Some r => r | None => 0 end in
    (days = 0 ->
       update_student_usage student_id days db
       = (Return (UsageResponse.mk student_id (Student.usage_days_total student)
                    (Student.usage_days_remaining student)), db))
    /\
    (days <> 0 ->
     fits_integer (Z.max 0 (total0 + days)) = true ->
     fits_integer (Z.max 0 (remaining0 + days)) = true ->
       exists student' : Student.t,
         let db' := exec (update_student_usage student_id days) db in
         run (update_student_usage student_id days) db
         = Return (UsageResponse.mk student_id
                     (Some (Z.max 0 (total0 + days)))
                     (Some (Z.max 0 (remaining0 + days))))
         /\ Query.first (fun s => Student.id s =? student_id) (students db') = Some student'
         /\ Student.usage_days_total student' = Some (Z.max 0 (total0 + days))
         /\ Student.usage_days_remaining student' = Some (Z.max 0 (remaining0 + days))
         /\ 0 <= Z.max 0 (total0 + days)
         /\ 0 <= Z.max 0 (remaining0 + days)
         /\ (Z.max 0 (remaining0 + days) > 0 -> Student.active student' = Some true)
         /\ (Z.max 0 (remaining0 + days) = 0 ->
             Student.active student' = Student.active student)
         /\ Student.usage_last_decrement_at student'
            = Student.usage_last_decrement_at student
         /\ users db' = users db /\ computers db' = computers db
         /\ bookings db' = bookings db)
    /\
    (days <> 0 ->
     fits_integer (Z.max 0 (total0 + days)) = false
     \/ fits_integer (Z.max 0 (remaining0 + days)) = false ->
       update_student_usage student_id days db = (Raise OverflowError, db)).
Proof.
  intros db student_id days student Hsid Hfind total0 remaining0.
  pose proof (proj2 (first_some _ _ _ Hfind)) as Hid; apply Z.eqb_eq in Hid.
  unfold run, exec. rewrite update_student_usage_reading, Hsid, Hfind.
  cbn [negb]. cbv zeta. fold total0 remaining0.
  split; [|split].
  - intros ->. reflexivity.
  - intros Hdays Ht Hr. apply Z.eqb_neq in Hdays. rewrite Hdays, Ht, Hr.
    cbn [andb fst snd]. eexists.
    cbn [fst snd students users computers bookings Session.set_students].
    split; [reflexivity|].
    split.
    { eapply (first_replace Student.id); [exact Hfind|exact Hid]. }
    cbn [Student.usage_days_total Student.usage_days_remaining Student.active
         Student.usage_last_decrement_at student_with_usage].
    repeat split; try lia.
    + intros H.
      destruct (Z.max 0 (remaining0 + days) >? 0) eqn:E; [reflexivity|].
      rewrite Z.gtb_ltb, Z.ltb_ge in E. lia.
    + intros H. rewrite H. reflexivity.
  - intros Hdays Hover. apply Z.eqb_neq in Hdays. rewrite Hdays.
    destruct Hover as [-> | ->]; [reflexivity|].
    rewrite andb_false_r. reflexivity.
Qed.

(** The re-activation of a deactivated student whose quota is raised. *)
Lemma update_student_usage_clamps_witness :
  exists student' : Student.t,
    Query.first (fun s => Student.id s =? 7)
      (students (exec (update_student_usage 7 2) Sample.db_expired)) = Some student'
    /\ Student.usage_days_remaining student' = Some 2
    /\ Student.active student' = Some true.
Proof.
  destruct (update_student_usage_clamps Sample.db_expired 7 2 Sample.expired_student
              eq_refl eq_refl) as (_ & H & _).
  destruct (H ltac:(discriminate) eq_refl eq_refl)
    as (s' & _ & Hf & _ & Hr & _ & _ & Ha & _).
  exists s'. split; [exact Hf|]. split; [exact Hr|]. apply Ha. reflexivity.
Defined.

(** A delta of 2^63 cannot be stored: the request fails at the commit and
    the student keeps the counters it had. *)
Example update_student_usage_overflow :
  update_student_usage 7 (2 ^ 63) Sample.db_expired
  = (Raise OverflowError, Sample.db_expired).
Proof. reflexivity. Qed.

Lemma in_spec (v : string) (values : list string) :
  Query.in_ v values = true <-> In v values.
Proof.
  unfold Query.in_. rewrite existsb_exists. split.
  - intros (x & Hx & E). apply String.eqb_eq in E. now subst.
  - intros H. exists v. split; [exact H|apply String.eqb_refl].
Qed.

Lemma next_id_above (ids : list Z) (x : Z) : In x ids -> x < Query.next_id ids.
Proof.
  unfold Query.next_id. induction ids as [|i ids IH]; simpl; [intros []|].
  intros [->|H]; [lia|]. specialize (IH H). lia.
Qed.

Lemma first_app_last {A} (p : A -> bool) (rows : list A) (x : A) :
  Query.first p rows = None -> p x = true -> Query.first p (rows ++ [x]) = Some x.
Proof.
  unfold Query.first. induction rows as [|r rows IH]; simpl; intros Hn Hp.
  - now rewrite Hp.
  - destruct (p r); [discriminate|auto].
Qed.

Lemma delete_appended (rows : list Booking.t) (new : Booking.t) :
  Booking.id new = Query.next_id (map Booking.id rows) ->
  filter (fun r => negb (Booking.id r =? Booking.id new)) (rows ++ [new]) = rows.
Proof.
  intros Hid. rewrite filter_app. simpl. rewrite Z.eqb_refl. simpl.
  rewrite app_nil_r.
  assert (H : forall r, In r rows -> Booking.id r < Booking.id new).
  { intros r Hr. rewrite Hid. apply next_id_above. now apply in_map. }
  clear Hid. induction rows as [|r rows IH]; simpl; [reflexivity|].
  assert (E : (Booking.id r =? Booking.id new) = false).
  { apply Z.eqb_neq. specialize (H r (or_introl eq_refl)). lia. }
  rewrite E. simpl. f_equal. apply IH. intros; apply H; now right.
Qed.

(** ** Working windows *)

Lemma HOUR_pos : 0 < Time.HOUR.
Proof. reflexivity. Qed.

Lemma DAY_pos : 0 < Time.DAY.
Proof. reflexivity. Qed.

(** The working window of the day of [d]: from 09:00 to 17:00 on the
    wall clock of [d], shifted to UTC by the offset of [d] (that of Addis
    Ababa when [d] is naive). *)
Lemma day_range_columns (d : datetime) :
  let off := match Time.tzinfo d with Some off => off | None => ADDIS_ABABA_TZ end in
  Time.to_column (fst (day_range_in_tz d)) = Time.date d * Time.DAY + 9 * Time.HOUR - off
  /\ Time.to_column (snd (day_range_in_tz d)) = Time.date d * Time.DAY + 17 * Time.HOUR - off.
Proof.
  destruct d as [w|w off]; simpl; unfold UTC; split; lia.
Qed.

Lemma day_range_ordered (d : datetime) :
  Time.to_column (fst (day_range_in_tz d)) < Time.to_column (snd (day_range_in_tz d)).
Proof.
  destruct (day_range_columns d) as [-> ->]. pose proof HOUR_pos. lia.
Qed.

Lemma student_on_day_spec (s : Z) (start_utc end_utc : datetime) (b : Booking.t) :
  student_on_day s start_utc end_utc b = true <->
  Booking.student_id b = s
  /\ Booking.start_time b <= Time.to_column end_utc
  /\ Booking.end_time b >= Time.to_column start_utc
  /\ In (Booking.status b) ACTIVE_STATUSES.
Proof.
  unfold student_on_day. rewrite !andb_true_iff, Z.eqb_eq, Z.leb_le, Z.geb_le, in_spec.
  intuition lia.
Qed.

Lemma computer_conflict_spec (c : Z) (start_utc end_utc : datetime) (b : Booking.t) :
  computer_conflict c start_utc end_utc b = true <->
  Booking.computer_id b = c
  /\ Booking.start_time b < Time.to_column end_utc
  /\ Booking.end_time b > Time.to_column start_utc
  /\ In (Booking.status b) ACTIVE_STATUSES.
Proof.
  unfold computer_conflict. rewrite !andb_true_iff, Z.eqb_eq, Z.ltb_lt, Z.gtb_lt, in_spec.
  intuition lia.
Qed.

(** ** Day toggle *)

(** A date string that is accepted gives a midnight at the zone's
    offset. *)
Lemma local_date_of_string_aware (py_int : string -> option Z) (s : string)
    (d : datetime) :
  local_date_of_string py_int s = Some d -> exists w, d = Aware w ADDIS_ABABA_TZ.
Proof.
  unfold local_date_of_string, pytz_localize.
  destruct (map py_int (Str.split "-" s)) as [|[y|] [|[m|] [|[dd|] [|? ?]]]];
    try discriminate.
  destruct (Time.datetime_ymd y m dd) as [dt|]; [|discriminate].
  destruct (_ && _); [|discriminate].
  intros H. injection H as <-. eexists. reflexivity.
Qed.

(** What [toggle_day_booking] does once the date string is accepted. *)
Lemma toggle_day_booking_unfold
    (py_int : string -> option Z) (clock : Z) (payload : ToggleDayPayload.t)
    (db : DB) (local_date : datetime) :
  local_date_of_string py_int (ToggleDayPayload.date payload) = Some local_date ->
  let start_utc := fst (day_range_in_tz local_date) in
  let end_utc := snd (day_range_in_tz local_date) in
  toggle_day_booking py_int clock payload db =
  match Query.first
          (student_on_day (ToggleDayPayload.student_id payload) start_utc end_utc)
          (bookings db) with
  | Some existing =>
      (Return removed,
       Session.set_bookings db
         (filter (fun r => negb (Booking.id r =? Booking.id existing)) (bookings db)))
  | None =>
      match ToggleDayPayload.computer_id payload with
      | Some computer_id =>
          if computer_id =? 0
          then (Raise (HTTPException 400 "computer_id required to add booking"), db)
          else if Query.count (computer_conflict computer_id start_utc end_utc)
                              (bookings db) =? 0
          then
            let new :=
              Booking.mk (Query.next_id (map Booking.id (bookings db)))
                computer_id (ToggleDayPayload.student_id payload)
                (Time.to_column start_utc) (Time.to_column end_utc) "scheduled"
                (Time.to_column (get_current_time clock)) in
            (Return (added (Booking.id new)),
             Session.set_bookings db (bookings db ++ [new]))
          else (Raise (HTTPException 400 "Computer not available for selected day"), db)
      | None => (Raise (HTTPException 400 "computer_id required to add booking"), db)
      end
  end.
Proof.
  intros Hdate start_utc end_utc. unfold toggle_day_booking. rewrite Hdate.
  destruct (day_range_in_tz local_date) as [s e] eqn:Hr.
  subst start_utc end_utc. cbn [fst snd].
  unfold bind at 1. unfold session at 1.
  destruct (Query.first _ (bookings db)) as [existing|]; [reflexivity|].
  destruct (ToggleDayPayload.computer_id payload) as [cid|]; [|reflexivity].
  unfold truthy_int. destruct (cid =? 0); [reflexivity|]. cbn [negb].
  unfold raise_if. destruct (Query.count _ _ =? 0); reflexivity.
Qed.

(** C9, as stated, fails: student 5 has one scheduled booking, 08:00 to
    09:00 local time on 2024-03-04, which does not overlap the working
    window [09:00, 17:00) of that day as a half-open interval; yet a
    toggle for that day with [computer_id = 0] is not refused for the
    missing computer: it answers "removed" and deletes the 08:00
    booking. *)
Lemma toggle_zero_computer_id_counterexample :
  let payload := ToggleDayPayload.mk 5 "2024-03-04" (Some 0) in
  let window_start := Sample.local_hour 9 in
  let window_end := Sample.local_hour 17 in
  (exists local_date,
     local_date_of_string Sample.decimal_int "2024-03-04" = Some local_date
     /\ Time.to_column (fst (day_range_in_tz local_date)) = window_start
     /\ Time.to_column (snd (day_range_in_tz local_date)) = window_end)
  /\ (forall b, In b (bookings Sample.db_early) ->
        Booking.student_id b = 5 -> In (Booking.status b) ACTIVE_STATUSES ->
        ~ (Booking.start_time b < window_end /\ Booking.end_time b > window_start))
  /\ toggle_day_booking Sample.decimal_int Sample.monday_noon payload Sample.db_early
     = (Return removed, Sample.db_free)
  /\ bookings Sample.db_early <> bookings Sample.db_free.
Proof.
  cbv zeta. split; [|split; [|split]].
  - eexists. split; [vm_compute; reflexivity|]. split; vm_compute; reflexivity.
  - intros b [<-|[]] _ _ [_ H]. vm_compute in H. discriminate.
  - vm_compute. reflexivity.
  - discriminate.
Qed.

(** C9, amended.  A [computer_id] of 0 is handled exactly as a missing
    one: the two requests have the same outcome and leave the same
    database in every state.  When the date is accepted and lies in the
    years the zone is at +03:00, the student id is one the database can
    bind, and the student has no scheduled or active booking that touches
    or overlaps the working window of that day (none with start no later
    than the end of the window and end no earlier than its start), the
    request with [computer_id = 0] is refused with status 400,
    "computer_id required to add booking", without any conflict check and
    without creating a booking. *)
Theorem toggle_day_booking_zero_computer_id :
  forall (py_int : string -> option Z) (clock student_id : Z) (date : string) (db : DB),
    toggle_day_booking py_int clock (ToggleDayPayload.mk student_id date (Some 0)) db
    = toggle_day_booking py_int clock (ToggleDayPayload.mk student_id date None) db
    /\
    forall local_date : datetime,
      local_date_of_string py_int date = Some local_date ->
      in_EAT_era local_date ->
      fits_integer student_id = true ->
      (forall b, In b (bookings db) ->
         Booking.student_id b = student_id ->
         In (Booking.status b) ACTIVE_STATUSES ->
         ~ (Booking.start_time b <= Time.to_column (snd (day_range_in_tz local_date))
            /\ Booking.end_time b >= Time.to_column (fst (day_range_in_tz local_date)))) ->
      toggle_day_booking py_int clock (ToggleDayPayload.mk student_id date (Some 0)) db
      = (Raise (HTTPException 400 "computer_id required to add booking"), db).
Proof.
  intros py_int clock student_id date db. split.
  - destruct (local_date_of_string py_int date) as [local_date|] eqn:Hdate.
    + rewrite !(toggle_day_booking_unfold py_int clock _ db local_date) by exact Hdate.
      reflexivity.
    + unfold toggle_day_booking. cbn [ToggleDayPayload.date]. rewrite Hdate. reflexivity.
  - intros local_date Hdate _ _ Hnone.
    rewrite (toggle_day_booking_unfold py_int clock _ db local_date) by exact Hdate.
    cbn [ToggleDayPayload.student_id ToggleDayPayload.computer_id].
    assert (Query.first
              (student_on_day student_id (fst (day_range_in_tz local_date))
                 (snd (day_range_in_tz local_date))) (bookings db) = None) as ->.
    { apply first_none. intros b Hb.
      destruct (student_on_day _ _ _ b) eqn:E; [|reflexivity].
      apply student_on_day_spec in E. destruct E as (Hs & H1 & H2 & Hst).
      exfalso. apply (Hnone b Hb Hs Hst). split; assumption. }
    reflexivity.
Qed.

(** A request for computer 0 on a free day. *)
Lemma toggle_day_booking_zero_computer_id_witness :
  toggle_day_booking Sample.decimal_int Sample.monday_noon
    (ToggleDayPayload.mk 5 "2024-03-04" (Some 0)) Sample.db_free
  = (Raise (HTTPException 400 "computer_id required to add booking"), Sample.db_free).
Proof.
  refine (proj2 (toggle_day_booking_zero_computer_id
                   Sample.decimal_int Sample.monday_noon 5 "2024-03-04" Sample.db_free)
                (Time.localize ADDIS_ABABA_TZ (Naive (Sample.local_hour 3))) _ _ _ _).
  - vm_compute. reflexivity.
  - split; vm_compute; discriminate.
  - reflexivity.
  - intros b [].
Defined.

(** C2, as stated, fails: student 5 has one scheduled booking, 08:00 to
    09:00 local time on 2024-03-04, which does not overlap the working
    window [09:00, 17:00) of that day as a half-open interval, and
    computer 2 has no booking at all; yet the first toggle for that day
    answers "removed" and deletes the 08:00 booking instead of adding one. *)
Lemma toggle_round_trip_counterexample :
  let payload := ToggleDayPayload.mk 5 "2024-03-04" (Some 2) in
  let window_start := Sample.local_hour 9 in
  let window_end := Sample.local_hour 17 in
  (exists local_date,
     local_date_of_string Sample.decimal_int "2024-03-04" = Some local_date
     /\ Time.to_column (fst (day_range_in_tz local_date)) = window_start
     /\ Time.to_column (snd (day_range_in_tz local_date)) = window_end)
  /\ (forall b, In b (bookings Sample.db_early) ->
        Booking.student_id b = 5 -> In (Booking.status b) ACTIVE_STATUSES ->
        ~ (Booking.start_time b < window_end /\ Booking.end_time b > window_start))
  /\ (forall b, In b (bookings Sample.db_early) ->
        Booking.computer_id b = 2 -> In (Booking.status b) ACTIVE_STATUSES ->
        ~ (Booking.start_time b < window_end /\ Booking.end_time b > window_start))
  /\ toggle_day_booking Sample.decimal_int Sample.monday_noon payload Sample.db_early
     = (Return removed, Sample.db_free).
Proof.
  cbv zeta. split; [|split; [|split]].
  - eexists. split; [vm_compute; reflexivity|]. split; vm_compute; reflexivity.
  - intros b [<-|[]] _ _ [_ H]. vm_compute in H. discriminate.
  - intros b [<-|[]] H. vm_compute in H. discriminate.
  - vm_compute. reflexivity.
Qed.

(** C2, amended.  Take a date in the years the zone is at +03:00
    (1942-08-02 to 9999-12-30), student and computer ids the database can
    bind, and a state in which the student has no scheduled or
    active booking that touches or overlaps the working window of the
    given local date (none with start <= window end and end >= window
    start), and in which the given computer, whose id is not 0, has no
    scheduled or active booking overlapping that window as a half-open
    interval.  One call returns "added" with the id of a new row: a
    scheduled booking of that computer by that student from 09:00 to
    17:00 local time of the date; and a repeated call for the same
    student and date, whatever computer it names and whenever it is made,
    returns "removed" and leaves the database exactly as it was before
    the first call. *)
Theorem toggle_day_booking_round_trip :
  forall (py_int : string -> option Z) (clock clock' : Z)
         (student_id computer_id : Z) (computer_id' : option Z)
         (date : string) (db : DB) (local_date : datetime),
    local_date_of_string py_int date = Some local_date ->
    in_EAT_era local_date ->
    fits_integer student_id = true ->
    fits_integer computer_id = true ->
    let window_start := Time.to_column (fst (day_range_in_tz local_date)) in
    let window_end := Time.to_column (snd (day_range_in_tz local_date)) in
    computer_id <> 0 ->
    (forall b, In b (bookings db) ->
       Booking.student_id b = student_id -> In (Booking.status b) ACTIVE_STATUSES ->
       ~ (Booking.start_time b <= window_end /\ Booking.end_time b >= window_start)) ->
    (forall b, In b (bookings db) ->
       Booking.computer_id b = computer_id -> In (Booking.status b) ACTIVE_STATUSES ->
       ~ (Booking.start_time b < window_end /\ Booking.end_time b > window_start)) ->
    exists new : Booking.t,
      toggle_day_booking py_int clock
        (ToggleDayPayload.mk student_id date (Some computer_id)) db
      = (Return (added (Booking.id new)), Session.set_bookings db (bookings db ++ [new]))
      /\ ~ In (Booking.id new) (map Booking.id (bookings db))
      /\ Booking.computer_id new = computer_id
      /\ Booking.student_id new = student_id
      /\ Booking.status new = "scheduled"
      /\ Booking.start_time new
         = Time.date local_date * Time.DAY + 9 * Time.HOUR - ADDIS_ABABA_TZ
      /\ Booking.end_time new
         = Time.date local_date * Time.DAY + 17 * Time.HOUR - ADDIS_ABABA_TZ
      /\ toggle_day_booking py_int clock'
           (ToggleDayPayload.mk student_id date computer_id')
           (Session.set_bookings db (bookings db ++ [new]))
         = (Return removed, db).
Proof.
  intros py_int clock clock' student_id computer_id computer_id' date db local_date
         Hdate _ _ _ window_start window_end Hcid Hstudent Hcomputer.
  assert (Hnone : Query.first
            (student_on_day student_id (fst (day_range_in_tz local_date))
               (snd (day_range_in_tz local_date))) (bookings db) = None).
  { apply first_none. intros b Hb.
    destruct (student_on_day _ _ _ b) eqn:E; [|reflexivity].
    apply student_on_day_spec in E. destruct E as (Hs & H1 & H2 & Hst).
    exfalso. apply (Hstudent b Hb Hs Hst). split; assumption. }
  assert (Hfree : Query.count
            (computer_conflict computer_id (fst (day_range_in_tz local_date))
               (snd (day_range_in_tz local_date))) (bookings db) = 0).
  { apply count_zero. intros b Hb.
    destruct (computer_conflict _ _ _ b) eqn:E; [|reflexivity].
    apply computer_conflict_spec in E. destruct E as (Hc & H1 & H2 & Hst).
    exfalso. apply (Hcomputer b Hb Hc Hst). split; assumption. }
  set (new := Booking.mk (Query.next_id (map Booking.id (bookings db)))
                computer_id student_id window_start window_end "scheduled"
                (Time.to_column (get_current_time clock))).
  exists new.
  destruct (local_date_of_string_aware py_int date local_date Hdate) as [w Hw].
  pose proof (day_range_columns local_date) as [Hs He]. pose proof (day_range_ordered local_date) as Hord.
  split; [|split; [|split; [|split; [|split; [|split; [|split]]]]]].
  - rewrite (toggle_day_booking_unfold py_int clock _ db local_date) by exact Hdate.
    cbn [ToggleDayPayload.student_id ToggleDayPayload.computer_id].
    rewrite Hnone. apply Z.eqb_neq in Hcid. rewrite Hcid, Hfree. reflexivity.
  - intros Hin. apply next_id_above in Hin. cbn in Hin. lia.
  - reflexivity.
  - reflexivity.
  - reflexivity.
  - cbn [new Booking.start_time]. unfold window_start. rewrite Hs, Hw. reflexivity.
  - cbn [new Booking.end_time]. unfold window_end. rewrite He, Hw. reflexivity.
  - rewrite (toggle_day_booking_unfold py_int clock' _ _ local_date) by exact Hdate.
    cbn [ToggleDayPayload.student_id ToggleDayPayload.computer_id bookings
         Session.set_bookings].
    rewrite (first_app_last _ (bookings db) new Hnone).
    + rewrite delete_appended by reflexivity.
      destruct db; reflexivity.
    + apply student_on_day_spec. cbn [new Booking.student_id Booking.start_time
        Booking.end_time Booking.status]. fold window_start window_end in Hord |- *.
      repeat split; try lia. simpl; auto.
Qed.

(** Student 5 toggles 2024-03-04 on computer 2 in a lab with no bookings. *)
Lemma toggle_day_booking_round_trip_witness :
  exists new : Booking.t,
    toggle_day_booking Sample.decimal_int Sample.monday_noon
      (ToggleDayPayload.mk 5 "2024-03-04" (Some 2)) Sample.db_free
    = (Return (added (Booking.id new)),
       Session.set_bookings Sample.db_free (bookings Sample.db_free ++ [new]))
    /\ Booking.start_time new = Sample.local_hour 9
    /\ Booking.end_time new = Sample.local_hour 17
    /\ toggle_day_booking Sample.decimal_int Sample.monday_noon
         (ToggleDayPayload.mk 5 "2024-03-04" None)
         (Session.set_bookings Sample.db_free (bookings Sample.db_free ++ [new]))
       = (Return removed, Sample.db_free).
Proof.
  destruct (toggle_day_booking_round_trip Sample.decimal_int
              Sample.monday_noon Sample.monday_noon 5 2 None "2024-03-04"
              Sample.db_free (Time.localize ADDIS_ABABA_TZ (Naive (Sample.local_hour 3))))
    as (new & H1 & _ & _ & _ & _ & Hs & He & H2).
  - vm_compute. reflexivity.
  - split; vm_compute; discriminate.
  - reflexivity.
  - reflexivity.
  - discriminate.
  - intros b [].
  - intros b [].
  - exists new. split; [exact H1|]. split; [|split; [|exact H2]].
    + rewrite Hs. vm_compute. reflexivity.
    + rewrite He. vm_compute. reflexivity.
Defined.

(** ** Sorting by a key *)

Lemma insert_by_perm {A} (le : A -> A -> bool) (x : A) (l : list A) :
  Permutation (Query.insert_by le x l) (x :: l).
Proof.
  induction l as [|y l IH]; simpl; [reflexivity|].
  destruct (le x y); [reflexivity|].
  rewrite IH. apply perm_swap.
Qed.

Lemma order_by_perm {A} (le : A -> A -> bool) (l : list A) :
  Permutation (Query.order_by le l) l.
Proof.
  induction l as [|x l IH]; simpl; [reflexivity|].
  rewrite insert_by_perm. now constructor.
Qed.

Section Sorting.

Context {A : Type} (le : A -> A -> bool).
Hypothesis le_total : forall a b, le a b = true \/ le b a = true.

Lemma insert_by_sorted (x : A) (l : list A) :
  Sorted (fun a b => le a b = true) l ->
  Sorted (fun a b => le a b = true) (Query.insert_by le x l).
Proof.
  induction l as [|y l IH]; simpl; intros Hs.
  - repeat constructor.
  - destruct (le x y) eqn:E.
    + constructor; [exact Hs|constructor; exact E].
    + inversion Hs as [|? ? Hs' Hhd]; subst. constructor; [auto|].
      assert (Hyx : le y x = true) by (destruct (le_total x y); congruence).
      destruct l as [|z l]; simpl.
      * constructor; exact Hyx.
      * destruct (le x z); constructor; [exact Hyx|].
        inversion Hhd; assumption.
Qed.

Lemma order_by_sorted (l : list A) :
  Sorted (fun a b => le a b = true) (Query.order_by le l).
Proof.
  induction l as [|x l IH]; simpl; [constructor|].
  apply insert_by_sorted; exact IH.
Qed.

Hypothesis le_trans : forall a b c, le a b = true -> le b c = true -> le a c = true.

Lemma order_by_first_least (l : list A) (x : A) :
  hd_error (Query.order_by le l) = Some x ->
  In x l /\ forall y, In y l -> le x y = true.
Proof.
  revert x. induction l as [|a l IH]; simpl; intros x Hx; [discriminate|].
  destruct (Query.order_by le l) as [|y sorted] eqn:E; simpl in Hx.
  - injection Hx as <-. split; [now left|].
    assert (l = []) as ->.
    { apply Permutation_nil. rewrite <- E. apply order_by_perm. }
    intros y [<-|[]]. destruct (le_total a a); assumption.
  - destruct (IH y eq_refl) as [Hy Hmin].
    destruct (le a y) eqn:Eay; simpl in Hx; injection Hx as <-.
    + split; [now left|]. intros z [<-|Hz].
      * destruct (le_total a a); assumption.
      * eapply le_trans; [exact Eay|auto].
    + split; [now right|]. intros z [<-|Hz]; [|auto].
      destruct (le_total a y); congruence.
Qed.

End Sorting.

Lemma order_by_none {A} (le : A -> A -> bool) (l : list A) :
  hd_error (Query.order_by le l) = None -> l = [].
Proof.
  intros H. apply Permutation_nil.
  destruct (Query.order_by le l) eqn:E; [|discriminate].
  rewrite <- E. apply order_by_perm.
Qed.

(** ** The weekly schedule *)

Lemma for_each_reading {A B} (xs : list A) (body : A -> M B) (f : A -> B) (db : DB) :
  (forall x, In x xs -> body x db = (Return (f x), db)) ->
  for_each xs body db = (Return (map f xs), db).
Proof.
  induction xs as [|x xs IH]; simpl; intros H; [reflexivity|].
  unfold bind. rewrite (H x (or_introl eq_refl)).
  rewrite IH by (intros; apply H; now right). reflexivity.
Qed.

(** [get_week_schedule] returns the reading above and commits nothing. *)
Lemma get_week_schedule_reading (clock : Z) (db : DB) :
  get_week_schedule clock db =
  (Return
     (WeekSchedule.mk
        (option_map Time.date (hd_error (week_days clock)))
        (option_map Time.date (hd_error (rev (week_days clock))))
        (map day_name (week_days clock))
        (map (fun c => (Computer.id c, Computer.name c))
           (Query.order_by (fun a b => String.leb (Computer.name a) (Computer.name b))
              (computers db)))
        (map (week_row clock (bookings db))
           (Query.order_by (fun a b => String.leb (Student.name a) (Student.name b))
              (students db)))),
   db).
Proof.
  unfold get_week_schedule. fold (week_days clock).
  unfold bind at 1. unfold session at 1. unfold bind at 1.
  rewrite (for_each_reading _ _ (week_row clock (bookings db))).
  - reflexivity.
  - intros student _. unfold bind at 1.
    rewrite (for_each_reading _ _ (day_cell (bookings db) (Student.id student))).
    + reflexivity.
    + intros d _. unfold day_cell, day_booking.
      destruct (day_range_in_tz d) as [s e]. cbn [fst snd].
      unfold bind, session. destruct (hd_error _); reflexivity.
Qed.

(** What a cell of the grid says about the bookings of its student. *)
Lemma day_cell_reading (rows : list Booking.t) (student_id : Z) (d : datetime) :
  let window_start := Time.to_column (fst (day_range_in_tz d)) in
  let window_end := Time.to_column (snd (day_range_in_tz d)) in
  let qualifies b :=
    Booking.student_id b = student_id /\ live b
    /\ touches_or_overlaps b window_start window_end in
  let cell := day_cell rows student_id d in
  DayCell.date cell = Time.date d
  /\ (DayCell.has_booking cell = true ->
      exists b, In b rows /\ qualifies b
                /\ DayCell.booking_id cell = Some (Booking.id b)
                /\ DayCell.computer_id cell = Some (Booking.computer_id b)
                /\ forall b', In b' rows -> qualifies b' ->
                              Booking.start_time b <= Booking.start_time b')
  /\ (DayCell.has_booking cell = false ->
      DayCell.booking_id cell = None /\ DayCell.computer_id cell = None
      /\ forall b, In b rows -> ~ qualifies b).
Proof.
  intros window_start window_end qualifies cell.
  assert (Hq : forall b, qualifies b <->
             student_on_day student_id (fst (day_range_in_tz d))
               (snd (day_range_in_tz d)) b = true).
  { intros b. rewrite student_on_day_spec. unfold qualifies, live, touches_or_overlaps.
    fold window_start window_end. tauto. }
  subst cell. unfold day_cell, day_booking.
  destruct (hd_error _) as [b|] eqn:E; cbn;
    (split; [reflexivity|split; intros H; try discriminate]).
  - apply order_by_first_least in E.
    + destruct E as [Hin Hmin]. apply filter_In in Hin. destruct Hin as [Hin Hp].
      exists b. split; [exact Hin|]. split; [apply Hq; exact Hp|].
      split; [reflexivity|]. split; [reflexivity|].
      intros b' Hb' Hq'. apply Z.leb_le. apply Hmin. apply filter_In.
      split; [exact Hb'|apply Hq; exact Hq'].
    + intros a c. rewrite !Z.leb_le. lia.
    + intros a c e. rewrite !Z.leb_le. lia.
  - apply order_by_none in E. split; [reflexivity|]. split; [reflexivity|].
    intros b Hb Hqb. apply Hq in Hqb.
    assert (In b []) as [].
    rewrite <- E. apply filter_In. split; assumption.
Qed.

(** The five days of the grid are Monday to Friday of the local week of
    the clock. *)
Lemma week_days_reading (clock : Z) :
  let today := Time.date (get_current_time clock) in
  let monday := Time.date (get_monday (get_current_time clock)) in
  (monday + 3) mod 7 = 0
  /\ monday <= today < monday + 7
  /\ map Time.date (week_days clock)
     = [monday; monday + 1; monday + 2; monday + 3; monday + 4]
  /\ map day_name (week_days clock)
     = ["Monday"; "Tuesday"; "Wednesday"; "Thursday"; "Friday"]
  /\ forall d, In d (week_days clock) -> Time.tzinfo d = Some ADDIS_ABABA_TZ.
Proof.
  cbv zeta. unfold week_days, get_monday, get_current_time.
  set (q := Time.date (Aware (clock + ADDIS_ABABA_TZ) ADDIS_ABABA_TZ)).
  assert (Hbase : Time.date (Time.replace_hour 0
                    (Aware (clock + ADDIS_ABABA_TZ) ADDIS_ABABA_TZ)) = q).
  { unfold Time.replace_hour. fold q. unfold Time.date at 1. cbn [Time.wall].
    rewrite Z.mul_0_l, Z.add_0_r. apply Z.div_mul. discriminate. }
  set (base := Time.replace_hour 0 (Aware (clock + ADDIS_ABABA_TZ) ADDIS_ABABA_TZ)) in *.
  assert (Hadd : forall n, Time.date (Time.add_days base n) = q + n).
  { intros n. rewrite <- Hbase. unfold Time.date, Time.add_days.
    destruct base; cbn [Time.wall]; apply Z.div_add; discriminate. }
  assert (Hwd : Time.weekday base = (q + 3) mod 7).
  { unfold Time.weekday. rewrite Hbase. reflexivity. }
  rewrite !Hwd. clearbody q.
  set (k := (q + 3) mod 7).
  assert (Hk : 0 <= k < 7) by (apply Z.mod_pos_bound; lia).
  assert (Hm : (q - k + 3) mod 7 = 0).
  { subst k. pose proof (Z.div_mod (q + 3) 7 ltac:(lia)) as Hdm.
    replace (q - (q + 3) mod 7 + 3) with ((q + 3) / 7 * 7) by lia.
    apply Z.mod_mul. lia. }
  assert (Hmon : Time.date (Time.add_days base (- k)) = q - k) by (rewrite Hadd; lia).
  assert (Hday : forall i, Time.date (Time.add_days (Time.add_days base (- k)) i)
                           = q - k + i).
  { intros i. rewrite <- Hmon. unfold Time.date, Time.add_days.
    destruct base; cbn [Time.wall]; apply Z.div_add; discriminate. }
  clearbody k.
  rewrite Hmon. split; [exact Hm|]. split; [lia|]. split; [|split].
  - cbn [seq map]. rewrite !Hday.
    change (Z.of_nat 0) with 0. change (Z.of_nat 1) with 1. change (Z.of_nat 2) with 2.
    change (Z.of_nat 3) with 3. change (Z.of_nat 4) with 4.
    rewrite Z.add_0_r. reflexivity.
  - cbn [seq map]. unfold day_name, Time.weekday. rewrite !Hday.
    change (Z.of_nat 0) with 0. change (Z.of_nat 1) with 1. change (Z.of_nat 2) with 2.
    change (Z.of_nat 3) with 3. change (Z.of_nat 4) with 4.
    assert (Hw : forall i, 0 <= i < 7 -> (q - k + i + 3) mod 7 = i).
    { intros i Hi. replace (q - k + i + 3) with (i + (q - k + 3)) by lia.
      rewrite Z.add_mod by lia. rewrite Hm, Z.add_0_r, Z.mod_mod by lia.
      apply Z.mod_small; lia. }
    rewrite !Hw by (cbn; lia). reflexivity.
  - intros d Hd. apply in_map_iff in Hd. destruct Hd as (i & <- & _).
    unfold base. reflexivity.
Qed.

Lemma Sorted_map {A B} (f : A -> B) (R : A -> A -> Prop) (R' : B -> B -> Prop)
    (l : list A) :
  (forall a b, R a b -> R' (f a) (f b)) ->
  Sorted R l -> Sorted R' (map f l).
Proof.
  intros HR. induction 1 as [|a l Hs IH Hhd]; simpl; constructor; [exact IH|].
  destruct Hhd; simpl; constructor; auto.
Qed.

(** C6, as stated, fails: student 5 has one scheduled booking, 17:00 to
    18:00 local time on Monday 2024-03-04; no booking overlaps the
    working window [09:00, 17:00) of that Monday as a half-open interval,
    yet the Monday cell of the student's row reports that booking. *)
Lemma week_schedule_counterexample :
  exists (ws : WeekSchedule.t) (row : Row.t) (cell : DayCell.t),
    run (get_week_schedule Sample.monday_noon) Sample.db_late = Return ws
    /\ WeekSchedule.rows ws = [row]
    /\ Row.student_id row = 5
    /\ hd_error (Row.days row) = Some cell
    /\ window_start_of (DayCell.date cell) = Sample.local_hour 9
    /\ window_end_of (DayCell.date cell) = Sample.local_hour 17
    /\ DayCell.has_booking cell = true
    /\ DayCell.booking_id cell = Some (Booking.id Sample.late_booking)
    /\ (forall b, In b (bookings Sample.db_late) ->
          ~ overlaps b (window_start_of (DayCell.date cell))
                       (window_end_of (DayCell.date cell))).
Proof.
  eexists. eexists. eexists.
  split; [vm_compute; reflexivity|].
  split; [reflexivity|]. split; [reflexivity|]. split; [reflexivity|].
  split; [vm_compute; reflexivity|]. split; [vm_compute; reflexivity|].
  split; [reflexivity|]. split; [reflexivity|].
  intros b [<-|[]] [H _]. vm_compute in H. discriminate.
Qed.

(** C6, amended.  [get_week_schedule] commits nothing and returns a grid
    for Monday to Friday of the current local week with exactly one row
    per student, the rows ordered by student name.  Each row has one cell
    per day; a cell reports a booking exactly when the student has a
    scheduled or active booking that touches or overlaps that day's
    working window (start <= window end and end >= window start), and then
    it reports one of earliest start among them, with its computer;
    otherwise it reports none.  With no bookings at all every cell of
    every row reports none. *)
Theorem get_week_schedule_grid :
  forall (clock : Z) (db : DB),
    exists (ws : WeekSchedule.t) (monday : Z),
      get_week_schedule clock db = (Return ws, db)
      /\ (monday + 3) mod 7 = 0
      /\ monday <= Time.date (get_current_time clock) < monday + 7
      /\ WeekSchedule.days ws = ["Monday"; "Tuesday"; "Wednesday"; "Thursday"; "Friday"]
      /\ WeekSchedule.week_start ws = Some monday
      /\ WeekSchedule.week_end ws = Some (monday + 4)
      /\ Permutation
           (map (fun r => (Row.student_id r, Row.student_name r)) (WeekSchedule.rows ws))
           (map (fun s => (Student.id s, Student.name s)) (students db))
      /\ Sorted (fun a b => String.leb (Row.student_name a) (Row.student_name b) = true)
                (WeekSchedule.rows ws)
      /\ (forall row, In row (WeekSchedule.rows ws) ->
            map DayCell.date (Row.days row)
            = [monday; monday + 1; monday + 2; monday + 3; monday + 4]
            /\ forall cell, In cell (Row.days row) ->
                 let qualifies b :=
                   Booking.student_id b = Row.student_id row /\ live b
                   /\ touches_or_overlaps b (window_start_of (DayCell.date cell))
                                            (window_end_of (DayCell.date cell)) in
                 (DayCell.has_booking cell = true ->
                    exists b, In b (bookings db) /\ qualifies b
                      /\ DayCell.booking_id cell = Some (Booking.id b)
                      /\ DayCell.computer_id cell = Some (Booking.computer_id b)
                      /\ forall b', In b' (bookings db) -> qualifies b' ->
                                    Booking.start_time b <= Booking.start_time b')
                 /\ (DayCell.has_booking cell = false ->
                       DayCell.booking_id cell = None /\ DayCell.computer_id cell = None
                       /\ forall b, In b (bookings db) -> ~ qualifies b))
      /\ (bookings db = [] ->
          forall row cell, In row (WeekSchedule.rows ws) -> In cell (Row.days row) ->
                           DayCell.has_booking cell = false).
Proof.
  intros clock db.
  destruct (week_days_reading clock) as (Hmon & Hweek & Hdates & Hnames & Htz).
  set (monday := Time.date (get_monday (get_current_time clock))) in *.
  eexists. exists monday.
  split; [apply get_week_schedule_reading|].
  cbn [WeekSchedule.days WeekSchedule.week_start WeekSchedule.week_end WeekSchedule.rows].
  split; [exact Hmon|]. split; [exact Hweek|]. split; [exact Hnames|].
  assert (Hcells : forall sid,
            map DayCell.date (map (day_cell (bookings db) sid) (week_days clock))
            = map Time.date (week_days clock)).
  { intros sid. rewrite map_map. apply map_ext. intros d.
    apply (day_cell_reading (bookings db) sid d). }
  assert (Hends : option_map Time.date (hd_error (week_days clock)) = Some monday
                  /\ option_map Time.date (hd_error (rev (week_days clock)))
                     = Some (monday + 4)).
  { revert Hdates. unfold week_days. cbn [seq map hd_error rev app option_map].
    intros H. split.
    - exact (f_equal (fun l => hd_error l) H).
    - exact (f_equal (fun l => nth_error l 4) H). }
  split; [apply Hends|]. split; [apply Hends|].
  split.
  { rewrite map_map. cbn [week_row Row.student_id Row.student_name].
    apply Permutation_map. apply order_by_perm. }
  split.
  { apply Sorted_map with (R := fun a b => String.leb (Student.name a) (Student.name b) = true).
    - intros a b H; exact H.
    - apply order_by_sorted. intros a b. apply String.leb_total. }
  split.
  - intros row Hrow. apply in_map_iff in Hrow. destruct Hrow as (student & <- & _).
    cbn [week_row Row.days Row.student_id]. split.
    + rewrite Hcells. exact Hdates.
    + intros cell Hcell. apply in_map_iff in Hcell. destruct Hcell as (d & <- & Hd).
      pose proof (day_cell_reading (bookings db) (Student.id student) d) as Hread.
      cbv zeta in Hread. destruct Hread as (Hdate & Hyes & Hno).
      pose proof (day_range_columns d) as [Hs He]. rewrite (Htz d Hd) in Hs, He.
      cbv zeta. unfold window_start_of, window_end_of. rewrite Hdate, <- Hs, <- He.
      split; assumption.
  - intros Hempty row cell Hrow Hcell.
    apply in_map_iff in Hrow. destruct Hrow as (student & <- & _).
    cbn [week_row Row.days] in Hcell.
    apply in_map_iff in Hcell. destruct Hcell as (d & <- & _).
    rewrite Hempty. reflexivity.
Qed.

(** The grid of the week of 2024-03-04 for the lab with no bookings. *)
Lemma get_week_schedule_grid_witness :
  exists ws : WeekSchedule.t,
    get_week_schedule Sample.monday_noon Sample.db_free = (Return ws, Sample.db_free)
    /\ forall row cell, In row (WeekSchedule.rows ws) -> In cell (Row.days row) ->
                        DayCell.has_booking cell = false.
Proof.
  destruct (get_week_schedule_grid Sample.monday_noon Sample.db_free)
    as (ws & monday & Hrun & _ & _ & _ & _ & _ & _ & _ & _ & Hempty).
  exists ws. split; [exact Hrun|]. apply Hempty. reflexivity.
Defined.

(** ** Student self-service booking *)

(** [create_booking_student] for a caller who has a student record. *)
Lemma create_booking_student_unfold
    (strptime : string -> string -> string + datetime)
    (fromisoformat : string -> string + datetime)
    (clock : Z) (booking : StudentBookingCreate.t) (current_user : User.t)
    (db : DB) (student : Student.t) :
  Query.first (linked_to current_user) (students db) = Some student ->
  create_booking_student strptime fromisoformat clock booking current_user db =
  match parse_booking_times strptime fromisoformat booking with
  | inl e => (Raise (HTTPException 400 ("Invalid datetime format: " ++ e)%string), db)
  | inr (start_time, end_time) =>
      let new_start := Time.to_column (convert_to_utc start_time) in
      let new_end := Time.to_column (convert_to_utc end_time) in
      if Query.count
           (fun b => (Booking.computer_id b =? StudentBookingCreate.computer_id booking)
                     && Query.in_ (Booking.status b) ACTIVE_STATUSES
                     && (Booking.start_time b <? new_end)
                     && (Booking.end_time b >? new_start))
           (bookings db) >? 0
      then (Raise (HTTPException 400
                     "Computer is not available for the requested time slot"), db)
      else
        let new :=
          Booking.mk (Query.next_id (map Booking.id (bookings db)))
            (StudentBookingCreate.computer_id booking) (Student.id student)
            new_start new_end "scheduled"
            (Time.to_column (get_current_time clock)) in
        (Return new, Session.set_bookings db (bookings db ++ [new]))
  end.
Proof.
  intros Hfind. unfold create_booking_student.
  unfold bind at 1. unfold session at 1. rewrite Hfind.
  unfold bind at 1. unfold ret at 1.
  destruct (parse_booking_times strptime fromisoformat booking) as [e|[s e]];
    [reflexivity|].
  unfold bind at 1. unfold session at 1. cbv zeta.
  unfold raise_if. destruct (Query.count _ _ >? 0); reflexivity.
Qed.

Lemma slot_conflict_spec (c new_start new_end : Z) (b : Booking.t) :
  (Booking.computer_id b =? c) && Query.in_ (Booking.status b) ACTIVE_STATUSES
  && (Booking.start_time b <? new_end) && (Booking.end_time b >? new_start) = true
  <-> Booking.computer_id b = c /\ live b /\ overlaps b new_start new_end.
Proof.
  unfold live, overlaps.
  rewrite !andb_true_iff, Z.eqb_eq, Z.ltb_lt, Z.gtb_lt, in_spec. intuition lia.
Qed.



(** Requests that intersect [10:00, 11:00) on the booked computer are
    rejected: one inside it, one covering it, one reaching into it from
    either side. *)
Example create_booking_student_rejects_intersecting :
  Forall (fun r =>
            create_booking_student Sample.strptime Sample.fromisoformat
              Sample.monday_noon r Sample.caller Sample.db_booked
            = (Raise (HTTPException 400
                        "Computer is not available for the requested time slot"),
               Sample.db_booked))
    [Sample.request "2024-03-04T10:15" "2024-03-04T10:45";
     Sample.request "2024-03-04T09:00" "2024-03-04T12:00";
     Sample.request "2024-03-04T09:30" "2024-03-04T10:01";
     Sample.request "2024-03-04T10:59" "2024-03-04T11:30";
     Sample.request "2024-03-04T10:00" "2024-03-04T11:00"].
Proof. repeat constructor. Qed.

(** The lazily created student record of a caller who has none: the
    insert either trips a unique index of [students] or the handler goes
    on as if the record had been there. *)
Lemma create_booking_student_new_student
    (strptime : string -> string -> string + datetime)
    (fromisoformat : string -> string + datetime)
    (clock : Z) (booking : StudentBookingCreate.t) (current_user : User.t) (db : DB) :
  Query.first (linked_to current_user) (students db) = None ->
  let row :=
    Student.mk (Query.next_id (map Student.id (students db)))
      (User.username current_user) (User.email current_user)
      ("STU" ++ format_03d (User.id current_user))%string
      (Some (User.id current_user)) None None None (Some true) None None None in
  create_booking_student strptime fromisoformat clock booking current_user db =
  if Session.student_unique_clash row (students db)
  then (Raise IntegrityError, db)
  else create_booking_student strptime fromisoformat clock booking current_user
         (Session.set_students db (students db ++ [row])).
Proof.
  intros Hnone row.
  destruct (Session.student_unique_clash row (students db)) eqn:Hclash.
  - unfold create_booking_student. unfold bind at 1. unfold session at 1.
    rewrite Hnone. unfold bind at 1. unfold Session.add_student.
    unfold bind at 1. unfold session at 1. fold row. rewrite Hclash. reflexivity.
  - rewrite (create_booking_student_unfold _ _ _ _ _
               (Session.set_students db (students db ++ [row])) row).
    + unfold create_booking_student. unfold bind at 1. unfold session at 1.
      rewrite Hnone. unfold bind at 1. unfold Session.add_student.
      unfold bind at 1. unfold session at 1. fold row. rewrite Hclash.
      unfold bind at 1. unfold commit at 1. unfold ret at 1.
      destruct (parse_booking_times strptime fromisoformat booking) as [e|[s e]];
        [reflexivity|].
      unfold bind at 1. unfold session at 1. cbv zeta.
      unfold raise_if. destruct (Query.count _ _ >? 0); reflexivity.
    + cbn [students Session.set_students]. apply first_app_last; [exact Hnone|].
      unfold linked_to, row. cbn. apply Z.eqb_refl.
Qed.




(** ** Direct assignment *)

Lemma admin_assign_reading (clock : Z) (payload : AssignPayload.t) (db : DB)
    (computer : Computer.t) (student : Student.t) :
  Query.first (fun c => Computer.id c =? AssignPayload.computer_id payload)
              (computers db) = Some computer ->
  Query.first (fun s => Student.id s =? AssignPayload.student_id payload)
              (students db) = Some student ->
  admin_assign clock payload db =
  if quota_exhausted student then (Raise EXPIRED, db)
  else if linked_user_inactive db student then (Raise INACTIVE, db)
  else if student_inactive student then (Raise INACTIVE, db)
  else if computer_busy computer then (Raise IN_USE, db)
  else
    let student' := after_assign clock student in
    let computer' :=
      computer_with_status computer "in_use" (Some (Student.name student'))
        (Some (Time.to_column (get_current_time clock))) in
    (Return (mk_assigned (Student.usage_days_remaining student')),
     Session.set_computers
       (Session.set_students db
          (map (fun r => if Student.id r =? Student.id student' then student' else r)
               (students db)))
       (map (fun r => if Computer.id r =? Computer.id computer' then computer' else r)
            (computers db))).
Proof.
  intros Hc Hs. unfold admin_assign.
  unfold bind at 1. unfold session at 1. rewrite Hc, Hs.
  fold (quota_exhausted student). fold (linked_user_inactive db student).
  fold (student_inactive student). fold (computer_busy computer).
  unfold raise_if, EXPIRED, INACTIVE, IN_USE.
  destruct (quota_exhausted student); [reflexivity|]. unfold bind at 1. cbn [ret].
  destruct (linked_user_inactive db student); [reflexivity|]. unfold bind at 1. cbn [ret].
  destruct (student_inactive student); [reflexivity|]. unfold bind at 1. cbn [ret].
  destruct (computer_busy computer); [reflexivity|]. unfold bind at 1. cbn [ret].
  reflexivity.
Qed.

Lemma admin_assign_not_found (clock : Z) (payload : AssignPayload.t) (db : DB) :
  Query.first (fun c => Computer.id c =? AssignPayload.computer_id payload)
              (computers db) = None
  \/ Query.first (fun s => Student.id s =? AssignPayload.student_id payload)
                 (students db) = None ->
  admin_assign clock payload db = (Raise NOT_FOUND, db).
Proof.
  intros H. unfold admin_assign. unfold bind at 1. unfold session at 1.
  destruct H as [-> | ->]; [reflexivity|].
  destruct (Query.first _ (computers db)); reflexivity.
Qed.

Lemma after_assign_id (clock : Z) (student : Student.t) :
  Student.id (after_assign clock student) = Student.id student
  /\ Student.name (after_assign clock student) = Student.name student.
Proof.
  unfold after_assign. destruct (Student.usage_days_remaining student); [|split; reflexivity].
  cbv zeta. destruct (_ && _); split; reflexivity.
Qed.




(** The column written at a decrement reads back, through
    [convert_from_utc], as a local date no earlier than the local date of
    the decrement. *)
Lemma last_decrement_date_of_now (clock : Z) :
  Time.date (get_current_time clock)
  <= last_decrement_date (Time.to_column (get_current_time clock)).
Proof.
  unfold last_decrement_date, Time.date, get_current_time, convert_from_utc.
  cbn [Time.tzinfo Time.localize Time.astimezone Time.wall Time.to_column].
  apply Z.div_le_mono; [reflexivity|]. unfold UTC.
  assert (0 < ADDIS_ABABA_TZ) by reflexivity. lia.
Qed.

(** C3.  A successful [admin_assign] returns the student's remaining
    usage days as committed, and either
    - decrements them by exactly one, from [n > 0] to [n - 1]: then no
      decrement was recorded before or the local date of today is
      strictly later than that of the recorded one; the time of the call
      is recorded as the last decrement; and the student's [active] flag
      becomes false when [n - 1] is 0 and is unchanged otherwise; or
    - leaves the student's row as it is: then the student has no quota,
      or a decrement is recorded whose local date is not before today's.
    After a decrement, a further call for the same student on the same
    (or an earlier) local date leaves the student's row as it is.  And
    once the remaining count is 0, any further call naming an existing
    computer is refused with status 400 "Student's usage days have
    expired" and commits nothing. *)
Theorem admin_assign_usage_days :
  forall (clock : Z) (payload : AssignPayload.t) (db : DB) (student : Student.t)
         (r : assigned),
    Query.first (fun s => Student.id s =? AssignPayload.student_id payload)
                (students db) = Some student ->
    run (admin_assign clock payload) db = Return r ->
    let now := get_current_time clock in
    let find_student rows :=
      Query.first (fun s => Student.id s =? AssignPayload.student_id payload) rows in
    exists student' : Student.t,
      find_student (students (exec (admin_assign clock payload) db)) = Some student'
      /\ usage_days_remaining r = Student.usage_days_remaining student'
      /\ ((exists n : Z,
             Student.usage_days_remaining student = Some n /\ 0 < n
             /\ Student.usage_days_remaining student' = Some (n - 1)
             /\ Student.usage_days_total student' = Student.usage_days_total student
             /\ (Student.usage_last_decrement_at student = None
                 \/ exists column,
                      Student.usage_last_decrement_at student = Some column
                      /\ last_decrement_date column < Time.date now)
             /\ Student.usage_last_decrement_at student' = Some (Time.to_column now)
             /\ Student.active student'
                = (if n - 1 =? 0 then Some false else Student.active student))
          \/ (student' = student
              /\ (Student.usage_days_remaining student = None
                  \/ exists column,
                       Student.usage_last_decrement_at student = Some column
                       /\ Time.date now <= last_decrement_date column)))
      /\ (Student.usage_last_decrement_at student' = Some (Time.to_column now) ->
          forall (clock2 : Z) (payload2 : AssignPayload.t) (db2 : DB),
            AssignPayload.student_id payload2 = AssignPayload.student_id payload ->
            find_student (students db2) = Some student' ->
            Time.date (get_current_time clock2) <= Time.date now ->
            find_student (students (exec (admin_assign clock2 payload2) db2))
            = Some student')
      /\ (Student.usage_days_remaining student' = Some 0 ->
          forall (clock2 : Z) (payload2 : AssignPayload.t) (db2 : DB)
                 (computer2 : Computer.t),
            AssignPayload.student_id payload2 = AssignPayload.student_id payload ->
            find_student (students db2) = Some student' ->
            Query.first (fun c => Computer.id c =? AssignPayload.computer_id payload2)
                        (computers db2) = Some computer2 ->
            admin_assign clock2 payload2 db2 = (Raise EXPIRED, db2)).
Proof.
  intros clock payload db student r Hs Hrun now find_student.
  pose proof (proj2 (first_some _ _ _ Hs)) as Hid. apply Z.eqb_eq in Hid.
  unfold run, exec in *.
  destruct (Query.first (fun c => Computer.id c =? AssignPayload.computer_id payload)
              (computers db)) as [computer|] eqn:Hc.
  2:{ rewrite admin_assign_not_found in Hrun by (now left). discriminate. }
  rewrite (admin_assign_reading clock payload db computer student Hc Hs) in Hrun |- *.
  destruct (quota_exhausted student) eqn:Hquota; [discriminate|].
  destruct (linked_user_inactive db student); [discriminate|].
  destruct (student_inactive student); [discriminate|].
  destruct (computer_busy computer); [discriminate|].
  cbv zeta in Hrun |- *. cbn [fst snd] in Hrun |- *.
  injection Hrun as <-.
  exists (after_assign clock student).
  cbn [students Session.set_computers Session.set_students usage_days_remaining].
  split.
  { subst find_student. cbv beta.
    apply (first_replace Student.id) with (old := student); [exact Hs|].
    rewrite (proj1 (after_assign_id clock student)). exact Hid. }
  split; [reflexivity|].
  split; [|split].
  - (* one call *)
    unfold after_assign. fold now. unfold quota_exhausted in Hquota.
    destruct (Student.usage_days_remaining student) as [n|] eqn:Hrem;
      [|right; split; [reflexivity|now left]].
    apply Z.leb_gt in Hquota. cbv zeta.
    assert (Hpos : (n >? 0) = true) by (apply Z.gtb_lt; lia).
    rewrite Hpos, andb_true_r.
    destruct (Student.usage_last_decrement_at student) as [column|] eqn:Hlast.
    + destruct (Time.date now >? last_decrement_date column) eqn:Hday.
      * left. exists n. cbn. apply Z.gtb_lt in Hday.
        repeat split; try lia.
        -- right. exists column. split; [reflexivity|lia].
        -- destruct (n - 1 <=? 0) eqn:E1, (n - 1 =? 0) eqn:E2; try reflexivity;
             rewrite ?Z.leb_le, ?Z.leb_gt, ?Z.eqb_eq, ?Z.eqb_neq in *; lia.
      * right. split; [reflexivity|]. right. exists column. split; [reflexivity|].
        rewrite Z.gtb_ltb, Z.ltb_ge in Hday. exact Hday.
    + left. exists n. cbn. repeat split; try lia.
      * now left.
      * destruct (n - 1 <=? 0) eqn:E1, (n - 1 =? 0) eqn:E2; try reflexivity;
          rewrite ?Z.leb_le, ?Z.leb_gt, ?Z.eqb_eq, ?Z.eqb_neq in *; lia.
  - (* a further call on the same local date *)
    intros Hlast clock2 payload2 db2 Hsame Hs2 Hdate. subst find_student. cbv beta in *.
    rewrite <- Hsame in Hs2 |- *. clear Hquota.
    set (s1 := after_assign clock student) in *. clearbody s1.
    destruct (Query.first (fun c => Computer.id c =? AssignPayload.computer_id payload2)
                (computers db2)) as [computer2|] eqn:Hc2.
    2:{ rewrite admin_assign_not_found by (now left). exact Hs2. }
    rewrite (admin_assign_reading clock2 payload2 db2 computer2 s1 Hc2 Hs2).
    destruct (quota_exhausted s1); [exact Hs2|].
    destruct (linked_user_inactive db2 s1); [exact Hs2|].
    destruct (student_inactive s1); [exact Hs2|].
    destruct (computer_busy computer2); [exact Hs2|].
    cbv zeta. cbn [snd students Session.set_computers Session.set_students].
    assert (Hstay : after_assign clock2 s1 = s1).
    { unfold after_assign. rewrite Hlast.
      destruct (Student.usage_days_remaining s1); [|reflexivity].
      cbv zeta.
      assert (Hno : (Time.date (get_current_time clock2)
                     >? last_decrement_date (Time.to_column now)) = false).
      { rewrite Z.gtb_ltb. apply Z.ltb_ge.
        pose proof (last_decrement_date_of_now clock) as Hback. fold now in Hback. lia. }
      rewrite Hno. reflexivity. }
    rewrite Hstay.
    apply (first_replace Student.id) with (old := s1); [exact Hs2|].
    apply first_some in Hs2. destruct Hs2 as [_ Hs2]. apply Z.eqb_eq in Hs2. exact Hs2.
  - (* the quota is used up *)
    intros Hzero clock2 payload2 db2 computer2 Hsame Hs2 Hc2.
    subst find_student. cbv beta in *. rewrite <- Hsame in Hs2.
    rewrite (admin_assign_reading clock2 payload2 db2 computer2 _ Hc2 Hs2).
    unfold quota_exhausted. rewrite Hzero. reflexivity.
Qed.

(** The last usage day of student 5: the assignment on Monday noon takes
    it and deactivates the student, and a second assignment that
    afternoon, to another computer, is refused. *)
Lemma admin_assign_usage_days_witness :
  exists student' : Student.t,
    run (admin_assign Sample.monday_noon (AssignPayload.mk 2 5)) Sample.db_last_day
    = Return (mk_assigned (Some 0))
    /\ Query.first (fun s => Student.id s =? 5)
         (students (exec (admin_assign Sample.monday_noon (AssignPayload.mk 2 5))
                         Sample.db_last_day)) = Some student'
    /\ Student.usage_days_remaining student' = Some 0
    /\ Student.active student' = Some false
    /\ admin_assign (Sample.monday_noon + 3 * Time.HOUR) (AssignPayload.mk 3 5)
         (exec (admin_assign Sample.monday_noon (AssignPayload.mk 2 5))
               Sample.db_last_day)
       = (Raise EXPIRED,
          exec (admin_assign Sample.monday_noon (AssignPayload.mk 2 5))
               Sample.db_last_day).
Proof.
  destruct (admin_assign_usage_days Sample.monday_noon (AssignPayload.mk 2 5)
              Sample.db_last_day Sample.last_day_student (mk_assigned (Some 0))
              eq_refl eq_refl)
    as (student' & Hfind & Hret & Hcase & _ & Hexpired).
  exists student'. split; [reflexivity|]. split; [exact Hfind|].
  cbn [usage_days_remaining] in Hret. symmetry in Hret.
  split; [exact Hret|]. split.
  - destruct Hcase as [(n & Hn & _ & _ & _ & _ & _ & Hact)|[-> _]].
    + injection Hn as <-. exact Hact.
    + discriminate Hret.
  - apply (Hexpired Hret) with (computer2 := Computer.mk 3 "PC-03" "available" None None).
    + reflexivity.
    + exact Hfind.
    + reflexivity.
Defined.

(** ** Normalised identifiers *)

Lemma lower_char_idem (c : ascii) :
  Str.lower_char (Str.lower_char c) = Str.lower_char c.
Proof. destruct c as [[] [] [] [] [] [] [] []]; reflexivity. Qed.

Lemma lower_char_space (c : ascii) :
  Ascii.eqb (Str.lower_char c) " " = true -> Str.isspace c = true.
Proof. destruct c as [[] [] [] [] [] [] [] []]; intros H; try reflexivity; discriminate H. Qed.

Section Strip.

Variables (p q : ascii -> bool) (f : ascii -> ascii).
Hypothesis q_f : forall c, q (f c) = true -> p c = true.

Lemma lstrip_head (l : list ascii) :
  match Str.lstrip p l with [] => True | c :: _ => p c = false end.
Proof.
  induction l as [|c l IH]; simpl; [exact I|].
  destruct (p c) eqn:E; [exact IH|exact E].
Qed.

Lemma rstrip_head (c : ascii) (l : list ascii) :
  p c = false -> exists l', Str.rstrip p (c :: l) = c :: l'.
Proof.
  intros Hc. simpl. destruct (Str.rstrip p l); [rewrite Hc|]; eauto.
Qed.

Lemma rstrip_map_fixed (l : list ascii) :
  Str.rstrip q (map f (Str.rstrip p l)) = map f (Str.rstrip p l).
Proof.
  induction l as [|c l IH]; simpl; [reflexivity|].
  destruct (Str.rstrip p l) as [|d kept] eqn:E.
  - destruct (p c) eqn:Hc; simpl; [reflexivity|].
    destruct (q (f c)) eqn:Hq; [|reflexivity].
    apply q_f in Hq. congruence.
  - change (Str.rstrip q (map f (c :: d :: kept)))
      with (match Str.rstrip q (map f (d :: kept)) with
            | [] => if q (f c) then [] else [f c]
            | k :: ks => f c :: k :: ks
            end).
    rewrite IH. reflexivity.
Qed.

Lemma strip_map_fixed (l : list ascii) :
  let kept := Str.rstrip p (Str.lstrip p l) in
  Str.rstrip q (Str.lstrip q (map f kept)) = map f kept.
Proof.
  cbv zeta. pose proof (lstrip_head l) as Hhd.
  destruct (Str.lstrip p l) as [|c l'] eqn:E; [reflexivity|].
  destruct (rstrip_head c l' Hhd) as [kept Hkept].
  assert (Hl : Str.lstrip q (map f (Str.rstrip p (c :: l')))
               = map f (Str.rstrip p (c :: l'))).
  { rewrite Hkept. cbn [map Str.lstrip].
    destruct (q (f c)) eqn:Hq; [|reflexivity]. apply q_f in Hq. congruence. }
  rewrite Hl. apply rstrip_map_fixed.
Qed.

End Strip.

(** What Python's [strip().lower()] yields is left as it is by SQLite's
    [lower(trim(...))]. *)
Lemma sql_normal_fixed (s : string) :
  Str.sql_lower (Str.sql_trim (Str.lower (Str.strip s))) = Str.lower (Str.strip s).
Proof.
  unfold Str.sql_lower, Str.sql_trim, Str.lower, Str.strip, Str.strip_with.
  rewrite !list_ascii_of_string_of_list_ascii.
  rewrite (strip_map_fixed Str.isspace (fun c => Ascii.eqb c " ") Str.lower_char
             lower_char_space).
  rewrite map_map. f_equal. apply map_ext. intros c. apply lower_char_idem.
Qed.

(** ** Student creation *)

(** Whitespace around a string does not change what [strip] keeps. *)
Lemma chars_app (a b : string) :
  list_ascii_of_string (a ++ b)%string
  = (list_ascii_of_string a ++ list_ascii_of_string b)%list.
Proof. induction a as [|c a IH]; simpl; [reflexivity|now rewrite IH]. Qed.

Lemma lstrip_all (p : ascii -> bool) (l : list ascii) :
  forallb p l = true -> Str.lstrip p l = [].
Proof.
  induction l as [|c l IH]; simpl; [reflexivity|].
  intros H. apply andb_true_iff in H as [-> H]. auto.
Qed.

Lemma rstrip_all (p : ascii -> bool) (l : list ascii) :
  forallb p l = true -> Str.rstrip p l = [].
Proof.
  induction l as [|c l IH]; simpl; [reflexivity|].
  intros H. apply andb_true_iff in H as [-> H]. now rewrite IH.
Qed.

Lemma lstrip_pad (p : ascii -> bool) (l x : list ascii) :
  forallb p l = true -> Str.lstrip p (l ++ x) = Str.lstrip p x.
Proof.
  induction l as [|c l IH]; simpl; [reflexivity|].
  intros H. apply andb_true_iff in H as [-> H]. auto.
Qed.

Lemma rstrip_pad (p : ascii -> bool) (x r : list ascii) :
  forallb p r = true -> Str.rstrip p (x ++ r) = Str.rstrip p x.
Proof.
  intros Hr. induction x as [|c x IH]; cbn [app].
  - now rewrite rstrip_all.
  - cbn [Str.rstrip]. now rewrite IH.
Qed.

Lemma strip_pad_right (p : ascii -> bool) (s r : list ascii) :
  forallb p r = true ->
  Str.rstrip p (Str.lstrip p (s ++ r)) = Str.rstrip p (Str.lstrip p s).
Proof.
  intros Hr. induction s as [|c s IH]; cbn [app].
  - now rewrite (lstrip_all p r Hr).
  - cbn [Str.lstrip]. destruct (p c); [exact IH|].
    change (c :: s ++ r)%list with ((c :: s) ++ r)%list. now apply rstrip_pad.
Qed.

Lemma strip_padding (l s r : string) :
  forallb Str.isspace (list_ascii_of_string l) = true ->
  forallb Str.isspace (list_ascii_of_string r) = true ->
  Str.strip (l ++ s ++ r) = Str.strip s.
Proof.
  intros Hl Hr. unfold Str.strip, Str.strip_with. f_equal.
  rewrite !chars_app, (lstrip_pad _ _ _ Hl). now apply strip_pad_right.
Qed.

Lemma lower_char_isspace (c : ascii) :
  Str.isspace (Str.lower_char c) = true -> Str.isspace c = true.
Proof. destruct c as [[] [] [] [] [] [] [] []]; intros H; try reflexivity; discriminate H. Qed.

(** What [strip().lower()] yields is in normal form: [strip] and
    [lower] leave it as it is. *)
Lemma strip_normal_fixed (s : string) :
  Str.strip (Str.lower (Str.strip s)) = Str.lower (Str.strip s).
Proof.
  unfold Str.lower, Str.strip, Str.strip_with.
  rewrite !list_ascii_of_string_of_list_ascii. f_equal.
  apply (strip_map_fixed Str.isspace Str.isspace Str.lower_char lower_char_isspace).
Qed.

Lemma lower_fixed (s : string) : Str.lower (Str.lower s) = Str.lower s.
Proof.
  unfold Str.lower. rewrite !list_ascii_of_string_of_list_ascii, map_map.
  f_equal. apply map_ext. intros c. apply lower_char_idem.
Qed.

(** [create_student_admin] as one expression: the duplicate query, the
    binding of the usage days, the unique indexes. *)
Lemma create_student_admin_reading
    (py_int : string -> option Z) (fromisoformat : string -> string + datetime)
    (others : DB -> DB) (student : StudentCreate.t) (db : DB) :
  let sid := Str.lower (Str.strip (StudentCreate.student_id student)) in
  let email := Str.lower (Str.strip (StudentCreate.email student)) in
  let usage :=
    match StudentCreate.usage_days student with
    | Some n => if negb (n =? 0) && (n >? 0) then Some n else None
    | None => None
    end in
  exists (detail : Student.t -> string) (reg : option Z),
    create_student_admin py_int fromisoformat others student db =
    match Query.first
            (fun r => (Str.sql_lower (Str.sql_trim (Student.student_id r)) =? sid)%string
                      || (Str.sql_lower (Str.sql_trim (Student.email r)) =? email)%string)
            (students db) with
    | Some dup => (Raise (HTTPException 409 (detail dup)), db)
    | None =>
        let db1 := others db in
        let row :=
          Student.mk (Query.next_id (map Student.id (students db1)))
            (StudentCreate.name student) email sid None
            (StudentCreate.study student) (StudentCreate.department student)
            reg (Some true) usage usage None in
        if match usage with Some n => fits_integer n | None => true end
        then
          if Session.student_unique_clash row (students db1)
          then (Raise (HTTPException 409 "Student ID or email already exists"), db1)
          else (Return row, Session.set_students db1 (students db1 ++ [row]))
        else (Raise OverflowError, db1)
    end.
Proof.
  cbv zeta. unfold create_student_admin. cbv zeta.
  unfold bind at 1. unfold session at 1.
  eexists (fun dup => _). eexists.
  destruct (Query.first _ (students db)) as [dup|]; [reflexivity|].
  unfold bind at 1. unfold Session.interleave at 1.
  unfold Session.except_IntegrityError.
  unfold bind at 1. unfold Session.bind_integers, raise_if. cbn [forallb].
  rewrite andb_true_r, andb_diag.
  destruct (match match StudentCreate.usage_days student with
                  | Some n => if negb (n =? 0) && (n >? 0) then Some n else None
                  | None => None
                  end with
            | Some n => fits_integer n
            | None => true
            end); [|reflexivity].
  cbn [negb ret]. unfold Session.add_student.
  unfold bind at 1. unfold session at 1.
  destruct (Session.student_unique_clash _ _); reflexivity.
Qed.

(** The usage days of a request reach the database only when positive,
    and are too large for it from 2^63 on. *)
Lemma usage_fits (usage_days : option Z) :
  match match usage_days with
        | Some n => if negb (n =? 0) && (n >? 0) then Some n else None
        | None => None
        end with
  | Some n => fits_integer n
  | None => true
  end = false ->
  exists n, usage_days = Some n /\ 2 ^ 63 <= n.
Proof.
  destruct usage_days as [n|]; [|discriminate].
  destruct (n =? 0) eqn:E0; [discriminate|]. cbn [negb andb].
  destruct (n >? 0) eqn:E1; [|discriminate].
  unfold fits_integer. intros H. exists n. split; [reflexivity|].
  rewrite Z.gtb_ltb in E1. apply Z.ltb_lt in E1.
  apply andb_false_iff in H as [H|H].
  - apply Z.leb_gt in H. lia.
  - apply Z.ltb_ge in H. exact H.
Qed.

(** C7.  For requests whose [student_id] and [email] are ASCII strings,
    [create_student_admin] stores the two fields stripped of surrounding
    whitespace and lower-cased, and compares them in that form.  After a
    successful creation, a second request whose stripped, lower-cased
    [student_id] or [email] equals that of the first is refused with
    status 409 and no row is added; in particular a second request that
    repeats the first [student_id] with whitespace added around it is
    refused.  When the duplicate query finds nothing but a row that
    another session commits before the insert holds the same [student_id]
    or [email], the unique index fails the insert and the handler turns
    that into status 409, "Student ID or email already exists", adding
    nothing.  Every refusal of the handler has status 409, except that a
    request whose usage days are 2^63 or more fails at the insert with
    [OverflowError]. *)
Theorem create_student_admin_duplicates :
  forall (py_int : string -> option Z) (fromisoformat : string -> string + datetime)
         (first_req second_req : StudentCreate.t) (db : DB) (created : Student.t),
    let normal s := Str.lower (Str.strip s) in
    let alone := fun db : DB => db in
    let blank s := forallb Str.isspace (list_ascii_of_string s) = true in
    Str.isascii (StudentCreate.student_id first_req) = true ->
    Str.isascii (StudentCreate.email first_req) = true ->
    Str.isascii (StudentCreate.student_id second_req) = true ->
    Str.isascii (StudentCreate.email second_req) = true ->
    run (create_student_admin py_int fromisoformat alone first_req) db = Return created ->
    let db1 := exec (create_student_admin py_int fromisoformat alone first_req) db in
    Student.student_id created = normal (StudentCreate.student_id first_req)
    /\ Student.email created = normal (StudentCreate.email first_req)
    /\ Str.strip (Student.student_id created) = Student.student_id created
    /\ Str.lower (Student.student_id created) = Student.student_id created
    /\ students db1 = (students db ++ [created])%list
    /\ (normal (StudentCreate.student_id second_req)
        = normal (StudentCreate.student_id first_req)
        \/ normal (StudentCreate.email second_req)
           = normal (StudentCreate.email first_req) ->
        exists detail,
          create_student_admin py_int fromisoformat alone second_req db1
          = (Raise (HTTPException 409 detail), db1))
    /\ (forall l r : string,
          blank l -> blank r ->
          StudentCreate.student_id second_req
          = (l ++ StudentCreate.student_id first_req ++ r)%string ->
          exists detail,
            create_student_admin py_int fromisoformat alone second_req db1
            = (Raise (HTTPException 409 detail), db1))
    /\ (forall (others : DB -> DB) (db0 : DB),
          (forall r, In r (students db0) ->
             Str.sql_lower (Str.sql_trim (Student.student_id r))
             <> normal (StudentCreate.student_id second_req)
             /\ Str.sql_lower (Str.sql_trim (Student.email r))
                <> normal (StudentCreate.email second_req)) ->
          (exists r, In r (students (others db0))
                     /\ (Student.student_id r = normal (StudentCreate.student_id second_req)
                         \/ Student.email r = normal (StudentCreate.email second_req))) ->
          (forall n, StudentCreate.usage_days second_req = Some n -> n < 2 ^ 63) ->
          create_student_admin py_int fromisoformat others second_req db0
          = (Raise (HTTPException 409 "Student ID or email already exists"), others db0))
    /\ (forall (others : DB -> DB) (db0 : DB) (e : exn),
          run (create_student_admin py_int fromisoformat others second_req) db0 = Raise e ->
          (exists detail, e = HTTPException 409 detail)
          \/ (e = OverflowError
              /\ exec (create_student_admin py_int fromisoformat others second_req) db0
                 = others db0
              /\ exists n, StudentCreate.usage_days second_req = Some n /\ 2 ^ 63 <= n)).
Proof.
  intros py_int fromisoformat first_req second_req db created normal alone blank
         _ _ _ _ Hrun db1.
  destruct (create_student_admin_reading py_int fromisoformat alone first_req db)
    as (detail1 & reg1 & H1).
  cbv zeta in H1. unfold run, exec in Hrun, db1. subst db1. rewrite H1 in Hrun |- *.
  destruct (Query.first _ (students db)) as [dup|]; [discriminate|].
  unfold alone in Hrun |- *.
  destruct (match match StudentCreate.usage_days first_req with
                  | Some n => if negb (n =? 0) && (n >? 0) then Some n else None
                  | None => None
                  end with
            | Some n => fits_integer n
            | None => true
            end); [|discriminate].
  destruct (Session.student_unique_clash _ (students db)); [discriminate|].
  cbn [fst snd] in Hrun |- *. injection Hrun as <-.
  cbn [Student.student_id Student.email students Session.set_students].
  match goal with |- context [(students db ++ [?r])%list] => set (row1 := r) in * end.
  assert (Hdup409 :
            normal (StudentCreate.student_id second_req)
            = normal (StudentCreate.student_id first_req)
            \/ normal (StudentCreate.email second_req)
               = normal (StudentCreate.email first_req) ->
            exists detail,
              create_student_admin py_int fromisoformat (fun db => db) second_req
                (Session.set_students db (students db ++ [row1]))
              = (Raise (HTTPException 409 detail),
                 Session.set_students db (students db ++ [row1]))).
  { intros Hsame.
    destruct (create_student_admin_reading py_int fromisoformat (fun d => d) second_req
                (Session.set_students db (students db ++ [row1])))
      as (detail2 & reg2 & H2).
    cbv zeta in H2. rewrite H2. clear H2.
    destruct (Query.first _ _) as [dup|] eqn:Hdup; [eexists; reflexivity|].
    exfalso. rewrite first_none in Hdup.
    assert (Hin : In row1 (students (Session.set_students db (students db ++ [row1])))).
    { cbn [students Session.set_students]. apply in_or_app. right. now left. }
    specialize (Hdup row1 Hin). unfold row1 in Hdup.
    cbn [Student.student_id Student.email] in Hdup.
    rewrite !sql_normal_fixed in Hdup. apply orb_false_iff in Hdup.
    destruct Hdup as [Ha Hb]. apply String.eqb_neq in Ha, Hb.
    unfold normal in Hsame. destruct Hsame as [Hsame|Hsame]; congruence. }
  split; [reflexivity|]. split; [reflexivity|].
  split; [apply strip_normal_fixed|]. split; [apply lower_fixed|].
  split; [reflexivity|].
  split; [exact Hdup409|]. split; [|split].
  - intros l r Hl Hr Hsid. apply Hdup409. left. unfold normal.
    rewrite Hsid, (strip_padding l _ r Hl Hr). reflexivity.
  - intros others db0 Hpre (r & Hr & Hclash) Hfits.
    destruct (create_student_admin_reading py_int fromisoformat others second_req db0)
      as (detail2 & reg2 & H2).
    cbv zeta in H2. rewrite H2. clear H2.
    assert (Hnone : Query.first
              (fun r => (Str.sql_lower (Str.sql_trim (Student.student_id r))
                         =? Str.lower (Str.strip (StudentCreate.student_id second_req)))%string
                        || (Str.sql_lower (Str.sql_trim (Student.email r))
                            =? Str.lower (Str.strip (StudentCreate.email second_req)))%string)
              (students db0) = None).
    { apply first_none. intros x Hx. destruct (Hpre x Hx) as [Ha Hb].
      apply String.eqb_neq in Ha, Hb. unfold normal in Ha, Hb. rewrite Ha, Hb. reflexivity. }
    rewrite Hnone.
    destruct (match match StudentCreate.usage_days second_req with
                    | Some n => if negb (n =? 0) && (n >? 0) then Some n else None
                    | None => None
                    end with
              | Some n => fits_integer n
              | None => true
              end) eqn:Hu.
    2:{ apply usage_fits in Hu as (n & Hn & Hbig). specialize (Hfits n Hn). lia. }
    assert (Hunique : Session.student_unique_clash
              (Student.mk (Query.next_id (map Student.id (students (others db0))))
                 (StudentCreate.name second_req)
                 (Str.lower (Str.strip (StudentCreate.email second_req)))
                 (Str.lower (Str.strip (StudentCreate.student_id second_req)))
                 None (StudentCreate.study second_req)
                 (StudentCreate.department second_req) reg2 (Some true)
                 (match StudentCreate.usage_days second_req with
                  | Some n => if negb (n =? 0) && (n >? 0) then Some n else None
                  | None => None
                  end)
                 (match StudentCreate.usage_days second_req with
                  | Some n => if negb (n =? 0) && (n >? 0) then Some n else None
                  | None => None
                  end) None)
              (students (others db0)) = true).
    { unfold Session.student_unique_clash. apply existsb_exists. exists r.
      split; [exact Hr|]. cbn [Student.email Student.student_id].
      apply orb_true_iff. unfold normal in Hclash.
      destruct Hclash as [-> | ->]; [right|left]; apply String.eqb_refl. }
    rewrite Hunique. reflexivity.
  - intros others db0 e He.
    destruct (create_student_admin_reading py_int fromisoformat others second_req db0)
      as (detail2 & reg2 & H2).
    cbv zeta in H2. unfold run in He. unfold exec. rewrite H2 in He |- *. clear H2.
    match type of He with context [Query.first ?f ?l] => destruct (Query.first f l) end.
    + injection He as <-. left. eexists; reflexivity.
    + destruct (match match StudentCreate.usage_days second_req with
                      | Some n => if negb (n =? 0) && (n >? 0) then Some n else None
                      | None => None
                      end with
                | Some n => fits_integer n
                | None => true
                end) eqn:Hu.
      * match type of He with context [if ?c then _ else _] => destruct c end;
          [|discriminate].
        injection He as <-. left. eexists; reflexivity.
      * injection He as <-. right. split; [reflexivity|]. split; [reflexivity|].
        now apply usage_fits.
Qed.

(** " DuP123" followed by a tab / "X@Y.com ", then "dup123" / "x@y.com". *)
Lemma create_student_admin_duplicates_witness :
  let created :=
    Student.mk 1 "Test Student" "x@y.com" "dup123" None None None None
      (Some true) None None None in
  let db1 := Session.set_students Sample.db_empty [created] in
  create_student_admin Sample.decimal_int Sample.fromisoformat (fun db => db)
    (Sample.student_request (" DuP123" ++ String "009" "") "X@Y.com ") Sample.db_empty
  = (Return created, db1)
  /\ exists detail : string,
       create_student_admin Sample.decimal_int Sample.fromisoformat (fun db => db)
         (Sample.student_request "dup123" "x@y.com") db1
       = (Raise (HTTPException 409 detail), db1).
Proof.
  intros created db1. split; [reflexivity|].
  destruct (create_student_admin_duplicates Sample.decimal_int Sample.fromisoformat
              (Sample.student_request (" DuP123" ++ String "009" "") "X@Y.com ")
              (Sample.student_request "dup123" "x@y.com")
              Sample.db_empty created eq_refl eq_refl eq_refl eq_refl eq_refl)
    as (_ & _ & _ & _ & _ & Hdup & _).
  exact (Hdup (or_introl eq_refl)).
Defined.

(** "DuP123" / "X@Y.com", then "dup123" / "x@y.com". *)
Example create_student_admin_lower_case_duplicate :
  let db1 := exec (create_student_admin Sample.decimal_int Sample.fromisoformat
                     (fun db => db) (Sample.student_request "DuP123" "X@Y.com"))
                  Sample.db_empty in
  map (fun s => (Student.student_id s, Student.email s)) (students db1)
  = [("dup123", "x@y.com")]
  /\ create_student_admin Sample.decimal_int Sample.fromisoformat (fun db => db)
       (Sample.student_request "dup123" "x@y.com") db1
     = (Raise (HTTPException 409 "Student ID and email already exist"), db1).
Proof. split; reflexivity. Qed.

(** The duplicate test of the repository ([test_student_add.py]): the
    second request spells both fields in upper case. *)
Example create_student_admin_upper_case_duplicate :
  let db1 := exec (create_student_admin Sample.decimal_int Sample.fromisoformat
                     (fun db => db)
                     (Sample.student_request "DuP123" "dup_case@example.com"))
                  Sample.db_empty in
  map (fun s => (Student.student_id s, Student.email s)) (students db1)
  = [("dup123", "dup_case@example.com")]
  /\ create_student_admin Sample.decimal_int Sample.fromisoformat (fun db => db)
       (Sample.student_request "DUP123" "DUP_CASE@EXAMPLE.COM") db1
     = (Raise (HTTPException 409 "Student ID and email already exist"), db1).
Proof. split; reflexivity. Qed.

(** Whitespace around either field is dropped before the comparison. *)
Example create_student_admin_padded_duplicate :
  let db1 := exec (create_student_admin Sample.decimal_int Sample.fromisoformat
                     (fun db => db) (Sample.student_request "dup123" "x@y.com"))
                  Sample.db_empty in
  create_student_admin Sample.decimal_int Sample.fromisoformat (fun db => db)
    (Sample.student_request "  DUP123 " "other@y.com") db1
  = (Raise (HTTPException 409 "Student ID already exists"), db1)
  /\ create_student_admin Sample.decimal_int Sample.fromisoformat (fun db => db)
       (Sample.student_request "other" (String "009" " X@y.COM  ")) db1
     = (Raise (HTTPException 409 "Email already exists"), db1).
Proof. split; reflexivity. Qed.

(** A duplicate that slips past the query is caught at the insert. *)
Example create_student_admin_race :
  create_student_admin Sample.decimal_int Sample.fromisoformat Sample.racing_insert
    (Sample.student_request "DuP123" "X@Y.com") Sample.db_empty
  = (Raise (HTTPException 409 "Student ID or email already exists"),
     Sample.racing_insert Sample.db_empty).
Proof. reflexivity. Qed.

(** Usage days of 2^63 cannot be stored: the insert fails and no row is
    added. *)
Example create_student_admin_overflow :
  create_student_admin Sample.decimal_int Sample.fromisoformat (fun db => db)
    (StudentCreate.mk "Test Student" "x@y.com" "dup123" None None None (Some (2 ^ 63)))
    Sample.db_empty
  = (Raise OverflowError, Sample.db_empty).
Proof. reflexivity. Qed.

(** ** Overlap comparisons *)




(* ================================================================== *)
(** * Further properties of [main.py] *)
(* ================================================================== *)

(** ** Time helpers *)

Lemma date_add_days (d : datetime) (n : Z) :
  Time.date (Time.add_days d n) = Time.date d + n.
Proof.
  unfold Time.date. destruct d; cbn [Time.add_days Time.wall];
    apply Z.div_add; discriminate.
Qed.

(** X2.  [get_monday d] is midnight of a Monday, on the wall clock and in
    the zone of [d]; it is the Monday of the week of [d] (not after [d],
    less than seven days before), and taking it twice changes nothing. *)
Theorem get_monday_is_week_start :
  forall d : datetime,
    Time.weekday (get_monday d) = 0
    /\ Time.wall (get_monday d) = Time.date (get_monday d) * Time.DAY
    /\ Time.tzinfo (get_monday d) = Time.tzinfo d
    /\ Time.date (get_monday d) <= Time.date d < Time.date (get_monday d) + 7
    /\ get_monday (get_monday d) = get_monday d.
Proof.
  intros d.
  assert (Hbase : forall x, Time.date (Time.replace_hour 0 x) = Time.date x
                            /\ Time.wall (Time.replace_hour 0 x) = Time.date x * Time.DAY).
  { intros x. unfold Time.replace_hour.
    assert (Hw : Time.date x * Time.DAY + 0 * Time.HOUR = Time.date x * Time.DAY) by lia.
    destruct x; cbn [Time.wall]; unfold Time.date at 1; cbn [Time.wall];
      rewrite Hw; (split; [apply Z.div_mul; discriminate|reflexivity]). }
  assert (Hwall : forall x n, Time.wall (Time.add_days x n) = Time.wall x + n * Time.DAY).
  { intros x n. destruct x; reflexivity. }
  set (q := Time.date d).
  set (k := (q + 3) mod 7).
  assert (Hk : 0 <= k < 7) by (apply Z.mod_pos_bound; lia).
  assert (Hwd : Time.weekday (Time.replace_hour 0 d) = k).
  { unfold Time.weekday. rewrite (proj1 (Hbase d)). reflexivity. }
  assert (Hdate : Time.date (get_monday d) = q - k).
  { unfold get_monday. cbv zeta. rewrite Hwd, date_add_days, (proj1 (Hbase d)).
    fold q. lia. }
  assert (Hm : (q - k + 3) mod 7 = 0).
  { subst k. pose proof (Z.div_mod (q + 3) 7 ltac:(lia)) as Hdm.
    replace (q - (q + 3) mod 7 + 3) with ((q + 3) / 7 * 7) by lia.
    apply Z.mod_mul. lia. }
  assert (Hmid : Time.wall (get_monday d) = (q - k) * Time.DAY).
  { unfold get_monday. cbv zeta. rewrite Hwd, Hwall, (proj2 (Hbase d)). fold q. lia. }
  split; [unfold Time.weekday; rewrite Hdate; exact Hm|].
  split; [rewrite Hdate; exact Hmid|].
  split; [unfold get_monday; destruct d; reflexivity|].
  split; [rewrite Hdate; clearbody q k; lia|].
  (* idempotence *)
  assert (Hwd2 : Time.weekday (Time.replace_hour 0 (get_monday d)) = 0).
  { unfold Time.weekday. rewrite (proj1 (Hbase _)), Hdate. exact Hm. }
  unfold get_monday at 1. cbv zeta. rewrite Hwd2.
  assert (Hfix : Time.replace_hour 0 (get_monday d) = get_monday d).
  { unfold Time.replace_hour. rewrite Hdate.
    assert (Hw : (q - k) * Time.DAY + 0 * Time.HOUR = (q - k) * Time.DAY) by lia.
    rewrite Hw. rewrite <- Hmid. destruct (get_monday d); reflexivity. }
  rewrite Hfix. destruct (get_monday d); cbn [Time.add_days]; f_equal; lia.
Qed.

Lemma day_range_gap (d1 d2 : datetime) :
  Time.tzinfo d1 = Time.tzinfo d2 ->
  Time.date d1 < Time.date d2 ->
  Time.to_column (snd (day_range_in_tz d1)) < Time.to_column (fst (day_range_in_tz d2)).
Proof.
  intros Htz Hlt.
  destruct (day_range_columns d1) as [_ He]. destruct (day_range_columns d2) as [Hs _].
  rewrite He, Hs, Htz. pose proof HOUR_pos as Hh.
  assert (Hday : Time.DAY = 24 * Time.HOUR) by reflexivity.
  assert (Hmul : Time.date d1 * Time.DAY + Time.DAY <= Time.date d2 * Time.DAY) by nia.
  lia.
Qed.

(** X3.  The working window [day_range_in_tz] gives a day is eight hours
    long, and the windows of two different days in one zone are apart:
    from the close (17:00) of the earlier one to the opening (09:00) of
    the later one there are at least sixteen hours. *)
Theorem day_windows_apart :
  forall d1 d2 : datetime,
    Time.tzinfo d1 = Time.tzinfo d2 ->
    Time.date d1 < Time.date d2 ->
    Time.to_column (snd (day_range_in_tz d1)) - Time.to_column (fst (day_range_in_tz d1))
    = 8 * Time.HOUR
    /\ Time.to_column (snd (day_range_in_tz d1)) + 16 * Time.HOUR
       <= Time.to_column (fst (day_range_in_tz d2)).
Proof.
  intros d1 d2 Htz Hlt.
  destruct (day_range_columns d1) as [Hs1 He1].
  destruct (day_range_columns d2) as [Hs2 _].
  rewrite Hs1, He1, Hs2, Htz. pose proof HOUR_pos as Hh.
  assert (Hday : Time.DAY = 24 * Time.HOUR) by reflexivity.
  assert (Hmul : Time.date d1 * Time.DAY + Time.DAY <= Time.date d2 * Time.DAY) by nia.
  split; lia.
Qed.

Lemma day_windows_apart_witness :
  Time.to_column (snd (day_range_in_tz (get_current_time Sample.monday_noon)))
  + 16 * Time.HOUR
  <= Time.to_column
       (fst (day_range_in_tz (Time.add_days (get_current_time Sample.monday_noon) 1))).
Proof.
  apply (day_windows_apart (get_current_time Sample.monday_noon)
           (Time.add_days (get_current_time Sample.monday_noon) 1));
    [reflexivity|]. vm_compute. reflexivity.
Defined.

(** ** Invariants of the bookings table *)

Lemma append_keeps_no_double_booking (rows : list Booking.t) (new : Booking.t) :
  no_double_booking rows ->
  (forall b, In b rows -> Booking.computer_id b = Booking.computer_id new -> live b ->
             ~ overlaps b (Booking.start_time new) (Booking.end_time new)) ->
  no_double_booking (rows ++ [new]).
Proof.
  intros Hinv Hfree b1 b2 H1 H2 Hid Hc L1 L2.
  apply in_app_or in H1. apply in_app_or in H2.
  destruct H1 as [H1|[<-|[]]], H2 as [H2|[<-|[]]].
  - apply Hinv; assumption.
  - apply Hfree; assumption.
  - intros [Ha Hb]. apply (Hfree b2 H2 (eq_sym Hc) L2). unfold overlaps. lia.
  - congruence.
Qed.

Lemma append_keeps_ids_unique (rows : list Booking.t) (new : Booking.t) :
  booking_ids_unique rows ->
  Booking.id new = Query.next_id (map Booking.id rows) ->
  booking_ids_unique (rows ++ [new]).
Proof.
  unfold booking_ids_unique. intros Hnd Hid. rewrite map_app. cbn [map].
  apply NoDup_app; [exact Hnd|repeat constructor; intros []|].
  intros x Hx [<-|[]]. apply next_id_above in Hx. lia.
Qed.

Lemma filter_keeps_no_double_booking (p : Booking.t -> bool) (rows : list Booking.t) :
  no_double_booking rows -> no_double_booking (filter p rows).
Proof.
  intros Hinv b1 b2 H1 H2. apply filter_In in H1, H2. apply Hinv; tauto.
Qed.

Lemma filter_keeps_ids_unique (p : Booking.t -> bool) (rows : list Booking.t) :
  booking_ids_unique rows -> booking_ids_unique (filter p rows).
Proof.
  unfold booking_ids_unique. induction rows as [|r rows IH]; simpl; intros Hnd;
    [constructor|].
  inversion Hnd as [|? ? Hnotin Hnd']; subst.
  destruct (p r); [|auto]. simpl. constructor; [|auto].
  intros Hin. apply Hnotin. apply in_map_iff in Hin. destruct Hin as (x & Hx & Hin).
  apply filter_In in Hin. apply in_map_iff. exists x. tauto.
Qed.

(** What [create_booking_student] can do to the bookings table, whether
    or not the caller had a student record. *)
Lemma create_booking_student_bookings
    (strptime : string -> string -> string + datetime)
    (fromisoformat : string -> string + datetime)
    (clock : Z) (booking : StudentBookingCreate.t) (current_user : User.t) (db : DB) :
  let db' := snd (create_booking_student strptime fromisoformat clock booking
                    current_user db) in
  bookings db' = bookings db
  \/ exists new : Booking.t,
       bookings db' = (bookings db ++ [new])%list
       /\ fst (create_booking_student strptime fromisoformat clock booking
                 current_user db) = Return new
       /\ Booking.id new = Query.next_id (map Booking.id (bookings db))
       /\ Booking.status new = "scheduled"
       /\ forall b, In b (bookings db) ->
            Booking.computer_id b = Booking.computer_id new -> live b ->
            ~ overlaps b (Booking.start_time new) (Booking.end_time new).
Proof.
  assert (Hknown : forall db0 student,
            Query.first (linked_to current_user) (students db0) = Some student ->
            let r := create_booking_student strptime fromisoformat clock booking
                       current_user db0 in
            bookings (snd r) = bookings db0
            \/ exists new : Booking.t,
                 bookings (snd r) = (bookings db0 ++ [new])%list
                 /\ fst r = Return new
                 /\ Booking.id new = Query.next_id (map Booking.id (bookings db0))
                 /\ Booking.status new = "scheduled"
                 /\ forall b, In b (bookings db0) ->
                      Booking.computer_id b = Booking.computer_id new -> live b ->
                      ~ overlaps b (Booking.start_time new) (Booking.end_time new)).
  { intros db0 student Hfind. cbv zeta.
    rewrite (create_booking_student_unfold _ _ _ _ _ _ _ Hfind).
    destruct (parse_booking_times strptime fromisoformat booking) as [e|[s e]];
      [now left|].
    cbv zeta. set (p := fun b : Booking.t => _ && _ && _ && _).
    destruct (Query.count p (bookings db0) >? 0) eqn:E; [now left|].
    right. eexists. cbn [fst snd bookings Session.set_bookings].
    split; [reflexivity|]. split; [reflexivity|]. split; [reflexivity|].
    split; [reflexivity|].
    cbn [Booking.computer_id Booking.start_time Booking.end_time].
    intros b Hb Hc Hl Ho.
    rewrite Z.gtb_ltb, Z.ltb_ge in E.
    assert (Query.count p (bookings db0) > 0); [|lia].
    apply count_pos. exists b. split; [exact Hb|]. apply slot_conflict_spec. tauto. }
  cbv zeta.
  destruct (Query.first (linked_to current_user) (students db)) as [student|] eqn:Hfind.
  - exact (Hknown db student Hfind).
  - pose proof (create_booking_student_new_student strptime fromisoformat clock
                  booking current_user db Hfind) as Hnew.
    cbv zeta in Hnew. rewrite Hnew.
    destruct (Session.student_unique_clash _ (students db)); [now left|].
    match goal with |- context [create_booking_student _ _ _ _ _ ?d] =>
      refine (Hknown d _ _)
    end.
    cbn [students Session.set_students]. apply first_app_last; [exact Hfind|].
    unfold linked_to. cbn. apply Z.eqb_refl.
Qed.

(** X4.  [create_booking_student] keeps the bookings table well formed,
    for every request and every caller: if booking ids are unique and no
    two distinct live bookings of one computer overlap before the call,
    the same holds after it. *)
Theorem create_booking_student_keeps_invariant :
  forall (strptime : string -> string -> string + datetime)
         (fromisoformat : string -> string + datetime)
         (clock : Z) (booking : StudentBookingCreate.t) (current_user : User.t)
         (db : DB),
    booking_ids_unique (bookings db) ->
    no_double_booking (bookings db) ->
    let db' := exec (create_booking_student strptime fromisoformat clock booking
                       current_user) db in
    booking_ids_unique (bookings db') /\ no_double_booking (bookings db').
Proof.
  intros strptime fromisoformat clock booking current_user db Hids Hinv db'.
  subst db'. unfold exec.
  destruct (create_booking_student_bookings strptime fromisoformat clock booking
              current_user db) as [->|(new & -> & _ & Hid & _ & Hfree)].
  - split; assumption.
  - split; [apply append_keeps_ids_unique; assumption|].
    apply append_keeps_no_double_booking; assumption.
Qed.

Lemma create_booking_student_keeps_invariant_witness :
  let db' := exec (create_booking_student Sample.strptime Sample.fromisoformat
                     Sample.monday_noon
                     (Sample.request "2024-03-04T11:00" "2024-03-04T12:00")
                     Sample.caller) Sample.db_booked in
  List.length (bookings db') = 2%nat
  /\ booking_ids_unique (bookings db') /\ no_double_booking (bookings db').
Proof.
  cbv zeta. split; [reflexivity|].
  apply create_booking_student_keeps_invariant.
  - repeat constructor. intros [].
  - intros b1 b2 [<-|[]] [<-|[]] Hid. congruence.
Defined.

(** X5.  [toggle_day_booking] keeps the bookings table well formed as
    well, whether it adds, removes or refuses. *)
Theorem toggle_day_booking_keeps_invariant :
  forall (py_int : string -> option Z) (clock : Z) (payload : ToggleDayPayload.t)
         (db : DB),
    booking_ids_unique (bookings db) ->
    no_double_booking (bookings db) ->
    let db' := exec (toggle_day_booking py_int clock payload) db in
    booking_ids_unique (bookings db') /\ no_double_booking (bookings db').
Proof.
  intros py_int clock payload db Hids Hinv db'. subst db'. unfold exec.
  destruct (local_date_of_string py_int (ToggleDayPayload.date payload))
    as [local_date|] eqn:Hdate.
  2:{ unfold toggle_day_booking. rewrite Hdate. split; assumption. }
  rewrite (toggle_day_booking_unfold py_int clock payload db local_date Hdate).
  destruct (Query.first _ (bookings db)) as [existing|].
  - cbn [snd bookings Session.set_bookings].
    split; [apply filter_keeps_ids_unique|apply filter_keeps_no_double_booking];
      assumption.
  - destruct (ToggleDayPayload.computer_id payload) as [cid|]; [|split; assumption].
    destruct (cid =? 0); [split; assumption|].
    set (p := computer_conflict cid _ _).
    destruct (Query.count p (bookings db) =? 0) eqn:E; [|split; assumption].
    cbv zeta. cbn [snd bookings Session.set_bookings].
    split; [apply append_keeps_ids_unique; [assumption|reflexivity]|].
    apply append_keeps_no_double_booking; [assumption|].
    cbn [Booking.computer_id Booking.start_time Booking.end_time].
    intros b Hb Hc Hl Ho. apply Z.eqb_eq in E. rewrite count_zero in E.
    specialize (E b Hb).
    assert (p b = true); [|congruence].
    apply computer_conflict_spec. unfold live, overlaps in *. tauto.
Qed.

Lemma toggle_day_booking_keeps_invariant_witness :
  let db' := exec (toggle_day_booking Sample.decimal_int Sample.monday_noon
                     (ToggleDayPayload.mk 5 "2024-03-05" (Some 2)))
                  Sample.db_one_booking in
  List.length (bookings db') = 2%nat
  /\ booking_ids_unique (bookings db') /\ no_double_booking (bookings db').
Proof.
  cbv zeta. split; [reflexivity|].
  apply toggle_day_booking_keeps_invariant.
  - repeat constructor. intros [].
  - intros b1 b2 [<-|[]] [<-|[]] Hid. congruence.
Defined.

(** ** A toggled day in the weekly grid *)

Lemma local_date_is_aware (py_int : string -> option Z) (s : string) (d : datetime) :
  local_date_of_string py_int s = Some d -> Time.tzinfo d = Some ADDIS_ABABA_TZ.
Proof.
  intros H. destruct (local_date_of_string_aware py_int s d H) as [w ->]. reflexivity.
Qed.

(** The request that adds: the student has nothing on the day and the
    computer is free. *)
Lemma toggle_day_booking_adds
    (py_int : string -> option Z) (clock student_id computer_id : Z)
    (date : string) (db : DB) (local_date : datetime) :
  local_date_of_string py_int date = Some local_date ->
  let window_start := Time.to_column (fst (day_range_in_tz local_date)) in
  let window_end := Time.to_column (snd (day_range_in_tz local_date)) in
  computer_id <> 0 ->
  (forall b, In b (bookings db) -> Booking.student_id b = student_id -> live b ->
             ~ touches_or_overlaps b window_start window_end) ->
  (forall b, In b (bookings db) -> Booking.computer_id b = computer_id -> live b ->
             ~ overlaps b window_start window_end) ->
  let new :=
    Booking.mk (Query.next_id (map Booking.id (bookings db))) computer_id student_id
      window_start window_end "scheduled" (Time.to_column (get_current_time clock)) in
  toggle_day_booking py_int clock
    (ToggleDayPayload.mk student_id date (Some computer_id)) db
  = (Return (added (Booking.id new)), Session.set_bookings db (bookings db ++ [new])).
Proof.
  intros Hdate window_start window_end Hcid Hstudent Hcomputer new.
  rewrite (toggle_day_booking_unfold py_int clock _ db local_date) by exact Hdate.
  cbn [ToggleDayPayload.student_id ToggleDayPayload.computer_id].
  assert (Hnone : Query.first
            (student_on_day student_id (fst (day_range_in_tz local_date))
               (snd (day_range_in_tz local_date))) (bookings db) = None).
  { apply first_none. intros b Hb.
    destruct (student_on_day _ _ _ b) eqn:E; [|reflexivity].
    apply student_on_day_spec in E. destruct E as (Hs & H1 & H2 & Hst).
    exfalso. apply (Hstudent b Hb Hs Hst). split; assumption. }
  assert (Hfree : Query.count
            (computer_conflict computer_id (fst (day_range_in_tz local_date))
               (snd (day_range_in_tz local_date))) (bookings db) = 0).
  { apply count_zero. intros b Hb.
    destruct (computer_conflict _ _ _ b) eqn:E; [|reflexivity].
    apply computer_conflict_spec in E. destruct E as (Hc & H1 & H2 & Hst).
    exfalso. apply (Hcomputer b Hb Hc Hst). split; assumption. }
  rewrite Hnone. apply Z.eqb_neq in Hcid. rewrite Hcid, Hfree. reflexivity.
Qed.

Lemma filter_none {A} (p : A -> bool) (l : list A) :
  (forall x, In x l -> p x = false) -> filter p l = [].
Proof.
  induction l as [|a l IH]; simpl; intros H; [reflexivity|].
  rewrite (H a (or_introl eq_refl)). apply IH. intros; apply H; now right.
Qed.

(** The cell of a day after an all-day booking of [local_date] was
    appended for a student who had nothing on that day. *)
Lemma day_cell_after_add (rows : list Booking.t) (new : Booking.t)
    (local_date d : datetime) (sid : Z) :
  Time.tzinfo local_date = Some ADDIS_ABABA_TZ ->
  Time.tzinfo d = Some ADDIS_ABABA_TZ ->
  Booking.start_time new = Time.to_column (fst (day_range_in_tz local_date)) ->
  Booking.end_time new = Time.to_column (snd (day_range_in_tz local_date)) ->
  Booking.status new = "scheduled" ->
  (forall b, In b rows -> Booking.student_id b = Booking.student_id new -> live b ->
             ~ touches_or_overlaps b (Booking.start_time new) (Booking.end_time new)) ->
  day_cell (rows ++ [new]) sid d =
  if (sid =? Booking.student_id new) && (Time.date d =? Time.date local_date)
  then DayCell.mk (Time.date d) true (Some (Booking.id new))
         (Some (Booking.computer_id new))
  else day_cell rows sid d.
Proof.
  intros Htz Htzd Hstart Hend Hstatus Hnone.
  pose proof (day_range_columns local_date) as [Hs He]. rewrite Htz in Hs, He.
  pose proof (day_range_columns d) as [Hsd Hed]. rewrite Htzd in Hsd, Hed.
  pose proof (day_range_ordered d) as Hord.
  unfold day_cell, day_booking. rewrite filter_app. cbn [filter].
  destruct ((sid =? Booking.student_id new) && (Time.date d =? Time.date local_date))
    eqn:Hcase.
  - apply andb_true_iff in Hcase. destruct Hcase as [Hsid Hdate].
    apply Z.eqb_eq in Hsid, Hdate.
    assert (Hw1 : Time.to_column (fst (day_range_in_tz d)) = Booking.start_time new)
      by (rewrite Hstart, Hsd, Hs, Hdate; reflexivity).
    assert (Hw2 : Time.to_column (snd (day_range_in_tz d)) = Booking.end_time new)
      by (rewrite Hend, Hed, He, Hdate; reflexivity).
    assert (Hnew : student_on_day sid (fst (day_range_in_tz d))
                     (snd (day_range_in_tz d)) new = true).
    { apply student_on_day_spec. rewrite Hw1, Hw2 in *. rewrite Hstatus.
      repeat split; try lia; simpl; auto. }
    rewrite Hnew.
    assert (Hold : filter (student_on_day sid (fst (day_range_in_tz d))
                             (snd (day_range_in_tz d))) rows = []).
    { apply filter_none.
      intros b Hb. destruct (student_on_day _ _ _ b) eqn:E; [|reflexivity].
      apply student_on_day_spec in E. destruct E as (Hbs & H1 & H2 & Hl).
      exfalso. apply (Hnone b Hb); [congruence|exact Hl|].
      unfold touches_or_overlaps. rewrite <- Hw1, <- Hw2. lia. }
    rewrite Hold. reflexivity.
  - assert (Hnew : student_on_day sid (fst (day_range_in_tz d))
                     (snd (day_range_in_tz d)) new = false).
    { destruct (student_on_day _ _ _ new) eqn:E; [|reflexivity]. exfalso.
      apply student_on_day_spec in E. destruct E as (Hbs & H1 & H2 & _).
      apply andb_false_iff in Hcase. destruct Hcase as [Hc|Hc]; apply Z.eqb_neq in Hc;
        [congruence|].
      assert (Hlt : Time.date d < Time.date local_date \/ Time.date local_date < Time.date d)
        by lia.
      destruct Hlt as [Hlt|Hlt].
      + pose proof (day_range_gap d local_date (eq_trans Htzd (eq_sym Htz)) Hlt).
        lia.
      + pose proof (day_range_gap local_date d (eq_trans Htz (eq_sym Htzd)) Hlt).
        lia. }
    rewrite Hnew, app_nil_r. reflexivity.
Qed.

(** A student with no live booking touching the window of a day has an
    empty cell on that day. *)
Lemma day_cell_free (rows : list Booking.t) (sid : Z) (d : datetime) :
  (forall b, In b rows -> Booking.student_id b = sid -> live b ->
             ~ touches_or_overlaps b (Time.to_column (fst (day_range_in_tz d)))
                                     (Time.to_column (snd (day_range_in_tz d)))) ->
  day_cell rows sid d = DayCell.mk (Time.date d) false None None.
Proof.
  intros Hnone. unfold day_cell, day_booking.
  rewrite (filter_none _ rows); [reflexivity|].
  intros b Hb. destruct (student_on_day _ _ _ b) eqn:E; [|reflexivity].
  apply student_on_day_spec in E. destruct E as (Hs & H1 & H2 & Hl).
  exfalso. apply (Hnone b Hb Hs Hl). split; assumption.
Qed.

Lemma same_day_window (d1 d2 : datetime) :
  Time.tzinfo d1 = Time.tzinfo d2 -> Time.date d1 = Time.date d2 ->
  Time.to_column (fst (day_range_in_tz d1)) = Time.to_column (fst (day_range_in_tz d2))
  /\ Time.to_column (snd (day_range_in_tz d1)) = Time.to_column (snd (day_range_in_tz d2)).
Proof.
  intros Htz Hdate.
  destruct (day_range_columns d1) as [-> ->]. destruct (day_range_columns d2) as [-> ->].
  rewrite Htz, Hdate. split; reflexivity.
Qed.

(** The day of a week of five with a given date, and the four others. *)
Lemma split_by_date (days : list datetime) (m i : Z) :
  map Time.date days = [m; m + 1; m + 2; m + 3; m + 4] ->
  0 <= i < 5 ->
  exists (days1 : list datetime) (d : datetime) (days2 : list datetime),
    days = (days1 ++ d :: days2)%list
    /\ Time.date d = m + i
    /\ forall d', In d' (days1 ++ days2)%list -> Time.date d' <> m + i.
Proof.
  intros Hdates Hi.
  destruct days as [|d0 [|d1 [|d2 [|d3 [|d4 [|? ?]]]]]]; try discriminate.
  cbn [map] in Hdates. injection Hdates as H0 H1 H2 H3 H4.
  assert (Hcases : i = 0 \/ i = 1 \/ i = 2 \/ i = 3 \/ i = 4) by lia.
  destruct Hcases as [->|[->|[->|[->| ->]]]].
  - exists [], d0, [d1; d2; d3; d4]. split; [reflexivity|]. split; [lia|].
    cbn [app]. intros d' [<-|[<-|[<-|[<-|[]]]]]; lia.
  - exists [d0], d1, [d2; d3; d4]. split; [reflexivity|]. split; [lia|].
    cbn [app]. intros d' [<-|[<-|[<-|[<-|[]]]]]; lia.
  - exists [d0; d1], d2, [d3; d4]. split; [reflexivity|]. split; [lia|].
    cbn [app]. intros d' [<-|[<-|[<-|[<-|[]]]]]; lia.
  - exists [d0; d1; d2], d3, [d4]. split; [reflexivity|]. split; [lia|].
    cbn [app]. intros d' [<-|[<-|[<-|[<-|[]]]]]; lia.
  - exists [d0; d1; d2; d3], d4, []. split; [reflexivity|]. split; [lia|].
    cbn [app]. intros d' [<-|[<-|[<-|[<-|[]]]]]; lia.
Qed.

(** X6.  Adding a day with [toggle_day_booking] flips exactly one cell
    of the weekly grid.  Take a date in the years the zone is at +03:00
    that is one of the five days of the week shown, ids the database can
    bind, a student of the table (student ids being unique) with no live
    booking touching that day's window, and a computer that is free in
    it.  Then the grid read before has one row of that student, in it one
    cell of that date, and the cell is empty; the grid read right after
    the toggle has the new booking and its computer in that cell; and
    every other cell, row and field of the two grids is the same. *)
Theorem toggle_flips_one_cell :
  forall (py_int : string -> option Z) (clock clock_week student_id computer_id : Z)
         (date : string) (db : DB) (local_date : datetime) (student : Student.t)
         (i : Z),
    local_date_of_string py_int date = Some local_date ->
    in_EAT_era local_date ->
    fits_integer student_id = true ->
    fits_integer computer_id = true ->
    let window_start := Time.to_column (fst (day_range_in_tz local_date)) in
    let window_end := Time.to_column (snd (day_range_in_tz local_date)) in
    computer_id <> 0 ->
    (forall b, In b (bookings db) -> Booking.student_id b = student_id -> live b ->
               ~ touches_or_overlaps b window_start window_end) ->
    (forall b, In b (bookings db) -> Booking.computer_id b = computer_id -> live b ->
               ~ overlaps b window_start window_end) ->
    NoDup (map Student.id (students db)) ->
    In student (students db) ->
    Student.id student = student_id ->
    0 <= i < 5 ->
    Time.date local_date = Time.date (get_monday (get_current_time clock_week)) + i ->
    let toggle := toggle_day_booking py_int clock
                    (ToggleDayPayload.mk student_id date (Some computer_id)) in
    exists (new_id : Z) (before after : WeekSchedule.t)
           (rows1 rows2 : list Row.t) (cells1 cells2 : list DayCell.t),
      run toggle db = Return (added new_id)
      /\ run (get_week_schedule clock_week) db = Return before
      /\ run (get_week_schedule clock_week) (exec toggle db) = Return after
      /\ WeekSchedule.rows before
         = (rows1
            ++ Row.mk student_id (Student.name student)
                 (cells1 ++ DayCell.mk (Time.date local_date) false None None :: cells2)
            :: rows2)%list
      /\ WeekSchedule.rows after
         = (rows1
            ++ Row.mk student_id (Student.name student)
                 (cells1
                  ++ DayCell.mk (Time.date local_date) true (Some new_id)
                       (Some computer_id)
                  :: cells2)
            :: rows2)%list
      /\ (forall row, In row (rows1 ++ rows2)%list -> Row.student_id row <> student_id)
      /\ (forall cell, In cell (cells1 ++ cells2)%list ->
                       DayCell.date cell <> Time.date local_date)
      /\ WeekSchedule.days after = WeekSchedule.days before
      /\ WeekSchedule.week_start after = WeekSchedule.week_start before
      /\ WeekSchedule.week_end after = WeekSchedule.week_end before
      /\ WeekSchedule.computers after = WeekSchedule.computers before.
Proof.
  intros py_int clock clock_week student_id computer_id date db local_date student i
         Hdate _ _ _ window_start window_end Hcid Hstudent Hcomputer Hnd Hin Hid Hi Hweek
         toggle.
  pose proof (toggle_day_booking_adds py_int clock student_id computer_id date db
                local_date Hdate Hcid Hstudent Hcomputer) as Hadd.
  cbv zeta in Hadd. fold window_start window_end in Hadd.
  set (new := Booking.mk (Query.next_id (map Booking.id (bookings db))) computer_id
                student_id window_start window_end "scheduled"
                (Time.to_column (get_current_time clock))) in *.
  pose proof (local_date_is_aware py_int date local_date Hdate) as Htz.
  destruct (week_days_reading clock_week) as (_ & _ & Hdates & _ & Htzs).
  cbv zeta in Hdates.
  destruct (split_by_date (week_days clock_week) _ i Hdates Hi)
    as (days1 & d & days2 & Hdays & Hd & Hothers).
  rewrite <- Hweek in Hd, Hothers.
  assert (Htzd : forall d', In d' (days1 ++ d :: days2)%list ->
                            Time.tzinfo d' = Some ADDIS_ABABA_TZ).
  { intros d' Hd'. apply Htzs. rewrite Hdays. exact Hd'. }
  set (sorted := Query.order_by
                   (fun a b => String.leb (Student.name a) (Student.name b))
                   (students db)).
  assert (Hperm : Permutation sorted (students db)) by apply order_by_perm.
  assert (Hin' : In student sorted)
    by (apply (Permutation_in _ (Permutation_sym Hperm)); exact Hin).
  destruct (in_split _ _ Hin') as (s1 & s2 & Hsorted).
  assert (Hnd' : NoDup (map Student.id (s1 ++ student :: s2)%list)).
  { rewrite <- Hsorted.
    apply (Permutation_NoDup (Permutation_map Student.id (Permutation_sym Hperm))).
    exact Hnd. }
  assert (Hrest : forall s, In s (s1 ++ s2)%list -> Student.id s <> student_id).
  { intros s Hs Heq. rewrite map_app in Hnd'. cbn [map] in Hnd'.
    apply NoDup_remove_2 in Hnd'. apply Hnd'. rewrite <- map_app, Hid, <- Heq.
    now apply in_map. }
  (* the cells of one student on the days of the week, after the toggle *)
  assert (Hcell : forall s d', In d' (days1 ++ d :: days2)%list ->
            day_cell (bookings db ++ [new]) (Student.id s) d'
            = if (Student.id s =? student_id) && (Time.date d' =? Time.date local_date)
              then DayCell.mk (Time.date d') true (Some (Booking.id new))
                     (Some computer_id)
              else day_cell (bookings db) (Student.id s) d').
  { intros s d' Hd'.
    exact (day_cell_after_add (bookings db) new local_date d' (Student.id s)
             Htz (Htzd d' Hd') eq_refl eq_refl eq_refl Hstudent). }
  assert (Hrow : forall s, Student.id s <> student_id ->
            week_row clock_week (bookings db ++ [new]) s
            = week_row clock_week (bookings db) s).
  { intros s Hs. unfold week_row. f_equal. rewrite Hdays. apply map_ext_in.
    intros d' Hd'. rewrite (Hcell s d' Hd').
    apply Z.eqb_neq in Hs. rewrite Hs. reflexivity. }
  assert (Hold : forall d', In d' (days1 ++ days2)%list ->
            day_cell (bookings db ++ [new]) student_id d'
            = day_cell (bookings db) student_id d').
  { intros d' Hd'. rewrite <- Hid. rewrite (Hcell student d').
    - specialize (Hothers d' Hd'). apply Z.eqb_neq in Hothers. rewrite Hothers.
      rewrite andb_false_r. reflexivity.
    - apply in_app_or in Hd'. apply in_or_app.
      destruct Hd' as [Hd'|Hd']; [now left|right; now right]. }
  assert (Hfree : day_cell (bookings db) student_id d
                  = DayCell.mk (Time.date local_date) false None None).
  { rewrite <- Hd. apply day_cell_free. intros b Hb Hs Hl.
    destruct (same_day_window d local_date) as [-> ->].
    - rewrite Htz. apply Htzd. apply in_or_app. right. now left.
    - exact Hd.
    - exact (Hstudent b Hb Hs Hl). }
  assert (Hflip : day_cell (bookings db ++ [new]) student_id d
                  = DayCell.mk (Time.date local_date) true (Some (Booking.id new))
                      (Some computer_id)).
  { rewrite <- Hid. rewrite (Hcell student d).
    - rewrite Hid, Hd, !Z.eqb_refl. reflexivity.
    - apply in_or_app. right. now left. }
  exists (Booking.id new). eexists. eexists.
  exists (map (week_row clock_week (bookings db)) s1),
         (map (week_row clock_week (bookings db)) s2),
         (map (day_cell (bookings db) student_id) days1),
         (map (day_cell (bookings db) student_id) days2).
  subst toggle. unfold run, exec. rewrite Hadd. cbn [fst snd].
  rewrite !get_week_schedule_reading. cbn [fst].
  split; [reflexivity|]. split; [reflexivity|]. split; [reflexivity|].
  cbn [WeekSchedule.rows WeekSchedule.days WeekSchedule.week_start
       WeekSchedule.week_end WeekSchedule.computers
       students computers bookings Session.set_bookings].
  fold sorted. rewrite Hsorted, !map_app. cbn [map].
  split; [|split; [|split; [|split; [|repeat split]]]].
  - f_equal. f_equal. unfold week_row. rewrite Hid, Hdays, map_app. cbn [map].
    rewrite Hfree. reflexivity.
  - f_equal.
    + apply map_ext_in. intros s Hs. apply Hrow. apply Hrest.
      apply in_or_app. now left.
    + f_equal.
      * unfold week_row. rewrite Hid, Hdays, map_app. cbn [map]. rewrite Hflip.
        f_equal. f_equal.
        -- apply map_ext_in. intros d' Hd'. apply Hold. apply in_or_app. now left.
        -- f_equal. apply map_ext_in. intros d' Hd'. apply Hold.
           apply in_or_app. now right.
      * apply map_ext_in. intros s Hs. apply Hrow. apply Hrest.
        apply in_or_app. now right.
  - intros row Hrowin. rewrite <- map_app in Hrowin.
    apply in_map_iff in Hrowin as (s & <- & Hs). cbn [week_row Row.student_id].
    now apply Hrest.
  - intros cell Hcellin. rewrite <- map_app in Hcellin.
    apply in_map_iff in Hcellin as (d' & <- & Hd').
    rewrite (proj1 (day_cell_reading (bookings db) student_id d')).
    now apply Hothers.
Qed.

(** Student 5 takes Tuesday 2024-03-05 on computer 2; the grid of that
    week then shows computer 2 in the Tuesday cell. *)
Lemma toggle_flips_one_cell_witness :
  exists (new_id : Z) (before after : WeekSchedule.t)
         (rows1 rows2 : list Row.t) (cells1 cells2 : list DayCell.t),
    run (get_week_schedule Sample.monday_noon) Sample.db_one_booking = Return before
    /\ run (get_week_schedule Sample.monday_noon)
           (exec (toggle_day_booking Sample.decimal_int Sample.monday_noon
                    (ToggleDayPayload.mk 5 "2024-03-05" (Some 2))) Sample.db_one_booking)
       = Return after
    /\ WeekSchedule.rows before
       = (rows1
          ++ Row.mk 5 "Abel" (cells1 ++ DayCell.mk 19787 false None None :: cells2)
          :: rows2)%list
    /\ WeekSchedule.rows after
       = (rows1
          ++ Row.mk 5 "Abel"
               (cells1 ++ DayCell.mk 19787 true (Some new_id) (Some 2) :: cells2)
          :: rows2)%list.
Proof.
  destruct (toggle_flips_one_cell Sample.decimal_int Sample.monday_noon
              Sample.monday_noon 5 2 "2024-03-05" Sample.db_one_booking
              (Time.localize ADDIS_ABABA_TZ (Naive (Sample.local_hour 27)))
              (Student.mk 5 "Abel" "abel@example.com" "stu005" None None None None
                 (Some true) None None None) 1)
    as (new_id & before & after & rows1 & rows2 & cells1 & cells2
        & _ & Hbefore & Hafter & Hrb & Hra & _).
  - vm_compute. reflexivity.
  - split; vm_compute; discriminate.
  - reflexivity.
  - reflexivity.
  - discriminate.
  - intros b [<-|[]] Hs. vm_compute in Hs. discriminate Hs.
  - intros b [<-|[]] _ _ [_ H]. vm_compute in H. discriminate.
  - repeat constructor. intros [].
  - now left.
  - reflexivity.
  - lia.
  - vm_compute. reflexivity.
  - exists new_id, before, after, rows1, rows2, cells1, cells2.
    split; [exact Hbefore|]. split; [exact Hafter|].
    split; [exact Hrb|exact Hra].
Defined.

(** ** Assignment, release and the usage-day clock *)

Lemma after_assign_again (clock1 clock2 : Z) (s : Student.t) :
  Time.date (get_current_time clock2) <= Time.date (get_current_time clock1) ->
  after_assign clock2 (after_assign clock1 s) = after_assign clock1 s.
Proof.
  intros Hle. unfold after_assign at 2 3.
  destruct (Student.usage_days_remaining s) as [n|] eqn:Hrem.
  2:{ unfold after_assign. rewrite Hrem. reflexivity. }
  cbv zeta.
  destruct (match Student.usage_last_decrement_at s with
            | Some column => Time.date (get_current_time clock1) >? last_decrement_date column
            | None => true
            end && (n >? 0)) eqn:Hdec.
  - unfold after_assign. cbn [Student.usage_days_remaining Student.usage_last_decrement_at
                              student_with_usage]. cbv zeta.
    assert (Hno : (Time.date (get_current_time clock2)
                   >? last_decrement_date (Time.to_column (get_current_time clock1)))
                  = false).
    { rewrite Z.gtb_ltb. apply Z.ltb_ge.
      pose proof (last_decrement_date_of_now clock1). lia. }
    rewrite Hno. reflexivity.
  - unfold after_assign. rewrite Hrem. cbv zeta.
    destruct (n >? 0) eqn:Hn; [|rewrite andb_false_r; reflexivity].
    rewrite andb_true_r in Hdec |- *.
    destruct (Student.usage_last_decrement_at s) as [column|]; [|discriminate].
    rewrite Z.gtb_ltb, Z.ltb_ge in Hdec.
    assert (Hno : (Time.date (get_current_time clock2) >? last_decrement_date column)
                  = false) by (rewrite Z.gtb_ltb; apply Z.ltb_ge; lia).
    rewrite Hno. reflexivity.
Qed.

Lemma after_assign_standing (clock : Z) (s : Student.t) :
  quota_exhausted s = false ->
  Student.usage_days_remaining (after_assign clock s) <> Some 0 ->
  quota_exhausted (after_assign clock s) = false
  /\ Student.active (after_assign clock s) = Student.active s
  /\ Student.user_id (after_assign clock s) = Student.user_id s.
Proof.
  unfold quota_exhausted, after_assign.
  destruct (Student.usage_days_remaining s) as [n|] eqn:Hrem;
    [|intros _ _; rewrite Hrem; repeat split].
  intros Hq. apply Z.leb_gt in Hq. cbv zeta.
  destruct (_ && _).
  - cbn [Student.usage_days_remaining Student.active Student.user_id student_with_usage].
    intros Hne. assert (n - 1 <> 0) by congruence.
    assert (E : (n - 1 <=? 0) = false) by (apply Z.leb_gt; lia).
    rewrite E. repeat split.
  - intros _. rewrite Hrem. split; [apply Z.leb_gt; lia|split; reflexivity].
Qed.

Lemma linked_user_inactive_ext (db db' : DB) (s s' : Student.t) :
  users db' = users db -> Student.user_id s' = Student.user_id s ->
  linked_user_inactive db' s' = linked_user_inactive db s.
Proof. unfold linked_user_inactive. intros -> ->. reflexivity. Qed.

Lemma admin_unassign_reading (clock computer_id : Z) (db : DB) (computer : Computer.t) :
  Query.first (fun c => Computer.id c =? computer_id) (computers db) = Some computer ->
  admin_unassign clock computer_id db =
  (Return true,
   Session.set_computers db
     (map (fun r =>
             if Computer.id r =? Computer.id computer
             then computer_with_status computer "available" None
                    (Some (Time.to_column (get_current_time clock)))
             else r)
          (computers db))).
Proof.
  intros Hc. unfold admin_unassign. unfold bind at 1. unfold session at 1.
  rewrite Hc. reflexivity.
Qed.

(** X7.  Releasing a computer gives it back without touching any
    student: after a successful [admin_assign] that left the student some
    quota, [admin_unassign] of that computer succeeds, makes it available
    with no occupant and changes no other table; and assigning the same
    student again, on the same local date, succeeds and returns the same
    remaining usage days, so the day is counted once. *)
Theorem admin_unassign_then_reassign :
  forall (clock1 clock2 clock3 : Z) (payload : AssignPayload.t) (db : DB) (r : assigned),
    run (admin_assign clock1 payload) db = Return r ->
    usage_days_remaining r <> Some 0 ->
    Time.date (get_current_time clock3) <= Time.date (get_current_time clock1) ->
    let db1 := exec (admin_assign clock1 payload) db in
    let release := admin_unassign clock2 (AssignPayload.computer_id payload) in
    let db2 := exec release db1 in
    run release db1 = Return true
    /\ students db2 = students db1 /\ users db2 = users db1
    /\ bookings db2 = bookings db1
    /\ (exists c, Query.first
                    (fun c => Computer.id c =? AssignPayload.computer_id payload)
                    (computers db2) = Some c
                  /\ Computer.status c = "available"
                  /\ Computer.current_user c = None)
    /\ run (admin_assign clock3 payload) db2 = Return r
    /\ students (exec (admin_assign clock3 payload) db2) = students db1.
Proof.
  intros clock1 clock2 clock3 payload db r Hrun Hleft Hdate db1 release db2.
  unfold run, exec in *.
  destruct (Query.first (fun c => Computer.id c =? AssignPayload.computer_id payload)
              (computers db)) as [computer|] eqn:Hc.
  2:{ rewrite admin_assign_not_found in Hrun by (now left). discriminate. }
  destruct (Query.first (fun s => Student.id s =? AssignPayload.student_id payload)
              (students db)) as [student|] eqn:Hs.
  2:{ rewrite admin_assign_not_found in Hrun by (now right). discriminate. }
  pose proof (proj2 (first_some _ _ _ Hc)) as Hcid. apply Z.eqb_eq in Hcid.
  pose proof (proj2 (first_some _ _ _ Hs)) as Hsid. apply Z.eqb_eq in Hsid.
  pose proof (admin_assign_reading clock1 payload db computer student Hc Hs) as Hread.
  rewrite Hread in Hrun.
  destruct (quota_exhausted student) eqn:Hq; [discriminate|].
  destruct (linked_user_inactive db student) eqn:Hu; [discriminate|].
  destruct (student_inactive student) eqn:Ha; [discriminate|].
  destruct (computer_busy computer) eqn:Hb; [discriminate|].
  cbv zeta in Hrun, Hread. cbn [fst] in Hrun. injection Hrun as <-.
  cbn [usage_days_remaining] in Hleft.
  set (s1 := after_assign clock1 student) in *.
  set (c1 := computer_with_status computer "in_use" (Some (Student.name s1))
               (Some (Time.to_column (get_current_time clock1)))) in *.
  subst db2 release db1. rewrite Hread. cbn [snd]. clear Hread.
  set (students1 := map (fun r => if Student.id r =? Student.id s1 then s1 else r)
                        (students db)).
  set (computers1 := map (fun r => if Computer.id r =? Computer.id c1 then c1 else r)
                         (computers db)).
  assert (Hc1 : Query.first (fun c => Computer.id c =? AssignPayload.computer_id payload)
                  computers1 = Some c1).
  { apply (first_replace Computer.id) with (old := computer); [exact Hc|exact Hcid]. }
  assert (Hs1 : Query.first (fun s => Student.id s =? AssignPayload.student_id payload)
                  students1 = Some s1).
  { apply (first_replace Student.id) with (old := student); [exact Hs|].
    unfold s1. rewrite (proj1 (after_assign_id clock1 student)). exact Hsid. }
  rewrite !(admin_unassign_reading clock2 (AssignPayload.computer_id payload)
             (Session.set_computers (Session.set_students db students1) computers1)
             c1 Hc1).
  set (c2 := computer_with_status c1 "available" None
               (Some (Time.to_column (get_current_time clock2)))).
  cbn [fst snd].
  match goal with |- context [admin_assign clock3 payload ?d] => set (db2 := d) end.
  assert (Hc2 : Query.first (fun c => Computer.id c =? AssignPayload.computer_id payload)
                  (computers db2) = Some c2).
  { subst db2. cbn [computers Session.set_computers].
    apply (first_replace Computer.id _ c2 c1); [exact Hc1|exact Hcid]. }
  assert (Hs2 : Query.first (fun s => Student.id s =? AssignPayload.student_id payload)
                  (students db2) = Some s1) by exact Hs1.
  split; [reflexivity|]. split; [reflexivity|]. split; [reflexivity|].
  split; [reflexivity|].
  split; [exists c2; split; [exact Hc2|split; reflexivity]|].
  rewrite (admin_assign_reading clock3 payload db2 c2 s1 Hc2 Hs2).
  destruct (after_assign_standing clock1 student Hq Hleft) as (Hq1 & Ha1 & Hu1).
  fold s1 in Hq1, Ha1, Hu1. rewrite Hq1.
  rewrite (linked_user_inactive_ext db _ student s1) by (try exact Hu1; reflexivity).
  rewrite Hu. unfold student_inactive in *. rewrite Ha1, Ha.
  change (computer_busy c2) with false. cbv zeta.
  unfold s1. rewrite (after_assign_again clock1 clock3 student Hdate). fold s1.
  subst db2.
  cbn [fst snd students computers Session.set_students Session.set_computers].
  split; [reflexivity|].
  unfold students1. rewrite map_map. apply map_ext. intros r0.
  destruct (Student.id r0 =? Student.id s1) eqn:E; [rewrite Z.eqb_refl|rewrite E];
    reflexivity.
Qed.

(** Student 5 is seated at computer 2, released, and seated again the
    same afternoon: nine days remain both times. *)
Lemma admin_unassign_then_reassign_witness :
  let db1 := exec (admin_assign Sample.monday_noon (AssignPayload.mk 2 5))
                  Sample.db_fresh in
  let db2 := exec (admin_unassign (Sample.monday_noon + Time.HOUR) 2) db1 in
  run (admin_assign Sample.monday_noon (AssignPayload.mk 2 5)) Sample.db_fresh
  = Return (mk_assigned (Some 9))
  /\ run (admin_assign (Sample.monday_noon + 2 * Time.HOUR) (AssignPayload.mk 2 5)) db2
     = Return (mk_assigned (Some 9)).
Proof.
  cbv zeta. split; [reflexivity|].
  apply (admin_unassign_then_reassign Sample.monday_noon
           (Sample.monday_noon + Time.HOUR) (Sample.monday_noon + 2 * Time.HOUR)
           (AssignPayload.mk 2 5) Sample.db_fresh (mk_assigned (Some 9))).
  - reflexivity.
  - discriminate.
  - vm_compute. discriminate.
Defined.

Lemma decrement_dates (clock : Z) :
  Time.date (get_current_time clock) = (clock + ADDIS_ABABA_TZ) / Time.DAY
  /\ last_decrement_date (Time.to_column (get_current_time clock))
     = (clock + ADDIS_ABABA_TZ + 3 * Time.HOUR) / Time.DAY.
Proof.
  unfold last_decrement_date, Time.date, get_current_time, convert_from_utc.
  cbn [Time.tzinfo Time.localize Time.astimezone Time.wall Time.to_column].
  split; [reflexivity|]. f_equal. unfold UTC, ADDIS_ABABA_TZ. lia.
Qed.

(** The student row a first decrement commits, and the row the next call
    for that student writes. *)
Lemma admin_assign_first_decrement (clock : Z) (payload : AssignPayload.t) (db : DB)
    (student : Student.t) (r : assigned) (n : Z) :
  Query.first (fun s => Student.id s =? AssignPayload.student_id payload)
              (students db) = Some student ->
  Student.usage_days_remaining student = Some n ->
  Student.usage_last_decrement_at student = None ->
  run (admin_assign clock payload) db = Return r ->
  0 < n
  /\ usage_days_remaining r = Some (n - 1)
  /\ exists student1,
       Query.first (fun s => Student.id s =? AssignPayload.student_id payload)
                   (students (exec (admin_assign clock payload) db)) = Some student1
       /\ Student.usage_days_remaining student1 = Some (n - 1)
       /\ Student.usage_last_decrement_at student1
          = Some (Time.to_column (get_current_time clock)).
Proof.
  intros Hs Hrem Hlast Hrun. unfold run, exec in *.
  pose proof (proj2 (first_some _ _ _ Hs)) as Hsid. apply Z.eqb_eq in Hsid.
  destruct (Query.first (fun c => Computer.id c =? AssignPayload.computer_id payload)
              (computers db)) as [computer|] eqn:Hc.
  2:{ rewrite admin_assign_not_found in Hrun by (now left). discriminate. }
  rewrite (admin_assign_reading clock payload db computer student Hc Hs) in Hrun |- *.
  destruct (quota_exhausted student) eqn:Hq; [discriminate|].
  destruct (linked_user_inactive db student); [discriminate|].
  destruct (student_inactive student); [discriminate|].
  destruct (computer_busy computer); [discriminate|].
  cbv zeta in Hrun |- *. cbn [fst snd] in Hrun |- *. injection Hrun as <-.
  unfold quota_exhausted in Hq. rewrite Hrem in Hq. apply Z.leb_gt in Hq.
  assert (Hafter : after_assign clock student
                   = student_with_usage student (Student.usage_days_total student)
                       (Some (n - 1)) (Some (Time.to_column (get_current_time clock)))
                       (if n - 1 <=? 0 then Some false else Student.active student)).
  { unfold after_assign. rewrite Hrem, Hlast. cbv zeta.
    assert (E : (n >? 0) = true) by (apply Z.gtb_lt; lia). rewrite E. reflexivity. }
  split; [exact Hq|]. rewrite Hafter. split; [reflexivity|].
  exists (student_with_usage student (Student.usage_days_total student)
            (Some (n - 1)) (Some (Time.to_column (get_current_time clock)))
            (if n - 1 <=? 0 then Some false else Student.active student)).
  cbn [students Session.set_computers Session.set_students].
  split; [|split; reflexivity].
  apply (first_replace Student.id) with (old := student); [exact Hs|exact Hsid].
Qed.

Lemma admin_assign_row (clock : Z) (payload : AssignPayload.t) (db : DB)
    (student : Student.t) :
  Query.first (fun s => Student.id s =? AssignPayload.student_id payload)
              (students db) = Some student ->
  let result := admin_assign clock payload db in
  (Query.first (fun s => Student.id s =? AssignPayload.student_id payload)
               (students (snd result)) = Some student
   /\ exists e, fst result = Raise e)
  \/ (Query.first (fun s => Student.id s =? AssignPayload.student_id payload)
                  (students (snd result)) = Some (after_assign clock student)
      /\ fst result
         = Return (mk_assigned (Student.usage_days_remaining (after_assign clock student)))
      /\ quota_exhausted student = false).
Proof.
  intros Hs. cbv zeta.
  pose proof (proj2 (first_some _ _ _ Hs)) as Hsid. apply Z.eqb_eq in Hsid.
  destruct (Query.first (fun c => Computer.id c =? AssignPayload.computer_id payload)
              (computers db)) as [computer|] eqn:Hc.
  2:{ rewrite admin_assign_not_found by (now left). left. cbn [fst snd]. split; [exact Hs|eauto]. }
  rewrite (admin_assign_reading clock payload db computer student Hc Hs).
  destruct (quota_exhausted student); [left; cbn [fst snd]; split; [exact Hs|eauto]|].
  destruct (linked_user_inactive db student); [left; cbn [fst snd]; split; [exact Hs|eauto]|].
  destruct (student_inactive student); [left; cbn [fst snd]; split; [exact Hs|eauto]|].
  destruct (computer_busy computer); [left; cbn [fst snd]; split; [exact Hs|eauto]|].
  right. cbv zeta. cbn [fst snd students Session.set_computers Session.set_students].
  split; [|split; reflexivity].
  apply (first_replace Student.id) with (old := student); [exact Hs|].
  rewrite (proj1 (after_assign_id clock student)). exact Hsid.
Qed.

(** X8.  A decrement made at or after 21:00 local time uses up the next
    local day too.  The time of the decrement is stored as a local wall
    clock and read back as UTC, three hours later; so after a first
    decrement at 21:00 or later, an assignment on the following local date
    leaves the student's row as it is and returns the same remaining
    days. *)
Theorem late_decrement_skips_next_day :
  forall (clock1 : Z) (payload : AssignPayload.t) (db : DB) (student : Student.t)
         (r : assigned) (n : Z),
    Query.first (fun s => Student.id s =? AssignPayload.student_id payload)
                (students db) = Some student ->
    Student.usage_days_remaining student = Some n ->
    Student.usage_last_decrement_at student = None ->
    run (admin_assign clock1 payload) db = Return r ->
    21 * Time.HOUR <= (clock1 + ADDIS_ABABA_TZ) mod Time.DAY ->
    let find_student rows :=
      Query.first (fun s => Student.id s =? AssignPayload.student_id payload) rows in
    usage_days_remaining r = Some (n - 1)
    /\ forall (clock2 : Z) (payload2 : AssignPayload.t) (db2 : DB),
         AssignPayload.student_id payload2 = AssignPayload.student_id payload ->
         find_student (students db2)
         = find_student (students (exec (admin_assign clock1 payload) db)) ->
         Time.date (get_current_time clock2) = Time.date (get_current_time clock1) + 1 ->
         find_student (students (exec (admin_assign clock2 payload2) db2))
         = find_student (students db2)
         /\ forall r2, run (admin_assign clock2 payload2) db2 = Return r2 ->
                       usage_days_remaining r2 = Some (n - 1).
Proof.
  intros clock1 payload db student r n Hs Hrem Hlast Hrun Hlate find_student.
  destruct (admin_assign_first_decrement clock1 payload db student r n Hs Hrem Hlast Hrun)
    as (Hn & Hr & s1 & Hs1 & Hrem1 & Hlast1).
  split; [exact Hr|].
  intros clock2 payload2 db2 Hsame Hrow Hnext. subst find_student. cbv beta in *.
  rewrite Hs1 in Hrow. rewrite <- Hsame in Hrow |- *. unfold exec.
  assert (Hstay : after_assign clock2 s1 = s1).
  { unfold after_assign. rewrite Hrem1, Hlast1. cbv zeta.
    destruct (decrement_dates clock1) as [Hd1 Hd2].
    assert (Hno : (Time.date (get_current_time clock2)
                   >? last_decrement_date (Time.to_column (get_current_time clock1)))
                  = false).
    { rewrite Z.gtb_ltb. apply Z.ltb_ge. rewrite Hnext, Hd1, Hd2.
      pose proof (Z.div_mod (clock1 + ADDIS_ABABA_TZ) Time.DAY ltac:(discriminate)) as Hdm.
      pose proof (Z.mod_pos_bound (clock1 + ADDIS_ABABA_TZ) Time.DAY DAY_pos) as Hb.
      set (q := (clock1 + ADDIS_ABABA_TZ) / Time.DAY) in *.
      set (m := (clock1 + ADDIS_ABABA_TZ) mod Time.DAY) in *.
      assert (Hday : Time.DAY = 24 * Time.HOUR) by reflexivity.
      assert (Hq : q + 1 <= (clock1 + ADDIS_ABABA_TZ + 3 * Time.HOUR) / Time.DAY).
      { apply Z.div_le_lower_bound; [exact DAY_pos|]. lia. }
      exact Hq. }
    rewrite Hno. reflexivity. }
  destruct (admin_assign_row clock2 payload2 db2 s1 Hrow) as [[Hkeep [e He]]|(Hnew & Hret & _)].
  - split; [rewrite Hkeep; symmetry; exact Hrow|].
    intros r2 Hr2. unfold run in Hr2. rewrite He in Hr2. discriminate.
  - rewrite Hstay in Hnew, Hret.
    split; [rewrite Hnew; symmetry; exact Hrow|].
    intros r2 Hr2. unfold run in Hr2. rewrite Hret in Hr2. injection Hr2 as <-.
    exact Hrem1.
Qed.

(** Seated at 22:00 on Monday, student 5 still has nine days after
    being seated again on Tuesday noon. *)
Lemma late_decrement_skips_next_day_witness :
  let db1 := exec (admin_assign Sample.monday_late (AssignPayload.mk 2 5))
                  Sample.db_fresh in
  run (admin_assign Sample.monday_late (AssignPayload.mk 2 5)) Sample.db_fresh
  = Return (mk_assigned (Some 9))
  /\ forall r2, run (admin_assign Sample.tuesday_noon (AssignPayload.mk 3 5)) db1
                = Return r2 ->
                usage_days_remaining r2 = Some 9.
Proof.
  cbv zeta. split; [reflexivity|].
  destruct (late_decrement_skips_next_day Sample.monday_late (AssignPayload.mk 2 5)
              Sample.db_fresh Sample.fresh_student (mk_assigned (Some 9)) 10
              eq_refl eq_refl eq_refl eq_refl) as [_ H].
  - vm_compute. discriminate.
  - apply (H Sample.tuesday_noon (AssignPayload.mk 3 5)); reflexivity.
Defined.

Example late_decrement_next_day_run :
  run (admin_assign Sample.tuesday_noon (AssignPayload.mk 3 5))
      (exec (admin_assign Sample.monday_late (AssignPayload.mk 2 5)) Sample.db_fresh)
  = Return (mk_assigned (Some 9)).
Proof. reflexivity. Qed.

(** X9.  A decrement made before 21:00 local time counts for its own day
    only: every successful assignment on a later local date decrements
    again. *)
Theorem early_decrement_counts_next_day :
  forall (clock1 : Z) (payload : AssignPayload.t) (db : DB) (student : Student.t)
         (r : assigned) (n : Z),
    Query.first (fun s => Student.id s =? AssignPayload.student_id payload)
                (students db) = Some student ->
    Student.usage_days_remaining student = Some n ->
    Student.usage_last_decrement_at student = None ->
    run (admin_assign clock1 payload) db = Return r ->
    (clock1 + ADDIS_ABABA_TZ) mod Time.DAY < 21 * Time.HOUR ->
    let find_student rows :=
      Query.first (fun s => Student.id s =? AssignPayload.student_id payload) rows in
    forall (clock2 : Z) (payload2 : AssignPayload.t) (db2 : DB) (r2 : assigned),
      AssignPayload.student_id payload2 = AssignPayload.student_id payload ->
      find_student (students db2)
      = find_student (students (exec (admin_assign clock1 payload) db)) ->
      Time.date (get_current_time clock1) < Time.date (get_current_time clock2) ->
      run (admin_assign clock2 payload2) db2 = Return r2 ->
      usage_days_remaining r = Some (n - 1)
      /\ usage_days_remaining r2 = Some (n - 2).
Proof.
  intros clock1 payload db student r n Hs Hrem Hlast Hrun Hearly find_student
         clock2 payload2 db2 r2 Hsame Hrow Hnext Hrun2.
  destruct (admin_assign_first_decrement clock1 payload db student r n Hs Hrem Hlast Hrun)
    as (Hn & Hr & s1 & Hs1 & Hrem1 & Hlast1).
  split; [exact Hr|]. subst find_student. cbv beta in *.
  rewrite Hs1 in Hrow. rewrite <- Hsame in Hrow.
  destruct (admin_assign_row clock2 payload2 db2 s1 Hrow)
    as [[_ [e He]]|(_ & Hret & Hq)].
  { unfold run in Hrun2. rewrite He in Hrun2. discriminate. }
  unfold run in Hrun2. rewrite Hret in Hrun2. injection Hrun2 as <-.
  cbn [usage_days_remaining].
  unfold quota_exhausted in Hq. rewrite Hrem1 in Hq. apply Z.leb_gt in Hq.
  unfold after_assign. rewrite Hrem1, Hlast1. cbv zeta.
  destruct (decrement_dates clock1) as [Hd1 Hd2].
  assert (Hyes : (Time.date (get_current_time clock2)
                  >? last_decrement_date (Time.to_column (get_current_time clock1)))
                 = true).
  { apply Z.gtb_lt. rewrite Hd2. rewrite Hd1 in Hnext.
    pose proof (Z.div_mod (clock1 + ADDIS_ABABA_TZ) Time.DAY ltac:(discriminate)) as Hdm.
    pose proof (Z.mod_pos_bound (clock1 + ADDIS_ABABA_TZ) Time.DAY DAY_pos) as Hb.
    set (q := (clock1 + ADDIS_ABABA_TZ) / Time.DAY) in *.
    set (m := (clock1 + ADDIS_ABABA_TZ) mod Time.DAY) in *.
    assert (Hday : Time.DAY = 24 * Time.HOUR) by reflexivity.
    assert (Hq' : (clock1 + ADDIS_ABABA_TZ + 3 * Time.HOUR) / Time.DAY < q + 1).
    { apply Z.div_lt_upper_bound; [exact DAY_pos|]. lia. }
    lia. }
  assert (E : (n - 1 >? 0) = true) by (apply Z.gtb_lt; lia).
  rewrite Hyes, E. cbn. f_equal. lia.
Qed.

Lemma early_decrement_counts_next_day_witness :
  run (admin_assign Sample.monday_noon (AssignPayload.mk 2 5)) Sample.db_fresh
  = Return (mk_assigned (Some 9))
  /\ run (admin_assign Sample.tuesday_noon (AssignPayload.mk 3 5))
         (exec (admin_assign Sample.monday_noon (AssignPayload.mk 2 5)) Sample.db_fresh)
     = Return (mk_assigned (Some 8)).
Proof.
  split; [reflexivity|].
  destruct (early_decrement_counts_next_day Sample.monday_noon (AssignPayload.mk 2 5)
              Sample.db_fresh Sample.fresh_student (mk_assigned (Some 9)) 10
              eq_refl eq_refl eq_refl eq_refl) with
    (clock2 := Sample.tuesday_noon) (payload2 := AssignPayload.mk 3 5)
    (db2 := exec (admin_assign Sample.monday_noon (AssignPayload.mk 2 5)) Sample.db_fresh)
    (r2 := mk_assigned (Some 8)) as [_ H2].
  - vm_compute. reflexivity.
  - reflexivity.
  - reflexivity.
  - vm_compute. reflexivity.
  - reflexivity.
  - reflexivity.
Defined.

(** ** Accounts *)

Lemma existsb_false {A} (p : A -> bool) (l : list A) :
  existsb p l = false <-> (forall x, In x l -> p x = false).
Proof.
  induction l as [|a l IH]; simpl.
  - split; [intros _ x []|reflexivity].
  - rewrite orb_false_iff, IH. split.
    + intros [Ha Hl] x [<-|Hx]; auto.
    + intros H. split; [apply H; now left|intros x Hx; apply H; now right].
Qed.

Lemma register_user_reading (sha256_hexdigest : string -> string) (clock : Z)
    (user : UserCreate.t) (db : DB) :
  register_user sha256_hexdigest clock user db =
  match Query.first
          (fun u => (User.username u =? UserCreate.username user)%string
                    || (User.email u =? UserCreate.email user)%string)
          (users db) with
  | Some _ => (Raise (HTTPException 400 "Username or email already registered"), db)
  | None =>
      let row :=
        User.mk (Query.next_id (map User.id (users db)))
          (UserCreate.username user) (UserCreate.email user)
          (sha256_hexdigest (UserCreate.password user)) "admin" (Some true)
          (Some (Time.to_column (get_current_time clock))) in
      (Return row, Store.set_users db (users db ++ [row]))
  end.
Proof.
  unfold register_user. unfold bind at 1. unfold session at 1.
  destruct (Query.first _ (users db)) eqn:Hdup; [reflexivity|].
  unfold Store.add_user. unfold bind at 1. unfold session at 1.
  assert (Hclash : Store.user_unique_clash
            (User.mk (Query.next_id (map User.id (users db)))
               (UserCreate.username user) (UserCreate.email user)
               (hash_password sha256_hexdigest (UserCreate.password user)) "admin"
               (Some true) (Some (Time.to_column (get_current_time clock))))
            (users db) = false).
  { unfold Store.user_unique_clash. cbn [User.username User.email].
    apply existsb_false. apply first_none. exact Hdup. }
  rewrite Hclash. reflexivity.
Qed.

(** X10.  [register_user] refuses, with status 400 and nothing
    committed, exactly when an account already has the requested username
    or email; otherwise it appends one account with a fresh id, the hashed
    password, the role "admin" whatever role the request names, and the
    active flag set.  It never fails on the unique indexes of [users]. *)
Theorem register_user_forces_admin :
  forall (sha256_hexdigest : string -> string) (clock : Z) (user : UserCreate.t)
         (db : DB),
    let taken :=
      exists u, In u (users db)
                /\ (User.username u = UserCreate.username user
                    \/ User.email u = UserCreate.email user) in
    let result := register_user sha256_hexdigest clock user db in
    (taken ->
       result = (Raise (HTTPException 400 "Username or email already registered"), db))
    /\ (~ taken ->
        exists row : User.t,
          result = (Return row, Store.set_users db (users db ++ [row]))
          /\ ~ In (User.id row) (map User.id (users db))
          /\ User.username row = UserCreate.username user
          /\ User.email row = UserCreate.email user
          /\ User.hashed_password row = sha256_hexdigest (UserCreate.password user)
          /\ User.role row = "admin"
          /\ User.is_active row = Some true)
    /\ fst result <> Raise IntegrityError.
Proof.
  intros sha256_hexdigest clock user db taken result. subst result.
  rewrite register_user_reading.
  set (p := fun u : User.t => _ || _).
  assert (Hiff : taken <-> Query.first p (users db) <> None).
  { unfold taken. split.
    - intros (u & Hu & Hsame) Hnone. rewrite first_none in Hnone.
      specialize (Hnone u Hu). unfold p in Hnone. apply orb_false_iff in Hnone.
      destruct Hnone as [Ha Hb]. apply String.eqb_neq in Ha, Hb. tauto.
    - intros Hsome. destruct (Query.first p (users db)) as [u|] eqn:E; [|congruence].
      apply first_some in E. destruct E as [Hu Hp]. exists u. split; [exact Hu|].
      unfold p in Hp. apply orb_true_iff in Hp.
      destruct Hp as [Hp|Hp]; apply String.eqb_eq in Hp; tauto. }
  destruct (Query.first p (users db)) as [u|].
  - split; [reflexivity|]. split; [|discriminate].
    intros Hnot. exfalso. apply Hnot, Hiff. discriminate.
  - split; [intros Ht; apply Hiff in Ht; congruence|]. split; [|discriminate].
    intros _. eexists. split; [reflexivity|]. cbn.
    repeat split. intros Hin. apply next_id_above in Hin. lia.
Qed.

Lemma register_user_forces_admin_witness :
  exists row : User.t,
    run (register_user Sample.digest Sample.monday_noon
           (UserCreate.mk "web_admin_test" "web_admin_test@example.com" "secret"
              (Some "student"))) Sample.db_two_users = Return row
    /\ User.role row = "admin".
Proof.
  destruct (register_user_forces_admin Sample.digest Sample.monday_noon
              (UserCreate.mk "web_admin_test" "web_admin_test@example.com" "secret"
                 (Some "student")) Sample.db_two_users) as (_ & Hnew & _).
  destruct Hnew as (row & Hrun & _ & _ & _ & _ & Hrole & _).
  - intros (u & Hu & Hsame). cbn in Hu.
    destruct Hu as [<-|[<-|[]]]; destruct Hsame as [H|H]; discriminate H.
  - exists row. unfold run. rewrite Hrun. split; [reflexivity|exact Hrole].
Defined.

(** X11.  Registration and login compose: after [register_user] has
    returned an account, [get_current_user] with the same username
    returns that account when the password has the stored digest and
    raises status 401 otherwise; the account then passes both
    [get_admin_user] and [get_student_user]; and registering the same
    request again is refused with status 400. *)
Theorem register_then_login :
  forall (sha256_hexdigest : string -> string) (clock clock' : Z) (user : UserCreate.t)
         (db : DB) (row : User.t),
    run (register_user sha256_hexdigest clock user) db = Return row ->
    let db' := exec (register_user sha256_hexdigest clock user) db in
    (forall password : string,
        get_current_user sha256_hexdigest
          (HTTPBasicCredentials.mk (UserCreate.username user) password) db'
        = if (sha256_hexdigest password =? sha256_hexdigest (UserCreate.password user))%string
          then (Return row, db')
          else (Raise (HTTPException 401 "Invalid authentication credentials"), db'))
    /\ get_admin_user row db' = (Return row, db')
    /\ get_student_user row db' = (Return row, db')
    /\ register_user sha256_hexdigest clock' user db'
       = (Raise (HTTPException 400 "Username or email already registered"), db').
Proof.
  intros sha256_hexdigest clock clock' user db row Hrun db'.
  subst db'. unfold run, exec in *. rewrite register_user_reading in Hrun |- *.
  destruct (Query.first _ (users db)) as [u|] eqn:Hdup; [discriminate|].
  cbv zeta in Hrun |- *. cbn [fst snd] in Hrun |- *. injection Hrun as <-.
  set (row := User.mk _ _ _ _ _ _ _).
  set (db' := Store.set_users db (users db ++ [row])).
  assert (Hname : Query.first
            (fun u => (User.username u =? UserCreate.username user)%string)
            (users db') = Some row).
  { subst db'. cbn [users Store.set_users]. apply first_app_last.
    - apply first_none. intros x Hx. rewrite first_none in Hdup.
      specialize (Hdup x Hx). apply orb_false_iff in Hdup. tauto.
    - apply String.eqb_refl. }
  split; [|split; [|split]].
  - intros password. unfold get_current_user. unfold bind at 1. unfold session at 1.
    cbn [HTTPBasicCredentials.username HTTPBasicCredentials.password]. rewrite Hname.
    unfold verify_password, hash_password. cbn [User.hashed_password row].
    destruct (sha256_hexdigest password =? _)%string; reflexivity.
  - reflexivity.
  - reflexivity.
  - rewrite register_user_reading.
    match goal with |- context [Query.first ?f (users db')] =>
      destruct (Query.first f (users db')) as [u|] eqn:Hagain
    end; [reflexivity|].
    exfalso. rewrite first_none in Hagain.
    assert (Hin : In row (users db')).
    { subst db'. cbn [users Store.set_users]. apply in_or_app. right. now left. }
    specialize (Hagain row Hin). cbn [User.username User.email row] in Hagain.
    rewrite String.eqb_refl in Hagain. discriminate.
Qed.

(** The registration test of the repository ([test_register_admin.py]),
    followed by a login. *)
Lemma register_then_login_witness :
  let request := UserCreate.mk "web_admin_test" "web_admin_test@example.com" "secret"
                   None in
  let db' := exec (register_user Sample.digest Sample.monday_noon request)
                  Sample.db_two_users in
  (exists row, get_current_user Sample.digest
                 (HTTPBasicCredentials.mk "web_admin_test" "secret") db'
               = (Return row, db') /\ User.role row = "admin")
  /\ register_user Sample.digest Sample.monday_noon request db'
     = (Raise (HTTPException 400 "Username or email already registered"), db').
Proof.
  cbv zeta.
  destruct (register_then_login Sample.digest Sample.monday_noon Sample.monday_noon
              (UserCreate.mk "web_admin_test" "web_admin_test@example.com" "secret" None)
              Sample.db_two_users
              (User.mk 3 "web_admin_test" "web_admin_test@example.com"
                 (Sample.digest "secret") "admin" (Some true)
                 (Some (Time.to_column (get_current_time Sample.monday_noon))))
              eq_refl) as (Hlogin & _ & _ & Hagain).
  split; [|exact Hagain].
  eexists. split; [exact (Hlogin "secret")|reflexivity].
Defined.

(** ** Generated usernames *)

Lemma py_str_int_parses (k : Z) :
  0 < k ->
  NilZero.uint_of_string (py_str_int k) = Some (N.to_uint (Z.to_N (Z.abs k))).
Proof.
  intros Hk. unfold py_str_int.
  assert (E : (k <? 0) = false) by (apply Z.ltb_ge; lia). rewrite E.
  apply NilZero.usu. destruct k as [|p|p]; try lia. cbn.
  apply DecimalPos.Unsigned.to_uint_nonnil.
Qed.

Lemma py_str_int_inj (a b : Z) :
  0 < a -> 0 < b -> py_str_int a = py_str_int b -> a = b.
Proof.
  intros Ha Hb H.
  pose proof (py_str_int_parses a Ha) as Pa. pose proof (py_str_int_parses b Hb) as Pb.
  rewrite H in Pa. rewrite Pa in Pb. injection Pb as Pb.
  apply DecimalN.Unsigned.to_uint_inj in Pb. lia.
Qed.

Lemma py_str_int_nonempty (a : Z) : 0 < a -> py_str_int a <> "".
Proof.
  intros Ha H. pose proof (py_str_int_parses a Ha) as Pa. rewrite H in Pa. discriminate.
Qed.

Lemma append_inj_r (o a b : string) : (o ++ a = o ++ b)%string -> a = b.
Proof.
  induction o as [|c o IH]; simpl; intros H; [exact H|].
  injection H as H. auto.
Qed.

Lemma append_fixed (o a : string) : (o ++ a = o)%string -> a = "".
Proof.
  induction o as [|c o IH]; simpl; intros H; [exact H|].
  injection H as H. auto.
Qed.

Lemma username_taken (rows : list User.t) (u : string) :
  Query.first (fun r => (User.username r =? u)%string) rows <> None
  <-> In u (map User.username rows).
Proof.
  split.
  - intros H. destruct (Query.first _ rows) as [x|] eqn:E; [|congruence].
    apply first_some in E. destruct E as [Hx Hp]. apply String.eqb_eq in Hp.
    apply in_map_iff. exists x. tauto.
  - intros Hin Hnone. rewrite first_none in Hnone.
    apply in_map_iff in Hin. destruct Hin as (x & <- & Hx).
    specialize (Hnone x Hx). rewrite String.eqb_refl in Hnone. discriminate.
Qed.

(** When the loop gives up, every name it tried is in use. *)
Lemma free_username_none (fuel : nat) (rows : list User.t) (o u : string) (c : Z) :
  free_username fuel rows o u c = None ->
  match fuel with
  | O => True
  | S f =>
      In u (map User.username rows)
      /\ forall i, (i < f)%nat ->
                   In (o ++ py_str_int (c + Z.of_nat i))%string (map User.username rows)
  end.
Proof.
  revert u c. induction fuel as [|f IH]; intros u c H; [exact I|].
  cbn [free_username] in H.
  destruct (Query.first (fun r => (User.username r =? u)%string) rows) eqn:E;
    [|discriminate].
  split; [apply username_taken; congruence|].
  specialize (IH _ _ H). destruct f as [|f']; [intros i Hi; lia|].
  destruct IH as [H0 Hrest]. intros i Hi. destruct i as [|j].
  - rewrite Z.add_0_r. exact H0.
  - replace (c + Z.of_nat (S j)) with (c + 1 + Z.of_nat j) by lia.
    apply Hrest. lia.
Qed.

(** The name the loop returns is not in use, and it is either the
    first candidate or the original name followed by a counter. *)
Lemma free_username_some (fuel : nat) (rows : list User.t) (o u x : string) (c : Z) :
  free_username fuel rows o u c = Some x ->
  ~ In x (map User.username rows)
  /\ (x = u \/ exists k, c <= k /\ x = (o ++ py_str_int k)%string).
Proof.
  revert u c. induction fuel as [|f IH]; intros u c H; [discriminate|].
  cbn [free_username] in H.
  destruct (Query.first (fun r => (User.username r =? u)%string) rows) eqn:E.
  - destruct (IH _ _ H) as [Hfree [->|(k & Hk & ->)]]; (split; [exact Hfree|right]).
    + exists c. split; [lia|reflexivity].
    + exists k. split; [lia|reflexivity].
  - injection H as <-. split; [|now left].
    intros Hin. apply username_taken in Hin. congruence.
Qed.

Lemma free_username_found (rows : list User.t) (o : string) :
  exists x, free_username (S (List.length rows)) rows o o 1 = Some x.
Proof.
  destruct (free_username (S (List.length rows)) rows o o 1) as [x|] eqn:E; [eauto|].
  exfalso. apply free_username_none in E. destruct E as [H0 Hrest].
  set (names := map User.username rows) in *.
  set (f := fun i : nat => (o ++ py_str_int (1 + Z.of_nat i))%string).
  set (tried := o :: map f (seq 0 (List.length rows))).
  assert (Hnodup : NoDup tried).
  { unfold tried. constructor.
    - intros Hin. apply in_map_iff in Hin. destruct Hin as (i & Hi & _).
      unfold f in Hi. apply append_fixed in Hi.
      apply py_str_int_nonempty in Hi; [exact Hi|lia].
    - assert (Hinj : forall l, NoDup l -> NoDup (map f l)).
      { induction 1 as [|a l Ha Hl IHl]; simpl; constructor; [|exact IHl].
        intros Hin. apply in_map_iff in Hin. destruct Hin as (b & Hb & Hbl).
        unfold f in Hb. apply append_inj_r in Hb. apply py_str_int_inj in Hb; try lia.
        assert (b = a) by lia. subst b. contradiction. }
      apply Hinj. apply seq_NoDup. }
  assert (Hincl : incl tried names).
  { intros y [<-|Hy]; [exact H0|].
    apply in_map_iff in Hy. destruct Hy as (i & <- & Hi). apply in_seq in Hi.
    apply Hrest. lia. }
  pose proof (NoDup_incl_length Hnodup Hincl) as Hlen.
  unfold tried, names in Hlen. cbn [List.length] in Hlen.
  rewrite !length_map, length_seq in Hlen. lia.
Qed.

(** X12.  The username loop of [create_user_simple] ends within one round
    more than there are accounts, and the name it settles on is not in
    use: it is the generated name or that name followed by a counter from
    1 on.  The handler then fails, with status 500 and nothing committed,
    exactly when the email is already in use, and otherwise appends the
    account under that name with role "admin" and reports the generated
    password. *)
Theorem create_user_simple_finds_username :
  forall (sha256_hexdigest : string -> string) (clock random_num : Z)
         (password : string) (error_text : exn -> string)
         (user : UserCreateSimple.t) (db : DB),
    let original := generate_username random_num (UserCreateSimple.name user) in
    let fuel := S (List.length (users db)) in
    exists username : string,
      free_username fuel (users db) original original 1 = Some username
      /\ ~ In username (map User.username (users db))
      /\ (username = original
          \/ exists k, 1 <= k /\ username = (original ++ py_str_int k)%string)
      /\ ((exists u, In u (users db) /\ User.email u = UserCreateSimple.email user) ->
          create_user_simple sha256_hexdigest fuel clock random_num password error_text
            user db
          = Some (Raise (HTTPException 500
                           ("Error creating user: " ++ error_text IntegrityError)%string),
                  db))
      /\ (~ (exists u, In u (users db) /\ User.email u = UserCreateSimple.email user) ->
          exists row : User.t,
            create_user_simple sha256_hexdigest fuel clock random_num password error_text
              user db
            = Some (Return (UserCreateResponse.mk (User.id row) username password
                              (UserCreateSimple.email user) "admin" None),
                    Store.set_users db (users db ++ [row]))
            /\ User.username row = username
            /\ User.email row = UserCreateSimple.email user
            /\ User.role row = "admin"
            /\ User.hashed_password row = sha256_hexdigest password
            /\ ~ In (User.id row) (map User.id (users db))).
Proof.
  intros sha256_hexdigest clock random_num password error_text user db original fuel.
  destruct (free_username_found (users db) original) as [username Hfound].
  destruct (free_username_some _ _ _ _ _ _ Hfound) as [Hfree Hshape].
  exists username. fold fuel in Hfound.
  split; [exact Hfound|]. split; [exact Hfree|]. split; [exact Hshape|].
  unfold create_user_simple. fold original. rewrite Hfound.
  unfold Store.add_user. unfold bind at 1 3. unfold session at 1 2.
  set (row := User.mk (Query.next_id (map User.id (users db))) username
                (UserCreateSimple.email user) (hash_password sha256_hexdigest password)
                "admin" (Some true) (Some (Time.to_column (get_current_time clock)))).
  assert (Hclash : Store.user_unique_clash row (users db) = true
                   <-> exists u, In u (users db)
                                 /\ User.email u = UserCreateSimple.email user).
  { unfold Store.user_unique_clash. rewrite existsb_exists. cbn [User.username User.email row].
    split; intros (u & Hu & H); exists u; (split; [exact Hu|]).
    - apply orb_true_iff in H. destruct H as [H|H]; apply String.eqb_eq in H; [|exact H].
      exfalso. apply Hfree. apply in_map_iff. exists u. tauto.
    - apply orb_true_iff. right. apply String.eqb_eq. exact H. }
  destruct (Store.user_unique_clash row (users db)) eqn:E.
  - split; [reflexivity|]. intros Hnot. exfalso. apply Hnot, Hclash. reflexivity.
  - split; [intros H; apply Hclash in H; discriminate|].
    intros _. exists row. split; [reflexivity|]. cbn. repeat split.
    intros Hin. apply next_id_above in Hin. lia.
Qed.

(** "Ann" with the draw 123: "ann123" and "ann1231" are taken, the loop
    settles on "ann1232". *)
Lemma create_user_simple_finds_username_witness :
  exists row : User.t,
    create_user_simple Sample.digest 3 Sample.monday_noon 123 "s3cr3tPw"
      Sample.error_text (UserCreateSimple.mk "Ann" "ann3@example.com" None)
      Sample.db_two_users
    = Some (Return (UserCreateResponse.mk (User.id row) "ann1232" "s3cr3tPw"
                      "ann3@example.com" "admin" None),
            Store.set_users Sample.db_two_users (users Sample.db_two_users ++ [row])).
Proof.
  destruct (create_user_simple_finds_username Sample.digest Sample.monday_noon 123
              "s3cr3tPw" Sample.error_text
              (UserCreateSimple.mk "Ann" "ann3@example.com" None) Sample.db_two_users)
    as (username & Hfound & _ & _ & _ & Hnew).
  cbv zeta in Hfound. vm_compute in Hfound. injection Hfound as <-.
  destruct Hnew as (row & Hrun & _).
  - intros (u & Hu & He). cbn in Hu. destruct Hu as [<-|[<-|[]]]; discriminate He.
  - exists row. exact Hrun.
Defined.

(** ** Cascading deletes *)

Lemma unique_id_row (rows : list Booking.t) (a b : Booking.t) :
  booking_ids_unique rows -> In a rows -> In b rows ->
  Booking.id a = Booking.id b -> a = b.
Proof.
  unfold booking_ids_unique. induction rows as [|r rows IH]; simpl; [intros _ []|].
  intros Hnd Ha Hb Hid. inversion Hnd as [|? ? Hnotin Hnd']; subst.
  destruct Ha as [<-|Ha], Hb as [<-|Hb]; auto.
  - exfalso. apply Hnotin. rewrite Hid. now apply in_map.
  - exfalso. apply Hnotin. rewrite <- Hid. now apply in_map.
Qed.

(** Deleting the loaded rows of a query leaves the rows the query did
    not select. *)
Lemma without_selected (p : Booking.t -> bool) (rows : list Booking.t) :
  booking_ids_unique rows ->
  Store.without_bookings (filter p rows) rows = filter (fun r => negb (p r)) rows.
Proof.
  intros Hnd. unfold Store.without_bookings. apply filter_ext_in. intros r Hr. f_equal.
  destruct (p r) eqn:E.
  - apply existsb_exists. exists r. split; [apply filter_In; tauto|apply Z.eqb_refl].
  - apply existsb_false. intros b Hb. apply filter_In in Hb. destruct Hb as [Hb Hp].
    apply Z.eqb_neq. intros Hid.
    assert (b = r) by (apply (unique_id_row rows); assumption). congruence.
Qed.

Lemma delete_computer_admin_reading (computer_id : Z) (db : DB) (computer : Computer.t) :
  Query.first (fun c => Computer.id c =? computer_id) (computers db) = Some computer ->
  booking_ids_unique (bookings db) ->
  delete_computer_admin computer_id db =
  (Return true,
   mkDB (users db) (students db)
     (filter (fun c => negb (Computer.id c =? computer_id)) (computers db))
     (filter (fun b => negb (Booking.computer_id b =? computer_id)) (bookings db))).
Proof.
  intros Hc Hnd. unfold delete_computer_admin. unfold bind at 1. unfold session at 1.
  rewrite Hc. pose proof (proj2 (first_some _ _ _ Hc)) as Hid. apply Z.eqb_eq in Hid.
  rewrite (without_selected _ _ Hnd), Hid. reflexivity.
Qed.









(** ** Activation *)

Lemma toggle_student_active_reading (student_id : Z) (db : DB) (student : Student.t) :
  Query.first (fun s => Student.id s =? student_id) (students db) = Some student ->
  toggle_student_active student_id db =
  match linked_user db student with
  | Some user =>
      let user' := user_with_active user (Some (negb (py_bool (User.is_active user)))) in
      (Return (ToggleActiveResponse.mk student_id (Some (User.id user))
                 (Some (negb (py_bool (User.is_active user))))),
       Store.set_users db
         (map (fun r => if User.id r =? User.id user then user' else r) (users db)))
  | None =>
      let student' :=
        student_with_usage student
          (Student.usage_days_total student) (Student.usage_days_remaining student)
          (Student.usage_last_decrement_at student)
          (Some (negb (py_bool (Student.active student)))) in
      (Return (ToggleActiveResponse.mk student_id None
                 (Some (negb (py_bool (Student.active student))))),
       Session.set_students db
         (map (fun r => if Student.id r =? Student.id student then student' else r)
              (students db)))
  end.
Proof.
  intros Hs. unfold toggle_student_active. unfold bind at 1. unfold session at 1.
  rewrite Hs. fold (linked_user db student).
  destruct (linked_user db student) as [user|]; reflexivity.
Qed.

Lemma first_replace_at {A} (key : A -> Z) (k : Z) (new old : A) (rows : list A) :
  Query.first (fun r => key r =? k) rows = Some old ->
  key new = k ->
  Query.first (fun r => key r =? k)
              (map (fun r => if key r =? k then new else r) rows) = Some new.
Proof.
  intros Hfind Hkey. subst k. apply first_replace with (old := old); [exact Hfind|reflexivity].
Qed.

Lemma linked_user_found (db : DB) (s : Student.t) (u : User.t) :
  linked_user db s = Some u ->
  exists uid, Student.user_id s = Some uid /\ uid <> 0 /\ User.id u = uid
              /\ Query.first (fun r => User.id r =? uid) (users db) = Some u.
Proof.
  unfold linked_user, truthy_int. destruct (Student.user_id s) as [uid|]; [|discriminate].
  destruct (uid =? 0) eqn:E; [discriminate|]. cbn [negb]. intros Hu.
  exists uid. apply Z.eqb_neq in E. split; [reflexivity|]. split; [exact E|].
  split; [|exact Hu]. apply first_some in Hu. destruct Hu as [_ Hu].
  apply Z.eqb_eq in Hu. exact Hu.
Qed.

(** A student whose shown flag is false is refused by [admin_assign]. *)
Lemma shown_inactive_refused (clock : Z) (payload : AssignPayload.t) (db : DB)
    (student : Student.t) :
  Query.first (fun s => Student.id s =? AssignPayload.student_id payload)
              (students db) = Some student ->
  shown_active db student = Some false ->
  exists e, admin_assign clock payload db = (Raise e, db).
Proof.
  intros Hs Hshown.
  destruct (Query.first (fun c => Computer.id c =? AssignPayload.computer_id payload)
              (computers db)) as [computer|] eqn:Hc.
  2:{ rewrite admin_assign_not_found by (now left). eauto. }
  rewrite (admin_assign_reading clock payload db computer student Hc Hs).
  destruct (quota_exhausted student); [eauto|].
  assert (Hrefused : linked_user_inactive db student = true
                     \/ student_inactive student = true).
  { unfold shown_active in Hshown.
    destruct (linked_user db student) as [u|] eqn:Hu.
    - left. destruct (linked_user_found db student u Hu) as (uid & Huid & Hnz & _ & Hfirst).
      unfold linked_user_inactive, truthy_int. rewrite Huid, Hfirst, Hshown.
      apply Z.eqb_neq in Hnz. rewrite Hnz. reflexivity.
    - right. unfold student_inactive. rewrite Hshown. reflexivity. }
  destruct (linked_user_inactive db student); [eauto|].
  destruct Hrefused as [Hr|Hr]; [discriminate|]. rewrite Hr. eauto.
Qed.

(** X16.  Deactivating with [toggle_student_active] blocks assignment:
    when the toggle answers [is_active = false], whether it flipped the
    linked account or the student's own flag, every [admin_assign] for
    that student in the resulting state is refused and commits nothing. *)
Theorem toggle_inactive_blocks_assign :
  forall (student_id : Z) (db : DB) (response : ToggleActiveResponse.t),
    run (toggle_student_active student_id) db = Return response ->
    ToggleActiveResponse.is_active response = Some false ->
    let db' := exec (toggle_student_active student_id) db in
    forall (clock computer_id : Z),
    exists e, admin_assign clock (AssignPayload.mk computer_id student_id) db'
              = (Raise e, db').
Proof.
  intros student_id db response Hrun Hfalse db' clock computer_id.
  subst db'. unfold run, exec in *.
  destruct (Query.first (fun s => Student.id s =? student_id) (students db))
    as [student|] eqn:Hs.
  2:{ unfold toggle_student_active in Hrun. unfold bind at 1 in Hrun.
      unfold session at 1 in Hrun. rewrite Hs in Hrun. discriminate. }
  pose proof (proj2 (first_some _ _ _ Hs)) as Hid. apply Z.eqb_eq in Hid.
  rewrite (toggle_student_active_reading student_id db student Hs) in Hrun |- *.
  destruct (linked_user db student) as [user|] eqn:Hu;
    cbv zeta in Hrun |- *; cbn [fst snd] in Hrun |- *; injection Hrun as <-;
    cbn [ToggleActiveResponse.is_active] in Hfalse.
  - destruct (linked_user_found db student user Hu) as (uid & Huid & Hnz & Hiu & Hfirst).
    apply (shown_inactive_refused clock _ _ student).
    + exact Hs.
    + unfold shown_active, linked_user, truthy_int. rewrite Huid.
      apply Z.eqb_neq in Hnz. rewrite Hnz. cbn [negb users Store.set_users].
      rewrite <- Hiu.
      rewrite (first_replace_at User.id (User.id user)
                 (user_with_active user (Some (negb (py_bool (User.is_active user)))))
                 user (users db)).
      * cbn [User.is_active user_with_active]. exact Hfalse.
      * rewrite Hiu. exact Hfirst.
      * reflexivity.
  - set (student' := student_with_usage student _ _ _ _).
    apply (shown_inactive_refused clock _ _ student').
    + cbn [AssignPayload.student_id students Session.set_students]. rewrite Hid.
      apply (first_replace_at Student.id student_id student' student);
        [exact Hs|exact Hid].
    + unfold shown_active.
      assert (Hnone : linked_user (Session.set_students db
                        (map (fun r => if Student.id r =? Student.id student
                                       then student' else r) (students db))) student'
                      = None) by exact Hu.
      rewrite Hnone. exact Hfalse.
Qed.

Lemma toggle_inactive_blocks_assign_witness :
  exists e,
    admin_assign Sample.monday_noon (AssignPayload.mk 2 5)
      (exec (toggle_student_active 5) Sample.db_linked)
    = (Raise e, exec (toggle_student_active 5) Sample.db_linked).
Proof.
  apply (toggle_inactive_blocks_assign 5 Sample.db_linked
           (ToggleActiveResponse.mk 5 (Some 9) (Some false))); reflexivity.
Defined.

Lemma replace_same {A} (key : A -> Z) (k : Z) (rows : list A) (x : A) :
  NoDup (map key rows) -> In x rows -> key x = k ->
  map (fun r => if key r =? k then x else r) rows = rows.
Proof.
  intros Hnd Hx Hk. subst k. rewrite <- (map_id rows) at 2. apply map_ext_in. intros r Hr.
  destruct (key r =? key x) eqn:E; [|reflexivity].
  apply Z.eqb_eq in E.
  clear - Hnd Hx Hr E. induction rows as [|a rows IH]; [destruct Hx|].
  cbn [map] in Hnd. inversion Hnd as [|? ? Hnotin Hnd']; subst.
  destruct Hx as [<-|Hx], Hr as [<-|Hr]; auto.
  - exfalso. apply Hnotin. rewrite <- E. now apply in_map.
  - exfalso. apply Hnotin. rewrite E. now apply in_map.
Qed.

Lemma replace_twice {A} (key : A -> Z) (k : Z) (rows : list A) (x y : A) :
  key x = k ->
  map (fun r => if key r =? k then y else r)
      (map (fun r => if key r =? k then x else r) rows)
  = map (fun r => if key r =? k then y else r) rows.
Proof.
  intros Hk. subst k. rewrite map_map. apply map_ext. intros r.
  destruct (key r =? key x) eqn:E.
  - rewrite Z.eqb_refl. reflexivity.
  - rewrite E. reflexivity.
Qed.

(** X17.  [toggle_student_active] is an involution on a set flag: when
    the ids of users and of students are unique and the flag it acts on
    (the linked account's when there is one, else the student's own) is
    true or false, two successive toggles restore the database, the first
    answering the negated flag and the second the original one. *)
Theorem toggle_student_active_twice :
  forall (student_id : Z) (db : DB) (student : Student.t) (flag : bool),
    NoDup (map User.id (users db)) ->
    NoDup (map Student.id (students db)) ->
    Query.first (fun s => Student.id s =? student_id) (students db) = Some student ->
    shown_active db student = Some flag ->
    let db1 := exec (toggle_student_active student_id) db in
    (exists r1, run (toggle_student_active student_id) db = Return r1
                /\ ToggleActiveResponse.is_active r1 = Some (negb flag))
    /\ (exists r2, run (toggle_student_active student_id) db1 = Return r2
                   /\ ToggleActiveResponse.is_active r2 = Some flag)
    /\ exec (toggle_student_active student_id) db1 = db.
Proof.
  intros student_id db student flag Hnu Hns Hs Hflag db1. subst db1.
  unfold run, exec.
  pose proof (first_some _ _ _ Hs) as [Hin Hid]. apply Z.eqb_eq in Hid.
  rewrite (toggle_student_active_reading student_id db student Hs).
  unfold shown_active in Hflag.
  destruct (linked_user db student) as [user|] eqn:Hu; cbv zeta; cbn [fst snd].
  - destruct (linked_user_found db student user Hu) as (uid & Huid & Hnz & Hiu & Hfirst).
    rewrite Hflag. cbn [py_bool].
    split; [eexists; split; reflexivity|].
    set (user' := user_with_active user (Some (negb flag))).
    set (db1 := Store.set_users db _).
    assert (Hu1 : linked_user db1 student = Some user').
    { unfold linked_user, truthy_int. rewrite Huid. apply Z.eqb_neq in Hnz. rewrite Hnz.
      cbn [negb]. subst db1. cbn [users Store.set_users]. rewrite <- Hiu.
      apply (first_replace_at User.id (User.id user) user' user); [|reflexivity].
      rewrite Hiu. exact Hfirst. }
    rewrite (toggle_student_active_reading student_id db1 student Hs), Hu1.
    cbv zeta. cbn [fst snd User.is_active user' user_with_active py_bool].
    rewrite negb_involutive.
    split; [eexists; split; reflexivity|].
    subst db1. unfold Store.set_users. cbn [users students computers bookings User.id].
    change (User.id user') with (User.id user).
    rewrite (replace_twice User.id (User.id user) (users db) user'
               (user_with_active user' (Some flag)) eq_refl).
    assert (Hback : user_with_active user' (Some flag) = user).
    { unfold user', user_with_active. cbn. rewrite <- Hflag. destruct user; reflexivity. }
    rewrite Hback. rewrite (replace_same User.id (User.id user) (users db) user Hnu).
    + destruct db; reflexivity.
    + apply first_some in Hfirst. tauto.
    + reflexivity.
  - rewrite Hflag. cbn [py_bool].
    split; [eexists; split; reflexivity|].
    set (student' := student_with_usage student _ _ _ (Some (negb flag))).
    set (db1 := Session.set_students db _).
    assert (Hs1 : Query.first (fun s => Student.id s =? student_id) (students db1)
                  = Some student').
    { subst db1. cbn [students Session.set_students]. rewrite Hid.
      apply (first_replace_at Student.id student_id student' student);
        [exact Hs|exact Hid]. }
    assert (Hu1 : linked_user db1 student' = None) by exact Hu.
    rewrite (toggle_student_active_reading student_id db1 student' Hs1), Hu1.
    cbv zeta. cbn [fst snd Student.active student' student_with_usage py_bool].
    rewrite negb_involutive.
    split; [eexists; split; reflexivity|].
    subst db1. unfold Session.set_students. cbn [users students computers bookings].
    set (back := student_with_usage _ _ _ _ (Some flag)).
    assert (Hback : back = student).
    { unfold back, student_with_usage. cbn. rewrite <- Hflag. destruct student; reflexivity. }
    change (Student.id student') with (Student.id student).
    rewrite (replace_twice Student.id (Student.id student) (students db) student' back
               eq_refl).
    rewrite Hback.
    rewrite (replace_same Student.id (Student.id student) (students db) student Hns Hin
               eq_refl).
    destruct db; reflexivity.
Qed.

Lemma toggle_student_active_twice_witness :
  exec (toggle_student_active 5) (exec (toggle_student_active 5) Sample.db_linked)
  = Sample.db_linked.
Proof.
  refine (proj2 (proj2 (toggle_student_active_twice 5 Sample.db_linked
                          (Student.mk 5 "Abel" "abel@example.com" "stu005" (Some 9)
                             None None None (Some true) None None None)
                          true _ _ eq_refl eq_refl))).
  - repeat constructor. intros [].
  - repeat constructor. intros [].
Defined.

(** ** The student summary *)

Lemma first_by_unique_id {A} (key : A -> Z) (rows : list A) (x : A) :
  NoDup (map key rows) -> In x rows ->
  Query.first (fun r => key r =? key x) rows = Some x.
Proof.
  unfold Query.first. induction rows as [|a rows IH]; simpl; [intros _ []|].
  intros Hnd Hx. inversion Hnd as [|? ? Hnotin Hnd']; subst.
  destruct Hx as [<-|Hx]; [now rewrite Z.eqb_refl|].
  destruct (key a =? key x) eqn:E; [|auto].
  exfalso. apply Z.eqb_eq in E. apply Hnotin. rewrite E. now apply in_map.
Qed.

(** [get_students_summary] lists one entry per student, by name, and
    commits nothing. *)
Lemma get_students_summary_reading (db : DB) :
  get_students_summary db
  = (Return (map (summary_row db)
               (Query.order_by
                  (fun a b => String.leb (Student.name a) (Student.name b))
                  (students db))), db).
Proof.
  unfold get_students_summary, bind at 1, session at 1.
  apply for_each_reading. intros s _.
  unfold bind, session, ret, summary_row, shown_date, shown_active, linked_user.
  destruct (truthy_int (Student.user_id s)); [|reflexivity].
  destruct (Student.user_id s) as [uid|]; [|reflexivity].
  destruct (Query.first _ (users db)) as [u|]; [|reflexivity].
  destruct (User.created_at u); reflexivity.
Qed.

(** X18. The summary and the assignment agree on who is inactive: when
    student ids are unique, every student that [get_students_summary]
    lists with [is_active = false] is refused by [admin_assign] on any
    computer and at any time, and the refusal commits nothing. *)
Theorem summary_inactive_is_refused (clock computer_id : Z) (db : DB)
    (rows : list SummaryRow.t) (row : SummaryRow.t) :
  NoDup (map Student.id (students db)) ->
  run get_students_summary db = Return rows ->
  In row rows ->
  SummaryRow.is_active row = Some false ->
  exists e,
    admin_assign clock (AssignPayload.mk computer_id (SummaryRow.id row)) db
    = (Raise e, db).
Proof.
  intros Hnd Hrun Hrow Hflag.
  unfold run in Hrun. rewrite get_students_summary_reading in Hrun. cbn [fst] in Hrun.
  injection Hrun as <-.
  apply in_map_iff in Hrow as (s & <- & Hs).
  apply (Permutation_in _ (order_by_perm _ _)) in Hs.
  cbn [summary_row SummaryRow.is_active SummaryRow.id] in *.
  apply (shown_inactive_refused clock _ db s); [|exact Hflag].
  cbn [AssignPayload.student_id]. now apply first_by_unique_id.
Qed.

Lemma summary_inactive_is_refused_witness :
  exists e,
    admin_assign Sample.monday_noon (AssignPayload.mk 2 5) Sample.db_account_inactive
    = (Raise e, Sample.db_account_inactive).
Proof.
  apply (summary_inactive_is_refused Sample.monday_noon 2 Sample.db_account_inactive
           [SummaryRow.mk 5 "Abel" "abel@example.com" None None None (Some false)
              None None]
           (SummaryRow.mk 5 "Abel" "abel@example.com" None None None (Some false)
              None None)).
  - repeat constructor; simpl; tauto.
  - reflexivity.
  - now left.
  - reflexivity.
Defined.

(** ** The status update *)

Lemma update_computer_status_admin_reading (clock utcnow1 utcnow2 clock_event : Z)
    (computer_id : Z) (status_update : ComputerStatusUpdate.t) (db : DB) :
  update_computer_status_admin clock utcnow1 utcnow2 clock_event computer_id
    status_update db
  = match Query.first (fun c => Computer.id c =? computer_id) (computers db) with
    | None => (Raise (HTTPException 404 "Computer not found"), db)
    | Some computer =>
        (Return ("Computer status updated successfully",
                 StatusEvent.mk "computer_status_update" computer_id
                   (ComputerStatusUpdate.status status_update)
                   (ComputerStatusUpdate.current_user status_update)
                   (get_current_time clock_event)),
         mkDB (users db) (students db)
           (map (fun r => if Computer.id r =? Computer.id computer
                          then computer_with_status computer
                                 (ComputerStatusUpdate.status status_update)
                                 (ComputerStatusUpdate.current_user status_update)
                                 (Some (Time.to_column (get_current_time clock)))
                          else r)
                (computers db))
           (bookings_after_status utcnow1 utcnow2 computer_id
              (ComputerStatusUpdate.status status_update) (bookings db)))
    end.
Proof.
  unfold update_computer_status_admin, bookings_after_status.
  unfold bind at 1. unfold session at 1.
  destruct (Query.first _ (computers db)) as [computer|]; [|reflexivity].
  fold (running_now utcnow1 utcnow2 computer_id).
  destruct (ComputerStatusUpdate.status status_update =? "in_use")%string;
    [|reflexivity].
  destruct (Query.first (running_now utcnow1 utcnow2 computer_id) (bookings db));
    reflexivity.
Qed.

(** What a status update can do to the bookings table: every row keeps
    its key, computer, student and interval, and a row is live after the
    update exactly when it was before. *)
Lemma bookings_after_status_rows (utcnow1 utcnow2 computer_id : Z) (status : string)
    (rows : list Booking.t) :
  map Booking.id (bookings_after_status utcnow1 utcnow2 computer_id status rows)
  = map Booking.id rows
  /\ forall b', In b' (bookings_after_status utcnow1 utcnow2 computer_id status rows) ->
       exists b, In b rows
                 /\ Booking.id b' = Booking.id b
                 /\ Booking.computer_id b' = Booking.computer_id b
                 /\ Booking.start_time b' = Booking.start_time b
                 /\ Booking.end_time b' = Booking.end_time b
                 /\ (live b' -> live b).
Proof.
  unfold bookings_after_status.
  destruct (status =? "in_use")%string.
  2:{ split; [reflexivity|]. intros b' Hb'. exists b'. tauto. }
  destruct (Query.first _ rows) as [a|] eqn:Ha.
  2:{ split; [reflexivity|]. intros b' Hb'. exists b'. tauto. }
  apply first_some in Ha as [Hin Hp].
  split.
  - rewrite map_map. apply map_ext. intros r.
    destruct (Booking.id r =? Booking.id a) eqn:E; [|reflexivity].
    apply Z.eqb_eq in E. now rewrite E.
  - intros b' Hb'. apply in_map_iff in Hb' as (r & <- & Hr).
    destruct (Booking.id r =? Booking.id a) eqn:E.
    + exists a. repeat split; try assumption.
      intros _. unfold running_now in Hp.
      apply andb_true_iff in Hp as [Hp _]. apply andb_true_iff in Hp as [Hp _].
      apply andb_true_iff in Hp as [_ Hp]. apply String.eqb_eq in Hp.
      unfold live. rewrite Hp. now left.
    + exists r. tauto.
Qed.

(** X19. A status update keeps the bookings table sound: whatever status
    and occupant are sent and whether or not the computer exists,
    [update_computer_status_admin] leaves the accounts and the students
    as they are, keeps every booking key, and a table in which no two
    live bookings of one computer overlap still has none afterwards. *)
Theorem update_computer_status_admin_keeps_invariant
    (clock utcnow1 utcnow2 clock_event computer_id : Z)
    (status_update : ComputerStatusUpdate.t) (db : DB) :
  no_double_booking (bookings db) ->
  let db' := exec (update_computer_status_admin clock utcnow1 utcnow2 clock_event
                     computer_id status_update) db in
  no_double_booking (bookings db')
  /\ map Booking.id (bookings db') = map Booking.id (bookings db)
  /\ users db' = users db
  /\ students db' = students db.
Proof.
  intros Hinv db'. subst db'. unfold exec.
  rewrite update_computer_status_admin_reading.
  destruct (Query.first _ (computers db)) as [computer|]; cbn [snd];
    [|repeat split; assumption].
  cbn [bookings users students].
  destruct (bookings_after_status_rows utcnow1 utcnow2 computer_id
              (ComputerStatusUpdate.status status_update) (bookings db))
    as [Hids Hrows].
  repeat split; [|exact Hids].
  intros b1 b2 H1 H2 Hne Hcomp Hl1 Hl2.
  destruct (Hrows b1 H1) as (a1 & Ha1 & Hi1 & Hc1 & Hs1 & He1 & Hlive1).
  destruct (Hrows b2 H2) as (a2 & Ha2 & Hi2 & Hc2 & Hs2 & He2 & Hlive2).
  unfold overlaps. rewrite Hs1, He1, Hs2, He2.
  apply (Hinv a1 a2 Ha1 Ha2); [congruence|congruence|auto|auto].
Qed.

Lemma update_computer_status_admin_keeps_invariant_witness :
  let db' := exec (update_computer_status_admin Sample.monday_noon
                     (Sample.local_hour 13 + 30 * Time.MINUTE)
                     (Sample.local_hour 13 + 30 * Time.MINUTE)
                     Sample.monday_noon 2
                     (ComputerStatusUpdate.mk 2 "in_use" (Some "Abel")))
                  Sample.db_one_booking in
  no_double_booking (bookings db')
  /\ map Booking.id (bookings db') = map Booking.id (bookings Sample.db_one_booking)
  /\ users db' = users Sample.db_one_booking
  /\ students db' = students Sample.db_one_booking.
Proof.
  apply (update_computer_status_admin_keeps_invariant Sample.monday_noon
           (Sample.local_hour 13 + 30 * Time.MINUTE)
           (Sample.local_hour 13 + 30 * Time.MINUTE)
           Sample.monday_noon 2
           (ComputerStatusUpdate.mk 2 "in_use" (Some "Abel")) Sample.db_one_booking).
  intros b1 b2 [<-|[]] [<-|[]] Hne. now elim Hne.
Defined.

(** X20. Marking a computer as in use closes it for assignment: once
    [update_computer_status_admin] has stored the status ["in_use"] on an
    existing computer, [admin_assign] to that computer is refused for
    every student and at any later time, and the refusal commits
    nothing. *)
Theorem status_in_use_blocks_assign
    (clock utcnow1 utcnow2 clock_event clock' computer_id student_id : Z)
    (status_update : ComputerStatusUpdate.t) (db : DB) (computer : Computer.t) :
  Query.first (fun c => Computer.id c =? computer_id) (computers db) = Some computer ->
  ComputerStatusUpdate.status status_update = "in_use" ->
  let db' := exec (update_computer_status_admin clock utcnow1 utcnow2 clock_event
                     computer_id status_update) db in
  exists e,
    admin_assign clock' (AssignPayload.mk computer_id student_id) db' = (Raise e, db').
Proof.
  intros Hc Hstatus db'.
  assert (Hc' : Query.first
                  (fun c => Computer.id c =? computer_id) (computers db')
                = Some (computer_with_status computer "in_use"
                          (ComputerStatusUpdate.current_user status_update)
                          (Some (Time.to_column (get_current_time clock))))).
  { subst db'. unfold exec. rewrite update_computer_status_admin_reading, Hc.
    cbn [snd computers]. rewrite Hstatus.
    assert (Hid : Computer.id computer = computer_id).
    { apply first_some in Hc as [_ Hc]. now apply Z.eqb_eq in Hc. }
    rewrite Hid. apply first_replace_at with (old := computer); [exact Hc|exact Hid]. }
  clearbody db'.
  destruct (Query.first (fun s => Student.id s =? student_id) (students db'))
    as [student|] eqn:Hs.
  2:{ rewrite admin_assign_not_found by (now right). eauto. }
  rewrite (admin_assign_reading clock' (AssignPayload.mk computer_id student_id) db'
             _ student Hc' Hs).
  destruct (quota_exhausted student); [eauto|].
  destruct (linked_user_inactive db' student); [eauto|].
  destruct (student_inactive student); [eauto|].
  unfold computer_busy. cbn [computer_with_status Computer.status].
  rewrite String.eqb_refl. eauto.
Qed.

Lemma status_in_use_blocks_assign_witness :
  let db' := exec (update_computer_status_admin Sample.monday_noon
                     Sample.monday_noon Sample.monday_noon Sample.monday_noon 2
                     (ComputerStatusUpdate.mk 2 "in_use" None))
                  Sample.db_fresh in
  exists e,
    admin_assign Sample.tuesday_noon (AssignPayload.mk 2 5) db' = (Raise e, db').
Proof.
  apply (status_in_use_blocks_assign Sample.monday_noon
           Sample.monday_noon Sample.monday_noon Sample.monday_noon
           Sample.tuesday_noon 2 5
           (ComputerStatusUpdate.mk 2 "in_use" None) Sample.db_fresh
           (Computer.mk 2 "PC-02" "available" None None)); reflexivity.
Defined.

(** ** The bookings of tomorrow *)

Lemma tomorrow_columns (clock : Z) :
  let tomorrow_start :=
    Time.add_days (Time.replace_hour 0 (get_current_time clock)) 1 in
  Time.to_column tomorrow_start
  = (Time.date (get_current_time clock) + 1) * Time.DAY
  /\ Time.to_column (Time.add_days tomorrow_start 1)
     = (Time.date (get_current_time clock) + 2) * Time.DAY.
Proof.
  unfold get_current_time, Time.to_column, Time.replace_hour, Time.add_days, Time.date.
  cbn [Time.wall]. split; lia.
Qed.

Lemma get_tomorrow_bookings_admin_reading (clock : Z) (db : DB) :
  get_tomorrow_bookings_admin clock db
  = (Return
       (Query.order_by (fun a b => Booking.start_time a <=? Booking.start_time b)
          (filter (fun b =>
                     (Booking.start_time b
                        >=? (Time.date (get_current_time clock) + 1) * Time.DAY)
                     && (Booking.start_time b
                           <? (Time.date (get_current_time clock) + 2) * Time.DAY))
                  (bookings db))), db).
Proof.
  unfold get_tomorrow_bookings_admin.
  destruct (tomorrow_columns clock) as [-> ->]. reflexivity.
Qed.

Lemma Sorted_leb (rows : list Booking.t) :
  Sorted (fun a b => (Booking.start_time a <=? Booking.start_time b) = true) rows ->
  Sorted (fun a b => Booking.start_time a <= Booking.start_time b) rows.
Proof.
  induction 1 as [|a l Hs IH Hhd]; constructor; [exact IH|].
  destruct Hhd as [|b l Hab]; constructor. now apply Z.leb_le.
Qed.

(** X21. [get_tomorrow_bookings_admin] compares the stored UTC start
    times with midnight on the local wall clock, so the day it lists is
    shifted by the zone offset: it returns, earliest start first, exactly
    the bookings that start, in Addis Ababa time, from 03:00 tomorrow up
    to (not including) 03:00 of the day after; it commits nothing. *)
Theorem get_tomorrow_bookings_admin_window (clock : Z) (db : DB) :
  let today := Time.date (get_current_time clock) in
  exists rows : list Booking.t,
    get_tomorrow_bookings_admin clock db = (Return rows, db)
    /\ Sorted (fun a b => Booking.start_time a <= Booking.start_time b) rows
    /\ forall b : Booking.t,
         In b rows <->
         In b (bookings db)
         /\ (today + 1) * Time.DAY + 3 * Time.HOUR
            <= Time.wall (convert_from_utc (Naive (Booking.start_time b)))
            < (today + 2) * Time.DAY + 3 * Time.HOUR.
Proof.
  intros today. rewrite get_tomorrow_bookings_admin_reading. fold today.
  eexists. split; [reflexivity|]. split.
  - apply Sorted_leb. apply order_by_sorted. intros a b. rewrite !Z.leb_le. lia.
  - intros b.
    assert (Hlocal : Time.wall (convert_from_utc (Naive (Booking.start_time b)))
                     = Booking.start_time b + 3 * Time.HOUR).
    { unfold convert_from_utc, ADDIS_ABABA_TZ, UTC. cbn. lia. }
    rewrite Hlocal. split.
    + intros Hb. apply (Permutation_in _ (order_by_perm _ _)) in Hb.
      apply filter_In in Hb as [Hin Hp]. apply andb_true_iff in Hp as [H1 H2].
      apply Z.geb_le in H1. apply Z.ltb_lt in H2. split; [exact Hin|lia].
    + intros [Hin Hw].
      apply (Permutation_in _ (Permutation_sym (order_by_perm _ _))).
      apply filter_In. split; [exact Hin|]. apply andb_true_iff. split.
      * apply Z.geb_le. lia.
      * apply Z.ltb_lt. lia.
Qed.

(** X22. A day added with [toggle_day_booking] shows in the listing of
    tomorrow exactly when its date is tomorrow.  For a date and a
    listing time in the years the zone is at +03:00 and ids the
    database can bind, the toggle that adds appends one booking, from
    09:00 to 17:00 local time of its date; [get_tomorrow_bookings_admin],
    read after the toggle, returns what it returned before and, if and
    only if that date is the day after the local date of the listing,
    the appended booking. *)
Theorem toggled_day_listed_tomorrow :
  forall (py_int : string -> option Z) (clock clock_list student_id computer_id : Z)
         (date : string) (db : DB) (local_date : datetime),
    local_date_of_string py_int date = Some local_date ->
    in_EAT_era local_date ->
    in_EAT_era (get_current_time clock_list) ->
    fits_integer student_id = true ->
    fits_integer computer_id = true ->
    let window_start := Time.to_column (fst (day_range_in_tz local_date)) in
    let window_end := Time.to_column (snd (day_range_in_tz local_date)) in
    computer_id <> 0 ->
    (forall b, In b (bookings db) -> Booking.student_id b = student_id -> live b ->
               ~ touches_or_overlaps b window_start window_end) ->
    (forall b, In b (bookings db) -> Booking.computer_id b = computer_id -> live b ->
               ~ overlaps b window_start window_end) ->
    let toggle := toggle_day_booking py_int clock
                    (ToggleDayPayload.mk student_id date (Some computer_id)) in
    exists (new : Booking.t) (listed_before listed : list Booking.t),
      run toggle db = Return (added (Booking.id new))
      /\ bookings (exec toggle db) = (bookings db ++ [new])%list
      /\ ~ In (Booking.id new) (map Booking.id (bookings db))
      /\ Booking.student_id new = student_id
      /\ Booking.computer_id new = computer_id
      /\ Booking.status new = "scheduled"
      /\ Booking.start_time new
         = Time.date local_date * Time.DAY + 9 * Time.HOUR - ADDIS_ABABA_TZ
      /\ Booking.end_time new
         = Time.date local_date * Time.DAY + 17 * Time.HOUR - ADDIS_ABABA_TZ
      /\ run (get_tomorrow_bookings_admin clock_list) db = Return listed_before
      /\ run (get_tomorrow_bookings_admin clock_list) (exec toggle db) = Return listed
      /\ (In new listed <->
          Time.date local_date = Time.date (get_current_time clock_list) + 1)
      /\ (forall b, In b listed <->
                    In b listed_before
                    \/ (b = new
                        /\ Time.date local_date
                           = Time.date (get_current_time clock_list) + 1)).
Proof.
  intros py_int clock clock_list student_id computer_id date db local_date Hdate
         _ _ _ _ window_start window_end Hcid Hstudent Hcomputer toggle.
  pose proof (toggle_day_booking_adds py_int clock student_id computer_id date db
                local_date Hdate Hcid Hstudent Hcomputer) as Hrun.
  cbv zeta in Hrun. fold window_start window_end in Hrun.
  set (new := Booking.mk (Query.next_id (map Booking.id (bookings db))) computer_id
                student_id window_start window_end "scheduled"
                (Time.to_column (get_current_time clock))) in *.
  destruct (day_range_columns local_date) as [Hs He].
  rewrite (local_date_is_aware py_int date local_date Hdate) in Hs, He.
  fold window_start in Hs. fold window_end in He.
  exists new. eexists. eexists. subst toggle. unfold run, exec. rewrite Hrun. cbn [fst snd].
  rewrite !get_tomorrow_bookings_admin_reading. cbn [fst].
  cbn [Session.set_bookings bookings].
  set (today := Time.date (get_current_time clock_list)).
  set (p := fun b : Booking.t =>
              (Booking.start_time b >=? (today + 1) * Time.DAY)
              && (Booking.start_time b <? (today + 2) * Time.DAY)).
  set (le := fun a b : Booking.t => Booking.start_time a <=? Booking.start_time b).
  assert (Hstart : Booking.start_time new
                   = Time.date local_date * Time.DAY + 6 * Time.HOUR).
  { cbn [new Booking.start_time]. rewrite Hs. unfold ADDIS_ABABA_TZ. lia. }
  pose proof HOUR_pos as Hh.
  assert (Hday : Time.DAY = 24 * Time.HOUR) by reflexivity.
  assert (Hp : p new = true <-> Time.date local_date = today + 1).
  { unfold p. rewrite andb_true_iff, Z.geb_le, Z.ltb_lt, Hstart. split.
    - intros [H1 H2]. nia.
    - intros ->. split; nia. }
  assert (Hlisted : forall b, In b (Query.order_by le (filter p (bookings db ++ [new])))
                    <-> In b (Query.order_by le (filter p (bookings db)))
                        \/ (b = new /\ Time.date local_date = today + 1)).
  { intros b. split.
    - intros Hb. apply (Permutation_in _ (order_by_perm _ _)) in Hb.
      apply filter_In in Hb as [Hb Hpb]. apply in_app_or in Hb as [Hb|[<-|[]]].
      + left. apply (Permutation_in _ (Permutation_sym (order_by_perm _ _))).
        apply filter_In. split; assumption.
      + right. split; [reflexivity|]. now apply Hp.
    - intros [Hb|[-> Htomorrow]];
        apply (Permutation_in _ (Permutation_sym (order_by_perm _ _)));
        apply filter_In.
      + apply (Permutation_in _ (order_by_perm _ _)) in Hb.
        apply filter_In in Hb as [Hb Hpb]. split; [|exact Hpb].
        apply in_or_app. now left.
      + split; [apply in_or_app; right; now left|now apply Hp]. }
  split; [reflexivity|]. split; [reflexivity|].
  split; [intros Hin; apply next_id_above in Hin; cbn in Hin; lia|].
  split; [reflexivity|]. split; [reflexivity|]. split; [reflexivity|].
  split; [exact Hs|]. split; [exact He|].
  split; [reflexivity|]. split; [reflexivity|]. split; [|exact Hlisted].
  split.
  - intros Hnew. destruct (proj1 (Hlisted new) Hnew) as [Hb|[_ Ht]]; [|exact Ht].
    apply (Permutation_in _ (order_by_perm _ _)) in Hb.
    apply filter_In in Hb as [Hb _]. exfalso.
    apply (in_map Booking.id) in Hb. apply next_id_above in Hb. cbn in Hb. lia.
  - intros Ht. apply (proj2 (Hlisted new)). right. split; [reflexivity|exact Ht].
Qed.

Lemma toggled_day_listed_tomorrow_witness :
  exists (new : Booking.t) (listed : list Booking.t),
    run (get_tomorrow_bookings_admin Sample.monday_noon)
        (exec (toggle_day_booking Sample.decimal_int Sample.monday_noon
                 (ToggleDayPayload.mk 5 "2024-03-05" (Some 2))) Sample.db_one_booking)
    = Return listed
    /\ Booking.student_id new = 5
    /\ Booking.start_time new = Sample.local_hour (24 + 9)
    /\ In new listed.
Proof.
  destruct (toggled_day_listed_tomorrow Sample.decimal_int Sample.monday_noon
              Sample.monday_noon 5 2 "2024-03-05" Sample.db_one_booking
              (Time.localize ADDIS_ABABA_TZ (Naive (Sample.local_hour 27))))
    as (new & listed_before & listed & _ & _ & _ & Hs & _ & _ & Hstart & _ & _
        & Hlisted & Hin & _).
  - vm_compute. reflexivity.
  - split; vm_compute; discriminate.
  - split; vm_compute; discriminate.
  - reflexivity.
  - reflexivity.
  - discriminate.
  - intros b [<-|[]] Hs. vm_compute in Hs. discriminate Hs.
  - intros b [<-|[]] _ _ [_ H]. vm_compute in H. discriminate.
  - exists new, listed. split; [exact Hlisted|]. split; [exact Hs|].
    split; [rewrite Hstart; vm_compute; reflexivity|].
    apply Hin. vm_compute. reflexivity.
Defined.

(** ** A student's own bookings *)

Lemma get_student_bookings_reading (current_user : User.t) (db : DB) :
  get_student_bookings current_user db
  = match Query.first (linked_to current_user) (students db) with
    | None => (Raise (HTTPException 404 "Student profile not found"), db)
    | Some student =>
        (Return (filter (fun b => Booking.student_id b =? Student.id student)
                   (bookings db)), db)
    end.
Proof.
  unfold get_student_bookings, bind, session.
  destruct (Query.first _ (students db)); reflexivity.
Qed.

(** A booking made by a caller who has a student record is appended to
    that student's listing. *)
Lemma create_booking_student_listed
    (strptime : string -> string -> string + datetime)
    (fromisoformat : string -> string + datetime)
    (clock : Z) (booking : StudentBookingCreate.t) (current_user : User.t)
    (db : DB) (student : Student.t) (new : Booking.t) :
  Query.first (linked_to current_user) (students db) = Some student ->
  let create := create_booking_student strptime fromisoformat clock booking
                  current_user in
  run create db = Return new ->
  Booking.student_id new = Student.id student
  /\ run (get_student_bookings current_user) (exec create db)
     = Return (filter (fun b => Booking.student_id b =? Student.id student)
                 (bookings db) ++ [new])%list.
Proof.
  intros Hfind create Hrun. subst create. unfold run, exec in *.
  rewrite (create_booking_student_unfold _ _ _ _ _ db student Hfind) in *.
  destruct (parse_booking_times strptime fromisoformat booking) as [e|[s e]];
    [discriminate|].
  cbv zeta in *. destruct (Query.count _ _ >? 0); [discriminate|].
  cbn [fst snd] in *. injection Hrun as <-. split; [reflexivity|].
  rewrite get_student_bookings_reading. cbn [Session.set_bookings students bookings].
  rewrite Hfind. cbn [fst]. rewrite filter_app. cbn [filter Booking.student_id].
  rewrite Z.eqb_refl. reflexivity.
Qed.

(** X23. Booking and listing round trip: when [create_booking_student]
    returns a booking, [get_student_bookings] of the same caller, read
    right after, returns the caller's earlier bookings followed by the new
    one.  This holds also for a caller whose student record the request
    has just created, and then the earlier bookings are those stored
    under the new record's id. *)
Theorem create_booking_student_then_listed :
  forall (strptime : string -> string -> string + datetime)
         (fromisoformat : string -> string + datetime)
         (clock : Z) (booking : StudentBookingCreate.t) (current_user : User.t)
         (db : DB) (new : Booking.t),
    let create := create_booking_student strptime fromisoformat clock booking
                    current_user in
    run create db = Return new ->
    run (get_student_bookings current_user) (exec create db)
    = Return (filter (fun b => Booking.student_id b =? Booking.student_id new)
                (bookings db) ++ [new])%list
    /\ forall before : list Booking.t,
         run (get_student_bookings current_user) db = Return before ->
         run (get_student_bookings current_user) (exec create db)
         = Return (before ++ [new])%list.
Proof.
  intros strptime fromisoformat clock booking current_user db new create Hrun.
  destruct (Query.first (linked_to current_user) (students db)) as [student|] eqn:Hfind.
  - destruct (create_booking_student_listed strptime fromisoformat clock booking
                current_user db student new Hfind Hrun) as [Hsid Hlist].
    fold create in Hlist. rewrite Hsid. split; [exact Hlist|].
    intros before Hbefore. unfold run in Hbefore.
    rewrite get_student_bookings_reading, Hfind in Hbefore. cbn [fst] in Hbefore.
    injection Hbefore as <-. exact Hlist.
  - split.
    2:{ intros before Hbefore. unfold run in Hbefore.
        rewrite get_student_bookings_reading, Hfind in Hbefore. discriminate. }
    subst create. unfold run, exec in *.
    rewrite (create_booking_student_new_student _ _ _ _ _ db Hfind) in *.
    cbv zeta in *.
    set (row := Student.mk (Query.next_id (map Student.id (students db)))
                  (User.username current_user) (User.email current_user)
                  ("STU" ++ format_03d (User.id current_user))%string
                  (Some (User.id current_user)) None None None (Some true)
                  None None None) in *.
    destruct (Session.student_unique_clash row (students db)); [discriminate|].
    assert (Hrow : Query.first (linked_to current_user)
                     (students (Session.set_students db (students db ++ [row])))
                   = Some row).
    { cbn [students Session.set_students]. apply first_app_last; [exact Hfind|].
      unfold linked_to, row. cbn. apply Z.eqb_refl. }
    destruct (create_booking_student_listed strptime fromisoformat clock booking
                current_user _ row new Hrow Hrun) as [Hsid Hlist].
    rewrite Hsid. exact Hlist.
Qed.

Lemma create_booking_student_then_listed_witness :
  exists new : Booking.t,
    run (get_student_bookings Sample.caller)
        (exec (create_booking_student Sample.strptime Sample.fromisoformat
                 Sample.monday_noon
                 (Sample.request "2024-03-04T11:00" "2024-03-04T12:00")
                 Sample.caller) Sample.db_booked)
    = Return [new]
    /\ Booking.start_time new = Sample.local_hour 11.
Proof.
  destruct (create_booking_student_then_listed Sample.strptime Sample.fromisoformat
              Sample.monday_noon
              (Sample.request "2024-03-04T11:00" "2024-03-04T12:00")
              Sample.caller Sample.db_booked
              (Booking.mk 2 2 5 (Sample.local_hour 11) (Sample.local_hour 12)
                 "scheduled" (Time.to_column (get_current_time Sample.monday_noon))))
    as [Hlisted _].
  - vm_compute. reflexivity.
  - eexists. split; [rewrite Hlisted; reflexivity|reflexivity].
Defined.

(** X24. A refused first booking still creates the caller's student
    record.  For a caller without a student record whose new record trips
    no unique index, [create_booking_student] commits the record before
    it reads the request: whatever the outcome, the record is stored, and
    when the request is refused (unparsable times or a taken slot) no
    booking is stored, yet [get_student_bookings], which answered 404
    before, answers with a list afterwards. *)
Theorem refused_booking_keeps_new_profile :
  forall (strptime : string -> string -> string + datetime)
         (fromisoformat : string -> string + datetime)
         (clock : Z) (booking : StudentBookingCreate.t) (current_user : User.t)
         (db : DB),
    Query.first (linked_to current_user) (students db) = None ->
    let row :=
      Student.mk (Query.next_id (map Student.id (students db)))
        (User.username current_user) (User.email current_user)
        ("STU" ++ format_03d (User.id current_user))%string
        (Some (User.id current_user)) None None None (Some true) None None None in
    Session.student_unique_clash row (students db) = false ->
    let create := create_booking_student strptime fromisoformat clock booking
                    current_user in
    students (exec create db) = (students db ++ [row])%list
    /\ run (get_student_bookings current_user) db
       = Raise (HTTPException 404 "Student profile not found")
    /\ forall e : exn,
         run create db = Raise e ->
         bookings (exec create db) = bookings db
         /\ run (get_student_bookings current_user) (exec create db)
            = Return (filter (fun b => Booking.student_id b =? Student.id row)
                        (bookings db)).
Proof.
  intros strptime fromisoformat clock booking current_user db Hfind row Hclash create.
  subst create. unfold run, exec.
  rewrite (create_booking_student_new_student _ _ _ _ _ db Hfind).
  cbv zeta. fold row. rewrite Hclash.
  assert (Hrow : Query.first (linked_to current_user)
                   (students (Session.set_students db (students db ++ [row])))
                 = Some row).
  { cbn [students Session.set_students]. apply first_app_last; [exact Hfind|].
    unfold linked_to, row. cbn. apply Z.eqb_refl. }
  rewrite (create_booking_student_unfold _ _ _ _ _ _ row Hrow).
  rewrite (get_student_bookings_reading current_user db), Hfind.
  destruct (parse_booking_times strptime fromisoformat booking) as [e0|[s e0]].
  - cbn [fst snd Session.set_students students bookings].
    split; [reflexivity|]. split; [reflexivity|]. intros e _.
    split; [reflexivity|].
    rewrite get_student_bookings_reading, Hrow. reflexivity.
  - cbv zeta. cbn [Session.set_students bookings].
    destruct (Query.count _ _ >? 0).
    + cbn [fst snd students bookings].
      split; [reflexivity|]. split; [reflexivity|]. intros e _.
      split; [reflexivity|].
      rewrite get_student_bookings_reading, Hrow. reflexivity.
    + cbn [fst snd Session.set_bookings students].
      split; [reflexivity|]. split; [reflexivity|]. intros e He. discriminate He.
Qed.

Lemma refused_booking_keeps_new_profile_witness :
  let create := create_booking_student Sample.strptime Sample.fromisoformat
                  Sample.monday_noon (Sample.request "tomorrow" "later")
                  Sample.caller in
  List.length (students (exec create Sample.db_no_profile)) = 1%nat
  /\ run (get_student_bookings Sample.caller) Sample.db_no_profile
     = Raise (HTTPException 404 "Student profile not found")
  /\ run (get_student_bookings Sample.caller) (exec create Sample.db_no_profile)
     = Return [].
Proof.
  destruct (refused_booking_keeps_new_profile Sample.strptime Sample.fromisoformat
              Sample.monday_noon (Sample.request "tomorrow" "later")
              Sample.caller Sample.db_no_profile)
    as (Hstudents & Hbefore & Hrefused).
  - reflexivity.
  - vm_compute. reflexivity.
  - cbv zeta. split; [rewrite Hstudents; reflexivity|]. split; [exact Hbefore|].
    destruct (Hrefused (HTTPException 400
                          "Invalid datetime format: Invalid isoformat string"))
      as [_ Hafter].
    + vm_compute. reflexivity.
    + rewrite Hafter. vm_compute. reflexivity.
Defined.

(** ** The WebSocket connections *)

(** X25. [ConnectionManager.disconnect] is [list.remove]: it fails (the
    [ValueError]) exactly when the connection is not in the list, and
    otherwise takes out its first occurrence only, keeping every other
    entry and the order. *)
Theorem disconnect_removes_first (websocket : Z) (conns : ConnectionManager.t) :
  match ConnectionManager.disconnect websocket conns with
  | None => ~ In websocket conns
  | Some rest =>
      exists before after : list Z,
        conns = (before ++ websocket :: after)%list
        /\ ~ In websocket before
        /\ rest = (before ++ after)%list
  end.
Proof.
  induction conns as [|c conns IH]; cbn [ConnectionManager.disconnect].
  - intros [].
  - destruct (c =? websocket) eqn:E.
    + apply Z.eqb_eq in E. subst c. exists [], conns. repeat split. intros [].
    + apply Z.eqb_neq in E.
      destruct (ConnectionManager.disconnect websocket conns) as [rest|];
        cbn [option_map].
      * destruct IH as (before & after & -> & Hnot & ->).
        exists (c :: before), after. repeat split.
        intros [Hc|Hin]; [now apply E|now apply Hnot].
      * intros [Hc|Hin]; [now apply E|now apply IH].
Qed.

Lemma broadcast_app (send_text : Z -> string -> bool) (message : string)
    (l1 l2 : list Z) :
  ConnectionManager.broadcast send_text message (l1 ++ l2)%list
  = (ConnectionManager.broadcast send_text message l1
     ++ ConnectionManager.broadcast send_text message l2)%list.
Proof.
  induction l1 as [|c l1 IH]; cbn [ConnectionManager.broadcast app]; [reflexivity|].
  destruct (send_text c message); [cbn [app]; f_equal|]; exact IH.
Qed.

(** X26. A connection that joins and leaves again leaves no trace, and
    while it is connected a broadcast reaches it last: for a websocket
    not yet in the list, [disconnect] after [connect] gives back the list
    as it was, and a broadcast after [connect] reaches the connections it
    reached before, in the same order, followed by the new one when its
    send goes through; a failing send stops nothing. *)
Theorem connect_then_disconnect (websocket : Z) (conns : ConnectionManager.t)
    (send_text : Z -> string -> bool) (message : string) :
  ~ In websocket conns ->
  ConnectionManager.disconnect websocket (ConnectionManager.connect websocket conns)
  = Some conns
  /\ ConnectionManager.broadcast send_text message
       (ConnectionManager.connect websocket conns)
     = (ConnectionManager.broadcast send_text message conns
        ++ if send_text websocket message then [websocket] else [])%list
  /\ forall c, In c (ConnectionManager.broadcast send_text message conns) <->
               In c conns /\ send_text c message = true.
Proof.
  intros Hnot. unfold ConnectionManager.connect. split; [|split].
  - induction conns as [|c conns IH]; cbn [ConnectionManager.disconnect app].
    + now rewrite Z.eqb_refl.
    + destruct (c =? websocket) eqn:E.
      * apply Z.eqb_eq in E. exfalso. apply Hnot. now left.
      * rewrite IH; [reflexivity|]. intros Hin. apply Hnot. now right.
  - rewrite broadcast_app. cbn [ConnectionManager.broadcast].
    destruct (send_text websocket message); reflexivity.
  - clear Hnot. intros c. induction conns as [|c0 conns IH];
      cbn [ConnectionManager.broadcast]; [simpl; tauto|].
    destruct (send_text c0 message) eqn:E; simpl; rewrite IH.
    + split; [intros [<-|[H1 H2]]; auto|intros [[<-|H1] H2]; auto].
    + split; [intros [H1 H2]; auto|intros [[<-|H1] H2]; [congruence|auto]].
Qed.

Lemma connect_then_disconnect_witness :
  ConnectionManager.disconnect 3 (ConnectionManager.connect 3 [1; 2]) = Some [1; 2]
  /\ ConnectionManager.broadcast (fun c _ => negb (c =? 2)) "update"
       (ConnectionManager.connect 3 [1; 2]) = [1; 3].
Proof.
  destruct (connect_then_disconnect 3 [1; 2] (fun c _ => negb (c =? 2)) "update")
    as (Hleave & Hcast & _).
  - simpl. intros [H|[H|[]]]; discriminate H.
  - split; [exact Hleave|]. rewrite Hcast. reflexivity.
Defined.

(** ** Adding a computer *)

Lemma create_computer_admin_reading (clock : Z) (name : string) (db : DB) :
  let new :=
    Computer.mk (Query.next_id (map Computer.id (computers db))) name "available" None
      (Some (Time.to_column (get_current_time clock))) in
  create_computer_admin clock name db
  = if existsb (fun r => (Computer.name r =? name)%string) (computers db)
    then (Raise IntegrityError, db)
    else (Return new, Session.set_computers db (computers db ++ [new])).
Proof.
  unfold create_computer_admin, Store.add_computer, Store.computer_unique_clash.
  unfold bind at 1. unfold session at 1. cbn [Computer.name].
  destruct (existsb _ (computers db)); reflexivity.
Qed.

(** X27. Computer names stay unique.  [create_computer_admin] fails with
    [IntegrityError] (no handler catches it) and stores nothing exactly
    when a computer of that name exists; and when the names in the table
    are pairwise different before the request, they are after it. *)
Theorem create_computer_admin_keeps_names_unique (clock : Z) (name : string) (db : DB) :
  NoDup (map Computer.name (computers db)) ->
  let create := create_computer_admin clock name in
  NoDup (map Computer.name (computers (exec create db)))
  /\ (In name (map Computer.name (computers db)) ->
      create db = (Raise IntegrityError, db))
  /\ (~ In name (map Computer.name (computers db)) ->
      exists new : Computer.t,
        run create db = Return new
        /\ Computer.name new = name
        /\ Computer.status new = "available"
        /\ Computer.current_user new = None
        /\ computers (exec create db) = (computers db ++ [new])%list
        /\ Query.first (fun c => Computer.id c =? Computer.id new)
                       (computers (exec create db)) = Some new).
Proof.
  intros Hnd create. subst create. unfold run, exec.
  rewrite create_computer_admin_reading. cbv zeta.
  destruct (existsb (fun r => (Computer.name r =? name)%string) (computers db)) eqn:E.
  - cbn [fst snd]. split; [exact Hnd|]. split; [reflexivity|].
    intros Hnot. exfalso. apply Hnot.
    apply existsb_exists in E as (c & Hc & Hname). apply String.eqb_eq in Hname.
    rewrite <- Hname. now apply in_map.
  - assert (Hfresh : ~ In name (map Computer.name (computers db))).
    { intros Hin. apply in_map_iff in Hin as (c & Hname & Hc).
      rewrite existsb_false in E. specialize (E c Hc).
      apply String.eqb_neq in E. congruence. }
    cbn [fst snd Session.set_computers computers]. split; [|split].
    + rewrite map_app. cbn [map Computer.name].
      apply NoDup_app; [exact Hnd|repeat constructor; intros []|].
      intros x Hx [<-|[]]. now apply Hfresh.
    + intros Hin. now elim Hfresh.
    + intros _. eexists. split; [reflexivity|]. cbn [Computer.name Computer.status
        Computer.current_user Computer.id].
      repeat split. apply first_app_last; [|apply Z.eqb_refl].
      apply first_none. intros c Hc. apply Z.eqb_neq.
      pose proof (next_id_above (map Computer.id (computers db)) (Computer.id c)
                    (in_map _ _ _ Hc)). lia.
Qed.

Lemma create_computer_admin_keeps_names_unique_witness :
  NoDup (map Computer.name
           (computers (exec (create_computer_admin Sample.monday_noon "PC-04")
                         Sample.db_early)))
  /\ create_computer_admin Sample.monday_noon "PC-03" Sample.db_early
     = (Raise IntegrityError, Sample.db_early).
Proof.
  assert (Hnd : NoDup (map Computer.name (computers Sample.db_early))).
  { repeat constructor; simpl; intros H; repeat destruct H as [H|H];
      try discriminate H; exact H. }
  split.
  - apply (create_computer_admin_keeps_names_unique Sample.monday_noon "PC-04"
             Sample.db_early Hnd).
  - apply (create_computer_admin_keeps_names_unique Sample.monday_noon "PC-03"
             Sample.db_early Hnd).
    simpl. tauto.
Defined.

(** X28. Adding a computer and deleting it again is a round trip: when
    the name is new, booking ids are unique and no stored booking carries
    the id the new computer gets, [delete_computer_admin] of that id,
    run after [create_computer_admin], succeeds and restores the
    database as it was before the two requests. *)
Theorem create_then_delete_computer (clock : Z) (name : string) (db : DB) :
  ~ In name (map Computer.name (computers db)) ->
  booking_ids_unique (bookings db) ->
  (forall b, In b (bookings db) ->
             Booking.computer_id b <> Query.next_id (map Computer.id (computers db))) ->
  exists new : Computer.t,
    run (create_computer_admin clock name) db = Return new
    /\ delete_computer_admin (Computer.id new)
         (exec (create_computer_admin clock name) db)
       = (Return true, db).
Proof.
  intros Hfresh Hids Hnone. unfold run, exec.
  rewrite create_computer_admin_reading. cbv zeta.
  assert (E : existsb (fun r => (Computer.name r =? name)%string) (computers db)
              = false).
  { apply existsb_false. intros c Hc. apply String.eqb_neq. intros Hname.
    apply Hfresh. rewrite <- Hname. now apply in_map. }
  rewrite E. cbn [fst snd]. eexists. split; [reflexivity|]. cbn [Computer.id].
  set (new := Computer.mk (Query.next_id (map Computer.id (computers db))) name
                "available" None (Some (Time.to_column (get_current_time clock)))).
  assert (Habove : forall c, In c (computers db) ->
                     (Computer.id c =? Query.next_id (map Computer.id (computers db)))
                     = false).
  { intros c Hc. apply Z.eqb_neq.
    pose proof (next_id_above (map Computer.id (computers db)) (Computer.id c)
                  (in_map _ _ _ Hc)). lia. }
  rewrite (delete_computer_admin_reading _ _ new).
  - cbn [Session.set_computers users students computers bookings].
    rewrite filter_app. cbn [filter]. cbn [new Computer.id]. rewrite Z.eqb_refl.
    cbn [negb]. rewrite app_nil_r.
    assert (Hc : filter (fun c => negb (Computer.id c
                                         =? Query.next_id (map Computer.id (computers db))))
                   (computers db) = computers db).
    { rewrite <- (filter_ext_in (fun _ => true)).
      - clear. induction (computers db) as [|c l IH]; simpl; [reflexivity|now rewrite IH].
      - intros c Hc. now rewrite (Habove c Hc). }
    assert (Hb : filter (fun b => negb (Booking.computer_id b
                                         =? Query.next_id (map Computer.id (computers db))))
                   (bookings db) = bookings db).
    { rewrite <- (filter_ext_in (fun _ => true)).
      - clear. induction (bookings db) as [|c l IH]; simpl; [reflexivity|now rewrite IH].
      - intros b Hin. symmetry. apply negb_true_iff. apply Z.eqb_neq. now apply Hnone. }
    rewrite Hc, Hb. destruct db; reflexivity.
  - cbn [Session.set_computers computers]. apply first_app_last.
    + apply first_none. exact Habove.
    + apply Z.eqb_refl.
  - exact Hids.
Qed.

Lemma create_then_delete_computer_witness :
  exists new : Computer.t,
    run (create_computer_admin Sample.monday_noon "PC-04") Sample.db_one_booking
    = Return new
    /\ delete_computer_admin (Computer.id new)
         (exec (create_computer_admin Sample.monday_noon "PC-04") Sample.db_one_booking)
       = (Return true, Sample.db_one_booking).
Proof.
  apply (create_then_delete_computer Sample.monday_noon "PC-04" Sample.db_one_booking).
  - simpl. intros [H|[H|[]]]; discriminate H.
  - repeat constructor. intros [].
  - intros b [<-|[]]. discriminate.
Defined.

(** ** Deactivation and login *)

Lemma unique_key_row {A} (key : A -> Z) (rows : list A) (a b : A) :
  NoDup (map key rows) -> In a rows -> In b rows -> key a = key b -> a = b.
Proof.
  induction rows as [|r rows IH]; simpl; [intros _ []|].
  intros Hnd Ha Hb Hid. inversion Hnd as [|? ? Hnotin Hnd']; subst.
  destruct Ha as [<-|Ha], Hb as [<-|Hb]; auto.
  - exfalso. apply Hnotin. rewrite Hid. now apply in_map.
  - exfalso. apply Hnotin. rewrite <- Hid. now apply in_map.
Qed.

(** A row found by one column is still found, in its new state, after an
    update by key that keeps that column. *)
Lemma first_after_update {A} (p : A -> bool) (key : A -> Z) (new old : A)
    (rows : list A) :
  Query.first p rows = Some old -> key old = key new -> p new = true ->
  Query.first p (map (fun r => if key r =? key new then new else r) rows) = Some new.
Proof.
  unfold Query.first. intros Hfind Hkey Hp.
  induction rows as [|r rows IH]; simpl in *; [discriminate|].
  destruct (p r) eqn:E.
  - injection Hfind as ->. rewrite Hkey, Z.eqb_refl, Hp. reflexivity.
  - destruct (key r =? key new); [now rewrite Hp|]. rewrite E. auto.
Qed.

Lemma get_current_user_reading (sha256_hexdigest : string -> string)
    (credentials : HTTPBasicCredentials.t) (db : DB) :
  get_current_user sha256_hexdigest credentials db
  = match Query.first
            (fun u => (User.username u =? HTTPBasicCredentials.username credentials)%string)
            (users db) with
    | Some user =>
        if (sha256_hexdigest (HTTPBasicCredentials.password credentials)
            =? User.hashed_password user)%string
        then if not_bool (User.is_active user)
             then (Raise (HTTPException 400 "Inactive user"), db)
             else (Return user, db)
        else (Raise (HTTPException 401 "Invalid authentication credentials"), db)
    | None => (Raise (HTTPException 401 "Invalid authentication credentials"), db)
    end.
Proof.
  unfold get_current_user, verify_password, hash_password.
  unfold bind at 1. unfold session at 1.
  destruct (Query.first _ (users db)) as [user|]; [|reflexivity].
  destruct (_ =? _)%string; [|reflexivity]. cbn [negb].
  unfold raise_if, bind. destruct (not_bool (User.is_active user)); reflexivity.
Qed.

(** X29. Deactivating a student with a linked account locks the account
    out.  When account ids are unique and [toggle_student_active] answers
    that it set the account [uid] inactive, credentials with which
    [get_current_user] returned that account before the toggle are
    answered with status 400 "Inactive user" after it. *)
Theorem deactivated_account_cannot_log_in :
  forall (sha256_hexdigest : string -> string) (student_id uid : Z) (db : DB)
         (response : ToggleActiveResponse.t)
         (credentials : HTTPBasicCredentials.t) (user : User.t),
    NoDup (map User.id (users db)) ->
    run (toggle_student_active student_id) db = Return response ->
    ToggleActiveResponse.user_id response = Some uid ->
    ToggleActiveResponse.is_active response = Some false ->
    run (get_current_user sha256_hexdigest credentials) db = Return user ->
    User.id user = uid ->
    let db' := exec (toggle_student_active student_id) db in
    get_current_user sha256_hexdigest credentials db'
    = (Raise (HTTPException 400 "Inactive user"), db').
Proof.
  intros sha256_hexdigest student_id uid db response credentials user
         Hnd Hrun Huid Hfalse Hlogin Hid db'.
  subst db'. unfold run, exec in *.
  destruct (Query.first (fun s => Student.id s =? student_id) (students db))
    as [student|] eqn:Hs.
  2:{ unfold toggle_student_active in Hrun. unfold bind at 1 in Hrun.
      unfold session at 1 in Hrun. rewrite Hs in Hrun. discriminate. }
  rewrite (toggle_student_active_reading student_id db student Hs) in Hrun |- *.
  destruct (linked_user db student) as [u|] eqn:Hu;
    cbv zeta in Hrun |- *; cbn [fst snd] in Hrun |- *; injection Hrun as <-;
    cbn [ToggleActiveResponse.is_active ToggleActiveResponse.user_id] in Hfalse, Huid;
    [|discriminate].
  injection Huid as Huid.
  rewrite get_current_user_reading in Hlogin.
  destruct (Query.first _ (users db)) as [found|] eqn:Hfound; [|discriminate].
  destruct (_ =? User.hashed_password found)%string eqn:Hpw; [|discriminate].
  destruct (not_bool (User.is_active found)); [discriminate|].
  cbn [fst] in Hlogin. injection Hlogin as ->.
  assert (Hsame : u = user).
  { destruct (linked_user_found db student u Hu) as (k & _ & _ & _ & Hfirst).
    apply (unique_key_row User.id (users db)); [exact Hnd| | |congruence].
    - exact (proj1 (first_some _ _ _ Hfirst)).
    - exact (proj1 (first_some _ _ _ Hfound)). }
  subst u.
  set (user' := user_with_active user (Some (negb (py_bool (User.is_active user))))).
  rewrite get_current_user_reading. cbn [users Store.set_users].
  change (User.id user) with (User.id user').
  rewrite (first_after_update _ User.id user' user (users db) Hfound eq_refl).
  - cbn [user' user_with_active User.hashed_password User.is_active].
    rewrite Hpw. injection Hfalse as ->. reflexivity.
  - pose proof (proj2 (first_some _ _ _ Hfound)) as Hname. exact Hname.
Qed.

Lemma deactivated_account_cannot_log_in_witness :
  run (get_current_user Sample.digest (HTTPBasicCredentials.mk "abel" "pw"))
      Sample.db_login
  = Return (User.mk 9 "abel" "abel@example.com" (Sample.digest "pw") "student"
              (Some true) None)
  /\ run (get_current_user Sample.digest (HTTPBasicCredentials.mk "abel" "pw"))
         (exec (toggle_student_active 5) Sample.db_login)
     = Raise (HTTPException 400 "Inactive user").
Proof.
  split; [reflexivity|].
  unfold run.
  rewrite (deactivated_account_cannot_log_in Sample.digest 5 9 Sample.db_login
             (ToggleActiveResponse.mk 5 (Some 9) (Some false))
             (HTTPBasicCredentials.mk "abel" "pw")
             (User.mk 9 "abel" "abel@example.com" (Sample.digest "pw") "student"
                (Some true) None)).
  - reflexivity.
  - repeat constructor. intros [].
  - reflexivity.
  - reflexivity.
  - reflexivity.
  - reflexivity.
  - reflexivity.
Defined.
